(** * The agent orchestration engine of the NEXO.AI website-builder backend

    A shallow embedding of the orchestration core of [src/index.js] (and of
    its older near-duplicate, the second server file of the repository):
    the retry executor [retryWithBackoff], the response-text extraction
    [extractResponseText], the file-write tool [writeToFile], the agent loop
    [runAgent] and the bounded chat history of [POST /api/chat].

    JavaScript values are modelled by an inductive type with the language's
    truthiness; thrown exceptions by a completion type; the asynchronous,
    effectful functions by state passing over a world that holds the
    external collaborators (model backend, storage, timers), the
    process-wide [ProjectHistory] map and a ghost trace of the observable
    events (attempts, sleeps, handler executions, storage saves). *)

From Stdlib Require Import ZArith Lia Ascii String.
From stdpp Require Import base option list gmap strings pretty.

Set Warnings "-register-all".

Local Open Scope string_scope.
Local Open Scope Z_scope.
Local Open Scope list_scope.

(* ===================================================================== *)
(** ** JavaScript values, strings and completions                        *)
(* ===================================================================== *)

Module Js.

(** The values that flow through the core: tool arguments, tool results,
    file maps.  Objects keep their fields in insertion order. *)
Inductive JsVal : Type :=
| JUndefined
| JNull
| JBool (b : bool)
| JNum (n : Z)
| JStr (s : string)
| JArr (items : list JsVal)
| JObj (fields : list (string * JsVal)).

(** [typeof v] *)
Definition typeof (v : JsVal) : string :=
  match v with
  | JUndefined => "undefined"
  | JNull => "object"
  | JBool _ => "boolean"
  | JNum _ => "number"
  | JStr _ => "string"
  | JArr _ | JObj _ => "object"
  end.

(** A string is truthy unless it is empty. *)
Definition nonEmpty (s : string) : bool :=
  match s with
  | EmptyString => false
  | String _ _ => true
  end.

(** [ToBoolean]: what [if (v)], [!v] and [v && w] test. *)
Definition truthy (v : JsVal) : bool :=
  match v with
  | JUndefined | JNull => false
  | JBool b => b
  | JNum n => negb (n =? 0)
  | JStr s => nonEmpty s
  | JArr _ | JObj _ => true
  end.

(** An optional string field ([string | undefined]) under [ToBoolean]. *)
Definition truthyStr (o : option string) : bool :=
  match o with
  | Some s => nonEmpty s
  | None => false
  end.

(** The value thrown by a failing operation: an [Error] whose [message]
    may be missing. *)
Record JsError : Type := mkError { message : option string }.

Definition Error_ (msg : string) : JsError := mkError (Some msg).

(** The outcome of evaluating a call: a value, or a thrown error. *)
Inductive Completion (A : Type) : Type :=
| Normal (a : A)
| Throw (e : JsError).
Arguments Normal {A} a.
Arguments Throw {A} e.

(** Own-property lookup in an object literal. *)
Fixpoint assoc (k : string) (fs : list (string * JsVal)) : JsVal :=
  match fs with
  | [] => JUndefined
  | (k', v) :: rest => if String.eqb k k' then v else assoc k rest
  end.

(** [v.k] / [v[k]]: a [TypeError] on [undefined] and [null], the field of
    an object, [undefined] on everything else (no built-in property is
    read by the modelled code). *)
Definition getProp (v : JsVal) (k : string) : Completion JsVal :=
  match v with
  | JUndefined =>
      Throw (Error_ ("Cannot read properties of undefined (reading '" +:+ k +:+ "')"))
  | JNull =>
      Throw (Error_ ("Cannot read properties of null (reading '" +:+ k +:+ "')"))
  | JObj fs => Normal (assoc k fs)
  | _ => Normal JUndefined
  end.

(** [function f({ k, ... })] called with [v]: the destructuring of a
    parameter throws on [undefined] and [null], with the message of the
    engine, and reads the property otherwise. *)
Definition destructure (v : JsVal) (k : string) : Completion JsVal :=
  match v with
  | JUndefined =>
      Throw (Error_ ("Cannot destructure property '" +:+ k
                     +:+ "' of 'undefined' as it is undefined."))
  | JNull =>
      Throw (Error_ ("Cannot destructure property '" +:+ k
                     +:+ "' of 'object null' as it is null."))
  | _ => getProp v k
  end.

(** [s.includes(sub)] *)
Fixpoint includes (sub s : string) : bool :=
  String.prefix sub s
  || match s with
     | EmptyString => false
     | String _ rest => includes sub rest
     end.

(** The separators of the regular expression [/[\\/]/]. *)
Definition isPathSep (c : ascii) : bool :=
  (c =? "/")%char || (c =? "\")%char.

(** [s.split(/[\\/]/)]: never empty, [""] splits to [[""]]. *)
Fixpoint splitPath (s : string) : list string :=
  match s with
  | EmptyString => [EmptyString]
  | String c rest =>
      if isPathSep c then EmptyString :: splitPath rest
      else match splitPath rest with
           | seg :: segs => String c seg :: segs
           | [] => [String c EmptyString]
           end
  end.

(** [arr.findIndex(p)], with JavaScript's [-1] for "not found". *)
Fixpoint findIndex {A : Type} (p : A -> bool) (l : list A) : Z :=
  match l with
  | [] => -1
  | x :: rest =>
      if p x then 0
      else let i := findIndex p rest in
           if i =? -1 then -1 else i + 1
  end.

(** [arr[i]] for an integer index: [None] is [undefined]. *)
Definition index {A : Type} (l : list A) (i : Z) : option A :=
  if i <? 0 then None else l !! Z.to_nat i.

(** The text a template literal inserts for a [string | undefined]. *)
Definition showUndef (o : option string) : string := default "undefined" o.

(** The text a template literal inserts for a [string | null]. *)
Definition showNull (o : option string) : string := default "null" o.

(** The double-quote character, as a one-character string. *)
Definition dq : string := String (ascii_of_nat 34) EmptyString.

End Js.
Import Js.

(* ===================================================================== *)
(** ** Conversation turns and backend responses                          *)
(* ===================================================================== *)

(** The role of a history entry. *)
Inductive Role : Type := user | model.

(** A tool call selected by the model: [{ name, args }]. *)
Record FunctionCall : Type := mkCall { name : string; args : JsVal }.

(** The single part a history entry carries: [{ text }],
    [{ functionCall }] or [{ functionResponse: { name, response: { result } } }]. *)
Inductive TurnPart : Type :=
| PText (t : option string)
| PFunctionCall (fc : FunctionCall)
| PFunctionResponse (toolName : string) (result : JsVal).

(** One entry of a project history: [{ role, parts: [...] }]. *)
Record Turn : Type := mkTurn { role : Role; parts : list TurnPart }.

Definition userText (t : string) : Turn := mkTurn user [PText (Some t)].
Definition modelText (t : option string) : Turn := mkTurn model [PText t].
Definition modelCall (fc : FunctionCall) : Turn := mkTurn model [PFunctionCall fc].
Definition userResult (n : string) (r : JsVal) : Turn :=
  mkTurn user [PFunctionResponse n r].

(** The response of the generative backend, with the fields the code reads. *)
Record RPart : Type := mkRPart { part_text : option string }.
Record Content : Type := mkContent { content_parts : option (list RPart) }.
Record Candidate : Type := mkCandidate {
  finishReason : option string;
  content : option Content;
  candidate_text : option string
}.
Record Response : Type := mkResponse {
  text : option string;
  candidates : option (list Candidate);
  functionCalls : option (list FunctionCall)
}.

(** What [ai.models.generateContent] is called with: the model name, the
    conversation, and the two values the system instruction is built from. *)
Record GenRequest : Type := mkRequest {
  req_model : string;
  req_contents : list Turn;
  req_isUpdate : bool;
  req_projectName : option string
}.

(* ===================================================================== *)
(** ** The world: collaborators, process state, observable events        *)
(* ===================================================================== *)

(** Ghost events, recorded in the order in which they happen. *)
Inductive Event : Type :=
| EvAttempt (attempt : Z)
| EvSleep (ms : Z)
| EvHandler (toolName : string) (toolArgs : JsVal) (userId : option string)
| EvSave (projectName fileName : option string) (content : JsVal)
         (userId : option string).

(** The external collaborators.  [B] is the state of the model backend,
    [E] the state of everything else (storage bucket, shell, deployment
    provider, clock). *)
Class Collaborators (B E : Type) : Type := {
  (** [ai.models.generateContent(request)] *)
  generateContent : GenRequest -> B -> Completion Response * B;
  (** the passing of [ms] milliseconds *)
  elapse : Z -> E -> E;
  (** [storage && storageReady] *)
  storageLoaded : E -> bool;
  (** [storage.saveFile(projectName, fileName, content, userId)] *)
  saveFile : option string -> option string -> JsVal -> option string ->
             E -> Completion unit * E;
  (** [storage.readAllProjectFiles(projectName, userId)] *)
  readAllProjectFiles : JsVal -> option string -> E -> Completion JsVal * E;
  (** the handlers [executeCommand], [listProjects], [updateProjectFiles],
      [deployProject] and [translateContent], by name *)
  externalHandler : string -> JsVal -> option string -> E -> Completion JsVal * E
}.

(** The state an operation runs in. *)
Record World (B E : Type) : Type := mkWorld {
  backend : B;
  env : E;
  trace : list Event;
  ProjectHistory : gmap (option string) (list Turn)
}.
Arguments mkWorld {B E} _ _ _ _.
Arguments backend {B E} _.
Arguments env {B E} _.
Arguments trace {B E} _.
Arguments ProjectHistory {B E} _.

(** Effectful computations: state passing with exceptions. *)
Definition M (B E A : Type) : Type := World B E -> Completion A * World B E.

Definition ret {B E A} (a : A) : M B E A := fun w => (Normal a, w).

Definition throw {B E A} (e : JsError) : M B E A := fun w => (Throw e, w).

Definition bind {B E A C} (m : M B E A) (k : A -> M B E C) : M B E C :=
  fun w => match m w with
           | (Normal a, w') => k a w'
           | (Throw e, w') => (Throw e, w')
           end.

(** [try { m } catch (error) { h error }] *)
Definition tryCatch {B E A} (m : M B E A) (h : JsError -> M B E A) : M B E A :=
  fun w => match m w with
           | (Normal a, w') => (Normal a, w')
           | (Throw e, w') => h e w'
           end.

(** Lifting of a pure completion. *)
Definition liftC {B E A} (c : Completion A) : M B E A := fun w => (c, w).

Declare Scope js_scope.
Delimit Scope js_scope with js.
Notation "x <- m ;; k" := (bind m (fun x => k))
  (at level 100, m at next level, right associativity) : js_scope.
Notation "m ;;; k" := (bind m (fun _ => k))
  (at level 100, right associativity) : js_scope.

Definition emit {B E} (ev : Event) : M B E unit :=
  fun w => (Normal tt, mkWorld (backend w) (env w) (trace w ++ [ev]) (ProjectHistory w)).

(** Run an operation of the environment [E]. *)
Definition onEnv {B E A} (op : E -> Completion A * E) : M B E A :=
  fun w => let '(c, e') := op (env w) in
           (c, mkWorld (backend w) e' (trace w) (ProjectHistory w)).

(** Run an operation of the model backend [B]. *)
Definition onBackend {B E A} (op : B -> Completion A * B) : M B E A :=
  fun w => let '(c, b') := op (backend w) in
           (c, mkWorld b' (env w) (trace w) (ProjectHistory w)).

(** Run an operation of the outside world, which sees neither the process
    state nor the ghost trace. *)
Definition external {B E A} (op : B -> E -> Completion A * B * E) : M B E A :=
  fun w => let '(c, b', e') := op (backend w) (env w) in
           (c, mkWorld b' e' (trace w) (ProjectHistory w)).

(** [await new Promise(resolve => setTimeout(resolve, ms))] *)
Definition sleep {B E} `{!Collaborators B E} (ms : Z) : M B E unit :=
  fun w => (Normal tt,
            mkWorld (backend w) (elapse ms (env w)) (trace w ++ [EvSleep ms])
                    (ProjectHistory w)).

(* ===================================================================== *)
(** ** RetryExecutor: [retryWithBackoff]                                 *)
(* ===================================================================== *)

(** [error.message && error.message.includes('503')] *)
Definition is503 (e : JsError) : bool :=
  match message e with
  | Some m => nonEmpty m && includes "503" m
  | None => false
  end.

(** The [for (attempt; attempt <= maxRetries; attempt++)] loop; [fuel]
    bounds the number of remaining iterations. *)
Fixpoint retryLoop {B E A} `{!Collaborators B E} (fn : M B E A) (fuel : nat)
    (attempt maxRetries baseDelay : Z) : M B E (option A) :=
  match fuel with
  | O => ret None
  | S fuel' =>
      if attempt <=? maxRetries then
        (emit (EvAttempt attempt) ;;;
         tryCatch (a <- fn ;; ret (Some a))
           (fun error =>
              if attempt =? maxRetries then throw error
              else if is503 error then
                (sleep (baseDelay * 2 ^ (attempt - 1)) ;;;
                 retryLoop fn fuel' (attempt + 1) maxRetries baseDelay)
              else throw error))%js
      else ret None
  end.

(** [retryWithBackoff(fn, maxRetries = 3, baseDelay = 1000)].  The result
    is [None] ([undefined]) when the loop falls through without a call. *)
Definition retryWithBackoff {B E A} `{!Collaborators B E} (fn : M B E A)
    (maxRetries baseDelay : Z) : M B E (option A) :=
  retryLoop fn (Z.to_nat maxRetries) 1 maxRetries baseDelay.

(* ===================================================================== *)
(** ** ModelGateway: [extractResponseText]                               *)
(* ===================================================================== *)

(** [response.candidates && response.candidates[0]] *)
Definition firstCandidate (r : Response) : option Candidate :=
  match candidates r with
  | Some cs => cs !! 0%nat
  | None => None
  end.

(** [candidate.finishReason === 'MALFORMED_FUNCTION_CALL'] *)
Definition isMalformed (c : Candidate) : bool :=
  match finishReason c with
  | Some fr => String.eqb fr "MALFORMED_FUNCTION_CALL"
  | None => false
  end.

(** [candidate.content && candidate.content.parts && candidate.content.parts[0]] *)
Definition firstPart (c : Candidate) : option RPart :=
  match content c with
  | Some ct => match content_parts ct with
               | Some ps => ps !! 0%nat
               | None => None
               end
  | None => None
  end.

(** [candidate.content && !candidate.content.parts] *)
Definition contentWithoutParts (c : Candidate) : bool :=
  match content c with
  | Some ct => match content_parts ct with
               | Some _ => false
               | None => true
               end
  | None => false
  end.

(** The body of [extractResponseText] below the malformed-call check. *)
Definition extractFromCandidate (candidate : Candidate) : Completion (option string) :=
  match firstPart candidate with
  | Some p => Normal (part_text p)
  | None =>
      if truthyStr (candidate_text candidate) then Normal (candidate_text candidate)
      else if contentWithoutParts candidate then Normal (Some "")
      else
        (* [candidate.content?.parts?.[0]?.text] is falsy here *)
        match firstPart candidate with
        | Some p => if truthyStr (part_text p) then Normal (part_text p)
                    else Throw (Error_ "Unexpected candidate structure from AI")
        | None => Throw (Error_ "Unexpected candidate structure from AI")
        end
  end.

(** [extractResponseText(response)] of [src/index.js]. *)
Definition extractResponseText (response : Response) : Completion (option string) :=
  if truthyStr (text response) then Normal (text response)
  else match firstCandidate response with
       | Some candidate =>
           if isMalformed candidate then
             Throw (Error_ "AI made a malformed function call. Please try again with a simpler description.")
           else extractFromCandidate candidate
       | None => Throw (Error_ "Unexpected response format from AI")
       end.

(** [extractResponseText(response)] of the older server file: the same
    function without the malformed-call check. *)
Definition extractResponseText_old (response : Response) : Completion (option string) :=
  if truthyStr (text response) then Normal (text response)
  else match firstCandidate response with
       | Some candidate => extractFromCandidate candidate
       | None => Throw (Error_ "Unexpected response format from AI")
       end.

(* ===================================================================== *)
(** ** ToolRegistry: the handlers modelled from the source               *)
(* ===================================================================== *)

(** The text a template literal inserts for a value. *)
Fixpoint toStr (v : JsVal) : string :=
  match v with
  | JUndefined => "undefined"
  | JNull => "null"
  | JBool true => "true"
  | JBool false => "false"
  | JNum n => pretty n
  | JStr s => s
  | JArr items =>
      (fix join (l : list JsVal) : string :=
         match l with
         | [] => ""
         | x :: rest =>
             let sx := match x with
                       | JUndefined | JNull => ""
                       | _ => toStr x
                       end in
             match rest with
             | [] => sx
             | _ :: _ => sx +:+ "," +:+ join rest
             end
         end) items
  | JObj _ => "[object Object]"
  end.

(** [Object.keys(v).length] *)
Definition keyCount (v : JsVal) : Completion nat :=
  match v with
  | JUndefined | JNull =>
      Throw (Error_ "Cannot convert undefined or null to object")
  | JObj fs => Normal (length fs)
  | JArr items => Normal (length items)
  | JStr s => Normal (String.length s)
  | JBool _ | JNum _ => Normal 0%nat
  end.

(** The segment test of [pathParts.findIndex(part => part === 'projects')]. *)
Definition isProjectsSegment (part : string) : bool := String.eqb part "projects".

(** The wait of at most fifty times 100 ms for the storage service. *)
Fixpoint awaitStorage {B E} `{!Collaborators B E} (rounds : nat) : M B E unit :=
  match rounds with
  | O => ret tt
  | S rounds' =>
      (sleep 100 ;;;
       fun w => if storageLoaded (env w) then (Normal tt, w)
                else awaitStorage rounds' w)%js
  end.

(** The guard at the head of [writeToFile]: when the storage service is
    not loaded, wait for it; if it still is not, throw. *)
Definition ensureStorage {B E} `{!Collaborators B E} : M B E unit :=
  fun w => if storageLoaded (env w) then (Normal tt, w)
           else (awaitStorage 50 ;;;
                 fun w' => if storageLoaded (env w') then (Normal tt, w')
                           else (Throw (Error_ "Storage service not initialized. Please restart the server."), w'))%js w.

(** The body of the [try] block of [writeToFile]. *)
Definition writeToFile_try {B E} `{!Collaborators B E}
    (filePath content : JsVal) (userId : option string) : M B E JsVal :=
  (ensureStorage ;;;
   pathParts <- liftC match filePath with
                      | JStr s => Normal (splitPath s)
                      | JUndefined =>
                          Throw (Error_ "Cannot read properties of undefined (reading 'split')")
                      | JNull =>
                          Throw (Error_ "Cannot read properties of null (reading 'split')")
                      | _ => Throw (Error_ "filePath.split is not a function")
                      end ;;
   let projectsIndex := findIndex isProjectsSegment pathParts in
   if (projectsIndex =? -1) || (projectsIndex >=? Z.of_nat (length pathParts) - 2) then
     throw (Error_ "Invalid file path. Expected format: projects/projectName/fileName")
   else
     let projectName := index pathParts (projectsIndex + 1) in
     let fileName := index pathParts (projectsIndex + 2) in
     emit (EvSave projectName fileName content userId) ;;;
     onEnv (saveFile projectName fileName content userId) ;;;
     ret (JStr ("Success: Content written to " +:+ showUndef fileName
                +:+ " in project " +:+ showUndef projectName)))%js.

(** [writeToFile({ filePath, content }, userId = null)].  The older server
    file has the same function without the [userId] parameter, which is
    this one at [userId = None]. *)
Definition writeToFile {B E} `{!Collaborators B E}
    (args : JsVal) (userId : option string) : M B E JsVal :=
  (filePath <- liftC (destructure args "filePath") ;;
   content <- liftC (destructure args "content") ;;
   tryCatch (writeToFile_try filePath content userId)
     (fun error => ret (JStr ("Error: " +:+ showUndef (message error)))))%js.

(** [readProjectFiles({ projectName }, userId = null)] *)
Definition readProjectFiles {B E} `{!Collaborators B E}
    (args : JsVal) (userId : option string) : M B E JsVal :=
  (projectName <- liftC (destructure args "projectName") ;;
   tryCatch
     (files <- onEnv (readAllProjectFiles projectName userId) ;;
      n <- liftC (keyCount files) ;;
      if (n =? 0)%nat then
        ret (JStr ("Error: Project " +:+ toStr projectName +:+ " not found or has no files"))
      else ret files)
     (fun error => ret (JStr ("Error: " +:+ showUndef (message error)))))%js.

(** A tool handler, as the agent loop calls it. *)
Definition Handler (B E : Type) : Type := JsVal -> option string -> M B E JsVal.

(** [availableTools[name]]: the seven handlers of the catalog ([None] is
    [undefined]; inherited properties of the object literal are never
    requested by the backend and are not modelled). *)
Definition availableTools {B E} `{!Collaborators B E} (toolName : string)
    : option (Handler B E) :=
  if String.eqb toolName "writeToFile" then Some writeToFile
  else if String.eqb toolName "readProjectFiles" then Some readProjectFiles
  else if String.eqb toolName "executeCommand"
          || String.eqb toolName "listProjects"
          || String.eqb toolName "updateProjectFiles"
          || String.eqb toolName "deployProject"
          || String.eqb toolName "translateContent"
       then Some (fun a u => onEnv (externalHandler toolName a u))
  else None.

(* ===================================================================== *)
(** ** AgentLoop: [runAgent]                                             *)
(* ===================================================================== *)

(** The two copies of the loop in the repository: [src/index.js] and the
    older server file, which lacks the malformed-call recovery and the
    acting user, and falls back to a second model on an overload. *)
Inductive Revision : Type := Current | Older.

(** The parameters of one run; none of them is ever reassigned. *)
Record RunConfig : Type := mkConfig {
  revision : Revision;
  projectName : option string;
  isUpdate : bool;
  userId : option string
}.

(** The newline character, as a one-character string. *)
Definition nl : string := String (ascii_of_nat 10) EmptyString.

Definition presence (v : JsVal) : string :=
  if truthy v then "Present" else "Missing".

(** The first context turn of an update. *)
Definition updateContextMessage (pn : option string) (existingFiles : list (string * JsVal))
    : string :=
  "🚨 UPDATE CONTEXT: I want to update the existing project " +:+ dq +:+ showNull pn
  +:+ dq +:+ ". Here are the current files:" +:+ nl +:+ nl
  +:+ "HTML: " +:+ presence (assoc "index.html" existingFiles) +:+ nl
  +:+ "CSS: " +:+ presence (assoc "style.css" existingFiles) +:+ nl
  +:+ "JavaScript: " +:+ presence (assoc "script.js" existingFiles) +:+ nl +:+ nl
  +:+ "IMPORTANT: You MUST use the updateProjectFiles tool to modify these existing files. DO NOT use writeToFile. Make ONLY the requested changes while preserving everything else.".

(** The second context turn of an update: the style file, verbatim. *)
Definition cssContextMessage (css : JsVal) : string :=
  "CURRENT CSS CONTENT:" +:+ nl +:+ toStr css +:+ nl +:+ nl
  +:+ "Please analyze this CSS and make ONLY the requested changes (like color changes from red to black) while keeping everything else exactly the same.".

(** The corrective turn after a malformed tool call. *)
Definition malformedCallMessage (pn : option string) : string :=
  "🚨 ERROR: Your last function call was malformed. Please follow these rules EXACTLY:"
  +:+ nl +:+ nl
  +:+ "1. For writeToFile, the filePath MUST be in this exact format:" +:+ nl
  +:+ "   - " +:+ dq +:+ "projects/" +:+ showNull pn +:+ "/index.html" +:+ dq +:+ nl
  +:+ "   - " +:+ dq +:+ "projects/" +:+ showNull pn +:+ "/style.css" +:+ dq +:+ nl
  +:+ "   - " +:+ dq +:+ "projects/" +:+ showNull pn +:+ "/script.js" +:+ dq +:+ nl
  +:+ nl
  +:+ "2. Make sure all required parameters are provided correctly" +:+ nl
  +:+ "3. Use valid JSON format for all arguments" +:+ nl
  +:+ "4. Do NOT add extra fields or modify the function signature" +:+ nl
  +:+ nl
  +:+ "Please try again with the correct format.".

(** The corrective turn when an update requests [writeToFile]. *)
Definition writeForbiddenMessage (pn : option string) : string :=
  "🚨 ERROR: You cannot use writeToFile tool for updates. You MUST use updateProjectFiles tool to modify existing files in project "
  +:+ dq +:+ showNull pn +:+ dq +:+ ". Please try again with the correct tool.".

(** The corrective turn when an update requests any other disallowed tool. *)
Definition wrongToolMessage (toolName : string) : string :=
  "🚨 ERROR: For updates, you should use updateProjectFiles tool to modify files. You used "
  +:+ toolName
  +:+ " which is not appropriate for updates. Please use updateProjectFiles to make the requested changes.".

(** [name !== 'updateProjectFiles' && name !== 'readProjectFiles' &&
     name !== 'listProjects'], negated. *)
Definition allowedForUpdate (toolName : string) : bool :=
  String.eqb toolName "updateProjectFiles"
  || String.eqb toolName "readProjectFiles"
  || String.eqb toolName "listProjects".

(** The handlers that receive the acting user in [src/index.js]. *)
Definition takesUserId (toolName : string) : bool :=
  String.eqb toolName "writeToFile"
  || String.eqb toolName "readProjectFiles"
  || String.eqb toolName "updateProjectFiles"
  || String.eqb toolName "deployProject".

(** The user the handler of [toolName] is called with. *)
Definition handlerUser (cfg : RunConfig) (toolName : string) : option string :=
  match revision cfg with
  | Current => if takesUserId toolName then userId cfg else None
  | Older => None
  end.

(** [projectName] under [ToBoolean]. *)
Definition hasProjectName (cfg : RunConfig) : bool := truthyStr (projectName cfg).

(** The context turns pushed for the value [readProjectFiles] returned.
    Both pushes come after the last operation that can throw, so the
    turns are computed first and appended together. *)
Definition contextTurns (cfg : RunConfig) (existingFiles : JsVal)
    : Completion (list Turn) :=
  if String.eqb (typeof existingFiles) "object" then
    match getProp existingFiles "error" with
    | Throw e => Throw e
    | Normal err =>
        if negb (truthy err) then
          let fs := match existingFiles with JObj fs => fs | _ => [] end in
          Normal (userText (updateContextMessage (projectName cfg) fs)
                  :: (if truthy (assoc "style.css" fs)
                      then [userText (cssContextMessage (assoc "style.css" fs))]
                      else []))
        else Normal []
    end
  else Normal [].

(** [ProjectHistory.has / set / get] at the start of a run, and the copy
    [[...projectHistory]]. *)
Definition loadHistory {B E} (cfg : RunConfig) : M B E (list Turn) :=
  fun w => match ProjectHistory w !! projectName cfg with
           | Some h => (Normal h, w)
           | None =>
               (Normal [],
                mkWorld (backend w) (env w) (trace w)
                        (<[projectName cfg := []]> (ProjectHistory w)))
           end.

(** [ProjectHistory.set(projectName, currentHistory)] *)
Definition storeHistory {B E} (cfg : RunConfig) (h : list Turn) : M B E unit :=
  fun w => (Normal tt,
            mkWorld (backend w) (env w) (trace w)
                    (<[projectName cfg := h]> (ProjectHistory w))).

(** Seeding: the statements of [runAgent] before the loop. *)
Definition seed {B E} `{!Collaborators B E} (cfg : RunConfig) (userProblem : string)
    : M B E (list Turn) :=
  (projectHistory <- loadHistory cfg ;;
   context <-
     (if isUpdate cfg && hasProjectName cfg then
        tryCatch
          (emit (EvHandler "readProjectFiles"
                   (JObj [("projectName", JStr (showNull (projectName cfg)))])
                   (handlerUser cfg "readProjectFiles")) ;;;
           existingFiles <- readProjectFiles
                              (JObj [("projectName", JStr (showNull (projectName cfg)))])
                              (handlerUser cfg "readProjectFiles") ;;
           liftC (contextTurns cfg existingFiles))
          (fun _ => ret [])
      else ret []) ;;
   ret (projectHistory ++ context ++ [userText userProblem]))%js.

(** The operation handed to [retryWithBackoff]: one generation request, in
    the older file with a second model tried after an overload. *)
Definition generate {B E} `{!Collaborators B E} (cfg : RunConfig)
    (currentHistory : list Turn) : M B E Response :=
  match revision cfg with
  | Current =>
      onBackend (generateContent
                   (mkRequest "gemini-2.5-flash" currentHistory (isUpdate cfg)
                              (projectName cfg)))
  | Older =>
      tryCatch
        (onBackend (generateContent
                      (mkRequest "gemini-2.5-flash" currentHistory (isUpdate cfg)
                                 (projectName cfg))))
        (fun primaryError =>
           if is503 primaryError then
             onBackend (generateContent
                          (mkRequest "gemini-1.5-flash" currentHistory (isUpdate cfg)
                                     (projectName cfg)))
           else throw primaryError)
  end.

(** [response.candidates && response.candidates[0] &&
     response.candidates[0].finishReason === 'MALFORMED_FUNCTION_CALL'] *)
Definition reportsMalformed (response : Response) : bool :=
  match firstCandidate response with
  | Some c => isMalformed c
  | None => false
  end.

(** The malformed-call check at the head of the loop body, which the
    older file does not have. *)
Definition malformedBranch (cfg : RunConfig) (response : Response) : bool :=
  match revision cfg with
  | Current => reportsMalformed response
  | Older => false
  end.

(** How one iteration of [while (true)] ends. *)
Inductive Step : Type :=
| Continue (currentHistory : list Turn)
| Return (responseText : option string).

(** The tool-dispatch branch of the loop body. *)
Definition dispatch {B E} `{!Collaborators B E} (cfg : RunConfig)
    (currentHistory : list Turn) (fc : FunctionCall) : M B E Step :=
  if isUpdate cfg && String.eqb (name fc) "writeToFile" then
    ret (Continue (currentHistory ++ [userText (writeForbiddenMessage (projectName cfg))]))
  else if isUpdate cfg && negb (allowedForUpdate (name fc)) then
    ret (Continue (currentHistory ++ [userText (wrongToolMessage (name fc))]))
  else
    match availableTools (name fc) with
    | None => throw (Error_ "funCall is not a function")
    | Some funCall =>
        (emit (EvHandler (name fc) (args fc) (handlerUser cfg (name fc))) ;;;
         result <- funCall (args fc) (handlerUser cfg (name fc)) ;;
         ret (Continue (currentHistory
                        ++ [modelCall fc; userResult (name fc) result])))%js
    end.

(** The text extraction of the revision at hand. *)
Definition extractText (cfg : RunConfig) (response : Response)
    : Completion (option string) :=
  match revision cfg with
  | Current => extractResponseText response
  | Older => extractResponseText_old response
  end.

(** One iteration of the [while (true)] loop of [runAgent]. *)
Definition loopBody {B E} `{!Collaborators B E} (cfg : RunConfig)
    (currentHistory : list Turn) : M B E Step :=
  (r <- retryWithBackoff (generate cfg currentHistory) 3 1000 ;;
   match r with
   | None => throw (Error_ "Cannot read properties of undefined (reading 'candidates')")
   | Some response =>
       if malformedBranch cfg response then
         ret (Continue (currentHistory
                        ++ [userText (malformedCallMessage (projectName cfg))]))
       else
         match functionCalls response with
         | Some (fc :: _) => dispatch cfg currentHistory fc
         | _ =>
             responseText <- liftC (extractText cfg response) ;;
             storeHistory cfg (currentHistory ++ [modelText responseText]) ;;;
             ret (Return responseText)
         end
   end)%js.

(** The loop, unrolled at most [fuel] times: [Normal (Return t)] is a run
    that returned [t], [Throw e] one that failed with [e], and
    [Normal (Continue h)] one that is still generating after [fuel]
    iterations with the local history [h]. *)
Fixpoint agentLoop {B E} `{!Collaborators B E} (fuel : nat) (cfg : RunConfig)
    (currentHistory : list Turn) : M B E Step :=
  match fuel with
  | O => ret (Continue currentHistory)
  | S fuel' =>
      (s <- loopBody cfg currentHistory ;;
       match s with
       | Continue h => agentLoop fuel' cfg h
       | Return t => ret (Return t)
       end)%js
  end.

(** [runAgent(userProblem, projectName, isUpdate, userId)] *)
Definition runAgent {B E} `{!Collaborators B E} (fuel : nat) (cfg : RunConfig)
    (userProblem : string) : M B E Step :=
  (h <- seed cfg userProblem ;; agentLoop fuel cfg h)%js.

(* ===================================================================== *)
(** ** ConversationStore: the chat sessions of [POST /api/chat]          *)
(* ===================================================================== *)

(** One entry of a chat session: [{ role, content }]. *)
Record ChatMsg : Type := mkMsg { msg_role : Role; msg_content : option string }.

(** Arrays are objects: [ChatHistory] maps a session key to a reference
    into the heap, and [push] mutates the array a reference points to for
    every holder of the reference. *)
Record ChatState : Type := mkChat {
  heap : gmap nat (list ChatMsg);
  nextRef : nat;
  ChatHistory : gmap string nat
}.

Definition emptyChat : ChatState := mkChat ∅ 0%nat ∅.

(** A new array literal. *)
Definition alloc (items : list ChatMsg) (st : ChatState) : nat * ChatState :=
  (nextRef st, mkChat (<[nextRef st := items]> (heap st)) (S (nextRef st)) (ChatHistory st)).

(** [array.push(m)] through the reference [r]. *)
Definition push (r : nat) (m : ChatMsg) (st : ChatState) : ChatState :=
  mkChat (alter (fun items => items ++ [m]) r (heap st)) (nextRef st) (ChatHistory st).

(** The contents of the array behind [r]. *)
Definition deref (r : nat) (st : ChatState) : list ChatMsg :=
  default [] (heap st !! r).

(** [array.slice(-n)]: the last [n] elements, in order. *)
Definition sliceLast {A : Type} (n : nat) (l : list A) : list A :=
  drop (length l - n) l.

(** The session history stored for [key], as a later request reads it. *)
Definition storedSession (key : string) (st : ChatState) : option (list ChatMsg) :=
  match ChatHistory st !! key with
  | Some r => heap st !! r
  | None => None
  end.

(** [c.toLowerCase()] on the ASCII letters (other bytes are kept). *)
Definition lowerAscii (c : ascii) : ascii :=
  let n := nat_of_ascii c in
  if (65 <=? n)%nat && (n <=? 90)%nat then ascii_of_nat (n + 32) else c.

Fixpoint toLowerCase (s : string) : string :=
  match s with
  | EmptyString => EmptyString
  | String c rest => String (lowerAscii c) (toLowerCase rest)
  end.

(** [\s], on the ASCII white space. *)
Definition isSpace (c : ascii) : bool :=
  let n := nat_of_ascii c in
  (n =? 32)%nat || ((9 <=? n)%nat && (n <=? 13)%nat).

(** The class [[a-zA-Z0-9-_]]. *)
Definition isNameChar (c : ascii) : bool :=
  let n := nat_of_ascii c in
  ((97 <=? n)%nat && (n <=? 122)%nat) || ((65 <=? n)%nat && (n <=? 90)%nat)
  || ((48 <=? n)%nat && (n <=? 57)%nat) || (n =? 45)%nat || (n =? 95)%nat.

Fixpoint takeWhile (p : ascii -> bool) (s : string) : string :=
  match s with
  | EmptyString => EmptyString
  | String c rest => if p c then String c (takeWhile p rest) else EmptyString
  end.

Fixpoint dropWhile (p : ascii -> bool) (s : string) : string :=
  match s with
  | EmptyString => EmptyString
  | String c rest => if p c then dropWhile p rest else s
  end.

(** The keyword of a pattern, matched without regard to case at the head
    of [s]; the result is what follows it. *)
Fixpoint stripKeyword (kw s : string) : option string :=
  match kw, s with
  | EmptyString, _ => Some s
  | String k kw', String c s' =>
      if Ascii.eqb (lowerAscii k) (lowerAscii c) then stripKeyword kw' s' else None
  | String _ _, EmptyString => None
  end.

(** [/kw\s+([a-zA-Z0-9-_]+)/i] anchored at the head of [s]: the captured
    group. *)
Definition matchHere (kw s : string) : option string :=
  match stripKeyword kw s with
  | Some (String c rest) =>
      if isSpace c then
        let g := takeWhile isNameChar (dropWhile isSpace rest) in
        if nonEmpty g then Some g else None
      else None
  | _ => None
  end.

(** [message.match(/kw\s+([a-zA-Z0-9-_]+)/i)]: group 1 of the leftmost match. *)
Fixpoint matchPattern (kw s : string) : option string :=
  match matchHere kw s with
  | Some g => Some g
  | None => match s with
            | EmptyString => None
            | String _ rest => matchPattern kw rest
            end
  end.

Definition updatePatterns : list string :=
  ["update"; "modify"; "change"; "edit"; "improve"; "fix"].

(** [extractProjectName(message, availableProjects)]; [None] is [null]. *)
Definition extractProjectName (message : string) (availableProjects : list string)
    : option string :=
  match find (fun project => includes (toLowerCase project) (toLowerCase message))
             availableProjects with
  | Some project => Some project
  | None =>
      (fix first (ps : list string) : option string :=
         match ps with
         | [] => None
         | kw :: rest => match matchPattern kw message with
                         | Some g => Some g
                         | None => first rest
                         end
         end) updatePatterns
  end.

(** [availableProjects.includes(p)] *)
Definition listIncludes (p : string) (l : list string) : bool :=
  existsb (String.eqb p) l.

(** What the route answered. *)
Inductive ChatReply : Type :=
| BadRequest
| ProjectNotFound (mentioned : string)
| Answered (responseText : option string).

(** The end of the route, once the assistant has answered: push the
    answer, keep the last 20 entries, store the session. *)
Definition recordAnswer (key : string) (sessionHistory : nat) (answer : option string)
    (st : ChatState) : ChatState :=
  (* sessionHistory.push({ role: 'model', content: response.text }) *)
  let st3 := push sessionHistory (mkMsg model answer) st in
  (* if (sessionHistory.length > 20) sessionHistory = sessionHistory.slice(-20) *)
  let '(kept, st4) :=
    if (20 <? length (deref sessionHistory st3))%nat
    then alloc (sliceLast 20 (deref sessionHistory st3)) st3
    else (sessionHistory, st3) in
  (* ChatHistory.set(userId, sessionHistory) *)
  mkChat (heap st4) (nextRef st4) (<[key := kept]> (ChatHistory st4)).

(** The route [POST /api/chat].  [key] is the session key (the user id; in
    the older file the caller's address), [projects] the outcome of the
    project query, [answer] the text [handleChatMessage] resolves to (it
    catches its own failures). *)
Definition chatRoute (key message : string) (currentProject : option string)
    (projects : Completion (list string)) (answer : option string)
    (st : ChatState) : ChatReply * ChatState :=
  if negb (nonEmpty message) then (BadRequest, st)
  else
    (* let sessionHistory = ChatHistory.get(userId) || [] *)
    let '(sessionHistory, st1) :=
      match ChatHistory st !! key with
      | Some r => (r, st)
      | None => alloc [] st
      end in
    (* sessionHistory.push({ role: 'user', content: message }) *)
    let st2 := push sessionHistory (mkMsg user (Some message)) st1 in
    let availableProjects :=
      match projects with
      | Normal l => l
      | Throw _ => []
      end in
    let mentionedProject := extractProjectName message availableProjects in
    let contextProject :=
      if truthyStr mentionedProject then mentionedProject else currentProject in
    if truthyStr contextProject
       && listIncludes (default "" contextProject) availableProjects
    then (Answered answer, recordAnswer key sessionHistory answer st2)
    else if truthyStr mentionedProject
            && negb (listIncludes (default "" mentionedProject) availableProjects)
    then (ProjectNotFound (default "" mentionedProject), st2)
    else (Answered answer, recordAnswer key sessionHistory answer st2).


(* ===================================================================== *)
(** ** A scripted world, to run the model on concrete inputs             *)
(* ===================================================================== *)

(** A storage bucket that finishes loading at time [loadsAt] and answers
    only while [online]. *)
Record Bucket : Type := mkBucket {
  clock : Z;
  loadsAt : Z;
  online : bool;
  objects : list (string * string * string)
}.

(** The content stored for [project/file], if any. *)
Fixpoint lookupObject (project file : string) (os : list (string * string * string))
    : option string :=
  match os with
  | [] => None
  | (p, f, c) :: rest =>
      if String.eqb p project && String.eqb f file then Some c
      else lookupObject project file rest
  end.

(** The four files [readAllProjectFiles] of the storage service looks for. *)
Definition fileTypes : list string := ["index.html"; "style.css"; "script.js"; "README.md"].

Definition scriptedRead (project : string) (b : Bucket) : JsVal :=
  JObj (omap (fun f => match lookupObject project f (objects b) with
                       | Some c => Some (f, JStr c)
                       | None => None
                       end) fileTypes).

(** The backend answers with the outcomes of a script, in order, and is
    unreachable once the script is exhausted; the bucket stores strings. *)
#[export] Instance scripted : Collaborators (list (Completion Response)) Bucket := {
  generateContent _ script :=
    match script with
    | outcome :: rest => (outcome, rest)
    | [] => (Throw (Error_ "fetch failed"), [])
    end;
  elapse ms b := mkBucket (clock b + ms) (loadsAt b) (online b) (objects b);
  storageLoaded b := loadsAt b <=? clock b;
  saveFile p f c _ b :=
    match online b, p, f, c with
    | true, Some p, Some f, JStr c =>
        (Normal tt, mkBucket (clock b) (loadsAt b) (online b) ((p, f, c) :: objects b))
    | true, _, _, _ => (Throw (Error_ "Supabase upload error: invalid object"), b)
    | false, _, _, _ => (Throw (Error_ "Supabase upload error: fetch failed"), b)
    end;
  readAllProjectFiles p _ b :=
    if online b then (Normal (scriptedRead (toStr p) b), b)
    else (Throw (Error_ "fetch failed"), b);
  externalHandler _ _ _ b := (Normal (JStr "Success: Task executed completely"), b)
}.

(** A text answer and a tool request, as the backend shapes them. *)
Definition textAnswer (t : string) : Response :=
  mkResponse (Some t)
    (Some [mkCandidate (Some "STOP") (Some (mkContent (Some [mkRPart (Some t)]))) None])
    None.

Definition toolRequest (toolName : string) (a : JsVal) : Response :=
  mkResponse None
    (Some [mkCandidate (Some "STOP") (Some (mkContent (Some [mkRPart None]))) None])
    (Some [mkCall toolName a]).

Definition malformedResponse : Response :=
  mkResponse None
    (Some [mkCandidate (Some "MALFORMED_FUNCTION_CALL") (Some (mkContent None)) None])
    None.

(** A world with the given backend script, a loaded empty bucket, no
    events and no project history. *)
Definition scriptedWorld (script : list (Completion Response))
    : World (list (Completion Response)) Bucket :=
  mkWorld script (mkBucket 0 0 true []) [] ∅.

(* ===================================================================== *)
(** ** Vocabulary of the statements                                      *)
(* ===================================================================== *)

(** An operation that fails with the transient-overload marker whatever
    the state of the world. *)
Definition alwaysOverloaded {B E A : Type} (op : B -> E -> Completion A * B * E) : Prop :=
  forall b e, exists err b' e', op b e = (Throw err, b', e') /\ is503 err = true.

(** A response whose direct text field is the empty string, and nothing
    else. *)
Definition emptyTextResponse : Response := mkResponse (Some "") None None.

(** A candidate cut off at the output ceiling: a content, no parts. *)
Definition truncatedCandidate : Candidate :=
  mkCandidate (Some "MAX_TOKENS") (Some (mkContent None)) None.

(** A structured answer in two parts. *)
Definition twoPartResponse : Response :=
  mkResponse None
    (Some [mkCandidate (Some "STOP")
             (Some (mkContent (Some [mkRPart (Some "Hi"); mkRPart (Some "!")])))
             None])
    None.

(** A path conforms when some segment is ["projects"] and at least two
    further segments follow it. *)
Definition conforming (segs : list string) : Prop :=
  exists i : nat, segs !! i = Some "projects" /\ (i + 2 < length segs)%nat.

(** The environment after the wait of [awaitStorage rounds]. *)
Fixpoint waitEnv {B E} `{!Collaborators B E} (rounds : nat) (e : E) : E :=
  match rounds with
  | O => e
  | S rounds' =>
      let e' := elapse 100 e in
      if storageLoaded e' then e' else waitEnv rounds' e'
  end.

(** The number of 100 ms sleeps [awaitStorage rounds] performs. *)
Fixpoint waitRounds {B E} `{!Collaborators B E} (rounds : nat) (e : E) : nat :=
  match rounds with
  | O => O
  | S rounds' =>
      let e' := elapse 100 e in
      if storageLoaded e' then 1%nat else S (waitRounds rounds' e')
  end.

(** The environment in which [writeToFile] gets past (or stops at) its
    storage guard, and the sleeps it took to get there. *)
Definition settledEnv {B E} `{!Collaborators B E} (e : E) : E :=
  if storageLoaded e then e else waitEnv 50 e.

Definition settleSleeps {B E} `{!Collaborators B E} (e : E) : list Event :=
  if storageLoaded e then [] else replicate (waitRounds 50 e) (EvSleep 100).

(** What [writeToFile] returns after [storage.saveFile] completed. *)
Definition saveReport (projectName fileName : string) (c : Completion unit) : JsVal :=
  match c with
  | Normal _ =>
      JStr ("Success: Content written to " +:+ fileName +:+ " in project " +:+ projectName)
  | Throw error => JStr ("Error: " +:+ showUndef (message error))
  end.

(** The storage saves recorded in a trace. *)
Definition isSaveEvent (ev : Event) : bool :=
  match ev with
  | EvSave _ _ _ _ => true
  | _ => false
  end.

Definition savesOf (t : list Event) : list Event := List.filter isSaveEvent t.

(** Arguments of a file-write call, as the model backend sends them. *)
Definition writeArgs (filePath content : string) : JsVal :=
  JObj [("filePath", JStr filePath); ("content", JStr content)].

(** A world whose storage service does not load within the time any call
    waits for it. *)
Definition unloadedWorld : World (list (Completion Response)) Bucket :=
  mkWorld [] (mkBucket 0 1000000 true []) [] ∅.

(** An operation the backend always rejects as overloaded, and one it
    rejects as invalid. *)
Definition overloadedOp (b : list (Completion Response)) (e : Bucket)
    : Completion Response * list (Completion Response) * Bucket :=
  (Throw (Error_ "got status: 503 Service Unavailable"), b, e).

Definition invalidOp (b : list (Completion Response)) (e : Bucket)
    : Completion Response * list (Completion Response) * Bucket :=
  (Throw (Error_ "got status: 400 INVALID_ARGUMENT"), b, e).

(** A computation keeps the observation [f] of the world when no run of it
    changes it. *)
Definition keeps {B E A X : Type} (f : World B E -> X) (m : M B E A) : Prop :=
  forall w, f (m w).2 = f w.

(** The names of the handlers executed in a trace, in order. *)
Definition handlerName (ev : Event) : option string :=
  match ev with
  | EvHandler n _ _ => Some n
  | _ => None
  end.

Definition handlersOf (t : list Event) : list string := omap handlerName t.

Definition handlersRun {B E} (w : World B E) : list string := handlersOf (trace w).

(** A history entry that records a tool call, respectively a tool result. *)
Definition isCallPart (p : TurnPart) : bool :=
  match p with
  | PFunctionCall _ => true
  | _ => false
  end.

Definition isResultPart (p : TurnPart) : bool :=
  match p with
  | PFunctionResponse _ _ => true
  | _ => false
  end.

Definition isCallTurn (t : Turn) : bool := existsb isCallPart (parts t).
Definition isResultTurn (t : Turn) : bool := existsb isResultPart (parts t).

(** [t] is the user turn recording the result of the call [fc]. *)
Definition resultFor (fc : FunctionCall) (t : Turn) : bool :=
  match role t, parts t with
  | user, [PFunctionResponse n _] => String.eqb n (name fc)
  | _, _ => false
  end.

(** The pairing discipline, as a check that walks the history: a call is
    a model turn of one part, the next turn is the result of that call, and
    a result occurs nowhere else. *)
Fixpoint paired (h : list Turn) : bool :=
  match h with
  | [] => true
  | t :: rest =>
      if isCallTurn t then
        match role t, parts t, rest with
        | model, [PFunctionCall fc], r :: rest' => resultFor fc r && paired rest'
        | _, _, _ => false
        end
      else negb (isResultTurn t) && paired rest
  end.

(** The turn-pairing invariant in words: every turn recording a tool call
    is a model turn immediately followed by the user turn recording the
    result of that very tool, and the turn after that, if any, is not
    another tool result. *)
Definition turnPairing (h : list Turn) : Prop :=
  forall (i : nat) (t : Turn),
    h !! i = Some t -> isCallTurn t = true ->
    exists fc r,
      t = modelCall fc
      /\ h !! S i = Some (userResult (name fc) r)
      /\ forall t', h !! S (S i) = Some t' -> isResultTurn t' = false.

(** The worlds the process can be in: it starts with no project history;
    a run of the agent (complete or not), the deletion of a project and any
    change of the outside world lead from one to the next. *)
Inductive reachable {B E} `{!Collaborators B E} : World B E -> Prop :=
| reach_start (b : B) (e : E) (t : list Event) :
    reachable (mkWorld b e t ∅)
| reach_run (w : World B E) (fuel : nat) (cfg : RunConfig) (userProblem : string) :
    reachable w -> reachable (runAgent fuel cfg userProblem w).2
| reach_delete (w : World B E) (key : option string) :
    reachable w ->
    reachable (mkWorld (backend w) (env w) (trace w) (delete key (ProjectHistory w)))
| reach_outside (w : World B E) (b : B) (e : E) (t : list Event) :
    reachable w -> reachable (mkWorld b e t (ProjectHistory w)).

(** The corrective message for a tool an update must not use. *)
Definition rejectionMessage (cfg : RunConfig) (fc : FunctionCall) : string :=
  if String.eqb (name fc) "writeToFile"
  then writeForbiddenMessage (projectName cfg)
  else wrongToolMessage (name fc).

(** The local history [h'] continues [h]: it only appends, and appends
    turns that respect the pairing discipline. *)
Definition continues (h h' : list Turn) : Prop :=
  exists added, h' = h ++ added /\ paired added = true.

(** Between [w] and [w'] only handlers an update may use were executed. *)
Definition onlyAllowedRan {B E} (w w' : World B E) : Prop :=
  exists ns, handlersRun w' = handlersRun w ++ ns
             /\ Forall (fun n => allowedForUpdate n = true) ns.

(** Every stored history respects the pairing discipline. *)
Definition storePaired (store : gmap (option string) (list Turn)) : Prop :=
  forall key h, store !! key = Some h -> paired h = true.

(** The history a run starts from, and the store once the run has looked
    it up (an absent entry is created empty). *)
Definition priorHistory {B E} (cfg : RunConfig) (w : World B E) : list Turn :=
  default [] (ProjectHistory w !! projectName cfg).

Definition storeAfterLoad {B E} (cfg : RunConfig) (w : World B E)
    : gmap (option string) (list Turn) :=
  match ProjectHistory w !! projectName cfg with
  | Some _ => ProjectHistory w
  | None => <[projectName cfg := []]> (ProjectHistory w)
  end.

(** The argument object and the event of the read that seeds an update. *)
Definition seedReadArgs (cfg : RunConfig) : JsVal :=
  JObj [("projectName", JStr (showNull (projectName cfg)))].

Definition seedReadEvent (cfg : RunConfig) : Event :=
  EvHandler "readProjectFiles" (seedReadArgs cfg) (handlerUser cfg "readProjectFiles").

(** The context turns of an update whose read produced the files [fs]. *)
Definition fileContext (cfg : RunConfig) (fs : list (string * JsVal)) : list Turn :=
  userText (updateContextMessage (projectName cfg) fs)
  :: (if truthy (assoc "style.css" fs)
      then [userText (cssContextMessage (assoc "style.css" fs))]
      else []).

(** What [storage.readAllProjectFiles] yielded counts as a failed read:
    no files at all (which [readProjectFiles] turns into an ["Error: ..."]
    text), a value that is not an object, or an object flagged with a
    truthy [error] field. *)
Definition yieldsError (v : JsVal) : Prop :=
  keyCount v = Normal 0%nat
  \/ (exists err, keyCount v = Throw err)
  \/ typeof v <> "object"
  \/ exists fs, v = JObj fs /\ truthy (assoc "error" fs) = true.

(** The backend response [r] requests the tool call [fc]. *)
Definition requestsTool (r : Response) (fc : FunctionCall) : Prop :=
  reportsMalformed r = false /\ exists rest, functionCalls r = Some (fc :: rest).

(** The backend response [r] is the plain text answer [t]. *)
Definition answersText (r : Response) (t : string) : Prop :=
  reportsMalformed r = false
  /\ (functionCalls r = None \/ functionCalls r = Some [])
  /\ text r = Some t /\ t <> "".

(** Concrete runs: a create run of project ["proj1"] by ["user1"], an
    update run of the same project, and backend scripts for them. *)
Definition createRun : RunConfig := mkConfig Current (Some "proj1") false (Some "user1").
Definition updateRun : RunConfig := mkConfig Current (Some "proj1") true (Some "user1").

Definition writeCall (file : string) : FunctionCall :=
  mkCall "writeToFile"
    (JObj [("filePath", JStr ("projects/proj1/" +:+ file)); ("content", JStr "...")]).

Definition happyScript : list (Completion Response) :=
  [Normal (toolRequest "writeToFile" (args (writeCall "index.html")));
   Normal (toolRequest "writeToFile" (args (writeCall "style.css")));
   Normal (toolRequest "writeToFile" (args (writeCall "script.js")));
   Normal (textAnswer "Done")].

Definition malformedScript : list (Completion Response) :=
  [Normal malformedResponse; Normal (textAnswer "ok")].

Definition overloadedScript : list (Completion Response) :=
  [Throw (Error_ "got status: 503 Service Unavailable");
   Throw (Error_ "got status: 503 Service Unavailable");
   Throw (Error_ "got status: 503 Service Unavailable")].

Definition deployCall : FunctionCall :=
  mkCall "deployProject" (JObj [("projectName", JStr "proj1")]).

(** A world whose bucket holds a page and a style sheet of ["proj1"], and
    one whose bucket cannot be reached. *)
Definition siteWorld (script : list (Completion Response))
    : World (list (Completion Response)) Bucket :=
  mkWorld script
    (mkBucket 0 0 true
       [("proj1", "index.html", "<html></html>"); ("proj1", "style.css", "body{}")])
    [] ∅.

Definition offlineWorld (script : list (Completion Response))
    : World (list (Completion Response)) Bucket :=
  mkWorld script (mkBucket 0 0 false []) [] ∅.

(** A session of [n] greetings, each answered by the assistant. *)
Fixpoint greetings (n : nat) (key : string) (st : ChatState) : ChatState :=
  match n with
  | O => st
  | S n' =>
      greetings n' key (chatRoute key "hello" None (Normal []) (Some "Hi there!") st).2
  end.

(** The stored arrays exist, and fresh references are fresh. *)
Definition wfChat (st : ChatState) : Prop :=
  (forall key r, ChatHistory st !! key = Some r -> is_Some (heap st !! r))
  /\ (forall r, is_Some (heap st !! r) -> (r < nextRef st)%nat).


(* ===================================================================== *)
(** ** Vocabulary of the further properties                              *)
(* ===================================================================== *)

(** The events of [n] consecutive attempts starting with attempt number
    [attempt]: between two attempts the executor sleeps the base delay
    doubled once per attempt already made. *)
Fixpoint backoffTrace (baseDelay : Z) (attempt : Z) (n : nat) : list Event :=
  match n with
  | O => []
  | S n' =>
      match n' with
      | O => [EvAttempt attempt]
      | S _ =>
          EvAttempt attempt :: EvSleep (baseDelay * 2 ^ (attempt - 1))
          :: backoffTrace baseDelay (attempt + 1) n'
      end
  end.

(** The milliseconds slept in a trace. *)
Fixpoint sleptTotal (t : list Event) : Z :=
  match t with
  | [] => 0
  | EvSleep ms :: rest => ms + sleptTotal rest
  | _ :: rest => sleptTotal rest
  end.

(** What [retryWithBackoff] makes of the completion of its last call. *)
Definition retryResult {A : Type} (c : Completion A) : Completion (option A) :=
  match c with
  | Normal a => Normal (Some a)
  | Throw e => Throw e
  end.

(** The backend never answers: whatever the request and its state, it
    fails with the 503 marker. *)
Definition backendOverloaded {B E} `{!Collaborators B E} : Prop :=
  forall req (b : B), exists err b',
    generateContent req b = (Throw err, b') /\ is503 err = true.

(** The reply of the [catch] block of [POST /api/build] and
    [POST /api/update]. *)
Record ErrorReply : Type := mkErrorReply {
  statusCode : Z;
  errorText : string;
  details : string
}.

(** The [catch] block of [POST /api/build] and [POST /api/update]: the
    status and the message by the markers in [error.message]; reading
    [includes] off a missing message throws. *)
Definition agentErrorReply (error : JsError) : Completion ErrorReply :=
  match message error with
  | None => Throw (Error_ "Cannot read properties of undefined (reading 'includes')")
  | Some m =>
      if includes "503" m || includes "UNAVAILABLE" m then
        Normal (mkErrorReply 503
                  "The AI model is currently overloaded. Please try again in a few moments." m)
      else if includes "INVALID_ARGUMENT" m then
        Normal (mkErrorReply 400
                  "Invalid request. Please check your input and try again." m)
      else if includes "QUOTA_EXCEEDED" m then
        Normal (mkErrorReply 429 "API quota exceeded. Please try again later." m)
      else Normal (mkErrorReply 500 m m)
  end.

(** The request of a run for the model [modelName]. *)
Definition runRequest (cfg : RunConfig) (modelName : string) (h : list Turn) : GenRequest :=
  mkRequest modelName h (isUpdate cfg) (projectName cfg).

(** The names of the catalog. *)
Definition catalogNames : list string :=
  ["executeCommand"; "writeToFile"; "listProjects"; "readProjectFiles";
   "updateProjectFiles"; "deployProject"; "translateContent"].

(** The names [availableTools] inherits from [Object.prototype]: looked up
    there, they yield a value that is not [undefined]. *)
Definition prototypeNames : list string :=
  ["constructor"; "hasOwnProperty"; "isPrototypeOf"; "propertyIsEnumerable";
   "toLocaleString"; "toString"; "valueOf"; "__proto__"; "__defineGetter__";
   "__defineSetter__"; "__lookupGetter__"; "__lookupSetter__"].

(** A backend that fails every request with the 503 marker, and one that
    gives the same outcome to every request; the rest of the world is the
    scripted bucket. *)
#[export] Instance downBackend : Collaborators unit Bucket := {
  generateContent _ _ := (Throw (Error_ "got status: 503 Service Unavailable"), tt);
  elapse := elapse (Collaborators := scripted);
  storageLoaded := storageLoaded (Collaborators := scripted);
  saveFile := saveFile (Collaborators := scripted);
  readAllProjectFiles := readAllProjectFiles (Collaborators := scripted);
  externalHandler := externalHandler (Collaborators := scripted)
}.

#[export] Instance constantBackend : Collaborators Response Bucket := {
  generateContent _ r := (Normal r, r);
  elapse := elapse (Collaborators := scripted);
  storageLoaded := storageLoaded (Collaborators := scripted);
  saveFile := saveFile (Collaborators := scripted);
  readAllProjectFiles := readAllProjectFiles (Collaborators := scripted);
  externalHandler := externalHandler (Collaborators := scripted)
}.

(** The older revision of the create run, and an update run by another
    user. *)
Definition olderRun : RunConfig := mkConfig Older (Some "proj1") false None.
Definition otherUserUpdate : RunConfig :=
  mkConfig Current (Some "proj1") true (Some "user2").

(** [segs.join(sep)] for a one-character separator. *)
Fixpoint joinSegments (sep : ascii) (segs : list string) : string :=
  match segs with
  | [] => EmptyString
  | [s] => s
  | s :: rest => s +:+ String sep (joinSegments sep rest)
  end.

(** No path separator occurs in [s]. *)
Fixpoint separatorFree (s : string) : bool :=
  match s with
  | EmptyString => true
  | String c rest => negb (isPathSep c) && separatorFree rest
  end.

(** The path the system instruction prescribes for a file of a project. *)
Definition projectFilePath (project file : string) : string :=
  "projects/" +:+ project +:+ "/" +:+ file.

(** A bucket that accepts every object. *)
Definition openWorld : World (list (Completion Response)) Bucket := scriptedWorld [].

(** No two sessions share an array. *)
Definition separateSessions (st : ChatState) : Prop :=
  forall k k' r, ChatHistory st !! k = Some r -> ChatHistory st !! k' = Some r -> k = k'.

(** The chat stores the route and the clearing of a session lead to. *)
Definition soundChat (st : ChatState) : Prop := wfChat st /\ separateSessions st.

(** The project names the route works with: none when the query failed. *)
Definition availableOf (projects : Completion (list string)) : list string :=
  match projects with
  | Normal l => l
  | Throw _ => []
  end.

(** The first known project whose name occurs in the message, case ignored. *)
Definition knownMention (message : string) (availableProjects : list string)
    : option string :=
  find (fun project => includes (toLowerCase project) (toLowerCase message))
       availableProjects.

(** Every character of [s] satisfies [p]. *)
Fixpoint allChars (p : ascii -> bool) (s : string) : bool :=
  match s with
  | EmptyString => true
  | String c rest => p c && allChars p rest
  end.

(** The [action] of a chat reply. *)
Inductive ChatAction : Type :=
| create_project
| show_projects
| update_project
| deploy_project
| general_response.

(** What [handleChatMessage] resolves to. *)
Record ChatAnswer : Type := mkAnswer {
  answer_text : option string;
  answer_action : ChatAction;
  answer_projectName : option string;
  answer_description : option string
}.

(** [s.includes(p1) || s.includes(p2) || ...] *)
Definition anyIncludes (phrases : list string) (s : string) : bool :=
  existsb (fun p => includes p s) phrases.

Definition buildPhrases : list string :=
  ["build website"; "create website"; "new website"; "start a website";
   "make a website"; "build a site"; "create a site"].

Definition showPhrases : list string :=
  ["show"; "my projects"; "list projects"; "see my websites"; "what projects";
   "display projects"].

Definition updatePhrases : list string :=
  ["update"; "modify"; "change"; "edit"; "improve"; "fix"].

Definition deployPhrases : list string :=
  ["deploy"; "publish"; "go live"; "put online"; "vercel"; "host"; "upload";
   "make live"].

(** The class [[:\s]]. *)
Definition isLabelSep (c : ascii) : bool :=
  (c =? ":")%char || isSpace c.

(** [/kw[:\s]+([a-zA-Z0-9-_]+)/i] anchored at the head of [s]: the captured
    group. *)
Definition matchLabelHere (kw s : string) : option string :=
  match stripKeyword kw s with
  | Some (String c rest) =>
      if isLabelSep c then
        let g := takeWhile isNameChar (dropWhile isLabelSep rest) in
        if nonEmpty g then Some g else None
      else None
  | _ => None
  end.

(** [text.match(/kw[:\s]+([a-zA-Z0-9-_]+)/i)]: group 1 of the leftmost match. *)
Fixpoint matchLabel (kw s : string) : option string :=
  match matchLabelHere kw s with
  | Some g => Some g
  | None => match s with
            | EmptyString => None
            | String _ rest => matchLabel kw rest
            end
  end.

(** What the [catch] of [handleChatMessage] returns. *)
Definition apology : ChatAnswer :=
  mkAnswer
    (Some "I'm sorry, I'm having trouble processing your request right now. Please try again or let me know if you need help with something specific.")
    general_response None None.

(** [handleChatMessage(context)], on the message of the context;
    [generated] is the outcome of the call to the model. *)
Definition handleChatMessage (message : string) (generated : Completion Response)
    : ChatAnswer :=
  match generated with
  | Throw _ => apology
  | Normal response =>
      match extractResponseText response with
      | Throw _ => apology
      | Normal responseText =>
          let lowerMessage := toLowerCase message in
          if anyIncludes buildPhrases lowerMessage then
            match responseText with
            | None => apology  (* [responseText.match] of [undefined] throws *)
            | Some t =>
                let projectMatch :=
                  match matchLabel "project" t with
                  | Some g => Some g
                  | None => match matchLabel "suggest" t with
                            | Some g => Some g
                            | None => matchLabel "name" t
                            end
                  end in
                mkAnswer responseText create_project projectMatch None
            end
          else if anyIncludes showPhrases lowerMessage then
            mkAnswer responseText show_projects None None
          else if anyIncludes updatePhrases lowerMessage then
            mkAnswer responseText update_project None None
          else if anyIncludes deployPhrases lowerMessage then
            mkAnswer responseText deploy_project None None
          else mkAnswer responseText general_response None None
      end
  end.


(** The call to the model failed, or its response held no text to take. *)
Definition noAnswer (generated : Completion Response) : Prop :=
  match generated with
  | Throw _ => True
  | Normal response => exists e, extractResponseText response = Throw e
  end.

(* ===================================================================== *)
(** ** Authentication middleware: [authenticate] and [optionalAuth]      *)
(* ===================================================================== *)

(** A stored user, as the middleware copies it onto the request. *)
Record Account : Type := mkAccount { user_id : string; user_email : string }.

(** What the middleware reads of a request: [req.session.userId] when
    there is a session object, and [req.headers.authorization]. *)
Record AuthRequest : Type := mkAuthRequest {
  session_userId : option JsVal;
  authorization : option string
}.

(** How [authenticate] ends: [next()] with the user on the request, or a
    response with status 401 or 500. *)
Inductive AuthOutcome : Type :=
| Next (usr : Account)
| Status401
| Status500 (msg : option string).

(** [s.substring(n)] *)
Fixpoint substringFrom (n : nat) (s : string) : string :=
  match n, s with
  | O, _ => s
  | S n', String _ rest => substringFrom n' rest
  | S _, EmptyString => EmptyString
  end.

Section Middleware.

(** [User.findById(id)] and [jwt.verify(token, secret)]. *)
Variable findById : JsVal -> Completion (option Account).
Variable verify : string -> string -> Completion JsVal.

(** The session check both functions start with: the user of the session,
    if the session names one and it is stored. *)
Definition sessionUser (req : AuthRequest) : Completion (option Account) :=
  match session_userId req with
  | Some id => if truthy id then findById id else Normal None
  | None => Normal None
  end.

(** The token check both functions continue with: its [try] block
    swallows every failure. *)
Definition bearerUser (req : AuthRequest) (JWT_SECRET : option string) : option Account :=
  match authorization req with
  | Some authHeader =>
      if nonEmpty authHeader && String.prefix "Bearer " authHeader then
        let token := substringFrom 7 authHeader in
        if negb (truthyStr JWT_SECRET) then None
        else
          match verify token (default "" JWT_SECRET) with
          | Normal decoded =>
              match getProp decoded "userId" with
              | Normal id =>
                  match findById id with
                  | Normal (Some usr) => Some usr
                  | Normal None => None
                  | Throw _ => None
                  end
              | Throw _ => None
              end
          | Throw _ => None
          end
      else None
  | None => None
  end.

(** [authenticate(req, res, next)] *)
Definition authenticate (req : AuthRequest) (JWT_SECRET : option string) : AuthOutcome :=
  match sessionUser req with
  | Normal (Some usr) => Next usr
  | Normal None =>
      match bearerUser req JWT_SECRET with
      | Some usr => Next usr
      | None => Status401
      end
  | Throw error => Status500 (message error)
  end.

(** [optionalAuth(req, res, next)]: [req.user] when [next()] is called,
    which it always is. *)
Definition optionalAuth (req : AuthRequest) (JWT_SECRET : option string) : option Account :=
  match sessionUser req with
  | Normal (Some usr) => Some usr
  | Normal None => bearerUser req JWT_SECRET
  | Throw _ => None
  end.

(** The ways a request names a stored user. *)
Definition namedBySession (req : AuthRequest) (usr : Account) : Prop :=
  exists id, session_userId req = Some id /\ truthy id = true
             /\ findById id = Normal (Some usr).

Definition namedByToken (req : AuthRequest) (JWT_SECRET : option string)
    (usr : Account) : Prop :=
  exists token secret decoded id,
    authorization req = Some ("Bearer " +:+ token)
    /\ JWT_SECRET = Some secret /\ nonEmpty secret = true
    /\ verify token secret = Normal decoded
    /\ getProp decoded "userId" = Normal id
    /\ findById id = Normal (Some usr).

End Middleware.

(** A user table and a verifier to run the middleware on. *)
Definition demoUsers (id : JsVal) : Completion (option Account) :=
  match id with
  | JStr "u1" => Normal (Some (mkAccount "u1" "ann@example.org"))
  | JStr "down" => Throw (Error_ "connection lost")
  | _ => Normal None
  end.

Definition demoVerify (token secret : string) : Completion JsVal :=
  if String.eqb token "t-u1" && String.eqb secret "s3cret"
  then Normal (JObj [("userId", JStr "u1")])
  else Throw (Error_ "invalid signature").

(* ===================================================================== *)
(** ** Storage service: [getContentType]                                 *)
(* ===================================================================== *)

(** [s.lastIndexOf(c)] for a one-character [c]: [-1] when [c] does not
    occur. *)
Fixpoint lastIndexOf (c : ascii) (s : string) : Z :=
  match s with
  | EmptyString => -1
  | String d rest =>
      let i := lastIndexOf c rest in
      if 0 <=? i then i + 1 else if Ascii.eqb d c then 0 else -1
  end.

(** [s.substring(start)]: a negative [start] counts as 0. *)
Definition substringZ (start : Z) (s : string) : string :=
  substringFrom (Z.to_nat start) s.

(** The object literal [contentTypes]. *)
Definition contentTypes : list (string * string) :=
  [(".html", "text/html"); (".css", "text/css"); (".js", "application/javascript");
   (".json", "application/json"); (".png", "image/png"); (".jpg", "image/jpeg");
   (".jpeg", "image/jpeg"); (".gif", "image/gif"); (".svg", "image/svg+xml");
   (".ico", "image/x-icon"); (".txt", "text/plain"); (".md", "text/markdown")].

Fixpoint ownProperty (k : string) (table : list (string * string)) : option string :=
  match table with
  | [] => None
  | (k', v) :: rest => if String.eqb k k' then Some v else ownProperty k rest
  end.

(** What [contentTypes[ext] || 'application/octet-stream'] evaluates to: a
    string, or the value the object literal inherits under [ext] (the only
    inherited names in lower case are [constructor] and [__proto__]). *)
Inductive ContentType : Type :=
| Mime (mime : string)
| Inherited (property : string).

(** [getContentType(fileName)] *)
Definition getContentType (fileName : string) : ContentType :=
  let ext := toLowerCase (substringZ (lastIndexOf "." fileName) fileName) in
  match ownProperty ext contentTypes with
  | Some mime => Mime mime
  | None =>
      if String.eqb ext "constructor" || String.eqb ext "__proto__" then Inherited ext
      else Mime "application/octet-stream"
  end.

(** The string holds no dot. *)
Definition dotFree (s : string) : bool :=
  allChars (fun c => negb (Ascii.eqb c ".")) s.

(* ===================================================================== *)
(** ** Deployment: the name of the deployed project                      *)
(* ===================================================================== *)

(** The class [[a-z0-9-]]. *)
Definition isSlugChar (c : ascii) : bool :=
  let n := nat_of_ascii c in
  ((97 <=? n)%nat && (n <=? 122)%nat) || ((48 <=? n)%nat && (n <=? 57)%nat)
  || (n =? 45)%nat.

Definition isDash (c : ascii) : bool := Ascii.eqb c "-".

(** [s.replace(/[^a-z0-9-]/g, '-')] *)
Fixpoint replaceOutside (s : string) : string :=
  match s with
  | EmptyString => EmptyString
  | String c rest => String (if isSlugChar c then c else "-"%char) (replaceOutside rest)
  end.

(** [s.replace(/--+/g, '-')]: of every run of dashes the last one stays. *)
Fixpoint collapseDashes (s : string) : string :=
  match s with
  | EmptyString => EmptyString
  | String c rest =>
      match rest with
      | String d _ =>
          if isDash c && isDash d then collapseDashes rest
          else String c (collapseDashes rest)
      | EmptyString => String c EmptyString
      end
  end.

(** [s.replace(/^-|-$/g, '')]: a dash at the head goes, then a dash at the
    end of what is left. *)
Definition stripLeadingDash (s : string) : string :=
  match s with
  | String c rest => if isDash c then rest else s
  | EmptyString => EmptyString
  end.

Fixpoint stripTrailingDash (s : string) : string :=
  match s with
  | EmptyString => EmptyString
  | String c rest =>
      match rest with
      | EmptyString => if isDash c then EmptyString else s
      | String _ _ => String c (stripTrailingDash rest)
      end
  end.

(** [s.substring(0, n)] *)
Fixpoint takeChars (n : nat) (s : string) : string :=
  match n, s with
  | S n', String c rest => String c (takeChars n' rest)
  | _, _ => EmptyString
  end.

(** The expression [deployProject] computes [cleanProjectName] and
    [customAlias] with. *)
Definition cleanProjectName (projectName : string) : string :=
  takeChars 50
    (stripTrailingDash
       (stripLeadingDash
          (collapseDashes (replaceOutside (toLowerCase projectName))))).

(** No two dashes in a row. *)
Fixpoint noDoubleDash (s : string) : bool :=
  match s with
  | EmptyString => true
  | String c rest =>
      match rest with
      | String d _ => negb (isDash c && isDash d) && noDoubleDash rest
      | EmptyString => true
      end
  end.

Definition startsWithDash (s : string) : bool :=
  match s with
  | String c _ => isDash c
  | EmptyString => false
  end.

(* ===================================================================== *)
(** ** Prompt enhancement: [enhanceUserPrompt]                           *)
(* ===================================================================== *)

(** [s.trimEnd()] and [s.trim()], on the ASCII white space. *)
Fixpoint trimEnd (s : string) : string :=
  match s with
  | EmptyString => EmptyString
  | String c rest =>
      let r := trimEnd rest in
      if isSpace c && negb (nonEmpty r) then EmptyString else String c r
  end.

Definition trim (s : string) : string := trimEnd (dropWhile isSpace s).

(** [enhanceUserPrompt(prompt, type)]; [generated] is the outcome of the
    call to the model. *)
Definition enhanceUserPrompt (prompt : string) (generated : Completion Response)
    : string :=
  match generated with
  | Throw _ => prompt
  | Normal response =>
      match extractResponseText response with
      | Throw _ => prompt
      | Normal responseText =>
          if negb (truthyStr responseText)
             || String.eqb (trim (default "" responseText)) ""
          then prompt
          else default "" responseText
      end
  end.

(* ===================================================================== *)
(** ** ToolRegistry: [updateProjectFiles]                                *)
(* ===================================================================== *)

(** [Object.entries(v)]: the entries of an object, in the order the object
    holds them (a [JObj] lists its fields in property order, the keys that
    are array indices first); the elements of an array and the characters
    of a string under their indices. *)
Definition entriesOf (v : JsVal) : Completion (list (string * JsVal)) :=
  match v with
  | JUndefined | JNull =>
      Throw (Error_ "Cannot convert undefined or null to object")
  | JObj fs => Normal fs
  | JArr items => Normal (imap (fun i x => (pretty i, x)) items)
  | JStr s =>
      Normal (imap (fun i c => (pretty i, JStr (String c EmptyString)))
                (list_ascii_of_string s))
  | JBool _ | JNum _ => Normal []
  end.

(** [results[k] = v] on an object literal: an own property is overwritten
    in place, a new one goes last (its place in property order unless the
    key is an array index, which the statements below exclude); under
    [__proto__] a string is not stored. *)
Fixpoint setProp (k : string) (v : JsVal) (fs : list (string * JsVal))
    : list (string * JsVal) :=
  match fs with
  | [] => [(k, v)]
  | (k', v') :: rest =>
      if String.eqb k k' then (k, v) :: rest else (k', v') :: setProp k v rest
  end.

Definition assignProp (k : string) (v : JsVal) (fs : list (string * JsVal))
    : list (string * JsVal) :=
  if String.eqb k "__proto__" then fs else setProp k v fs.

Section UpdateHandler.

Context {B E : Type}.

(** [storage.projectExists(projectName, userId)] and
    [storage.saveFile(projectName, fileType, content, userId)], with the
    project name as the tool call holds it. *)
Variable projectExists : JsVal -> option string -> E -> Completion JsVal * E.
Variable saveProjectFile :
  JsVal -> string -> JsVal -> option string -> E -> Completion unit * E.

(** The loop over the entries of [updates]. *)
Fixpoint updateEach (projectName : JsVal) (userId : option string)
    (entries results : list (string * JsVal)) : M B E (list (string * JsVal)) :=
  match entries with
  | [] => ret results
  | (fileType, content) :: rest =>
      (outcome <- tryCatch
                    (onEnv (saveProjectFile projectName fileType content userId) ;;;
                     ret (JStr "Updated successfully"))
                    (fun err => ret (JStr ("Failed: " +:+ showUndef (message err)))) ;;
       updateEach projectName userId rest (assignProp fileType outcome results))%js
  end.

(** [updateProjectFiles({ projectName, updates }, userId = null)] *)
Definition updateProjectFiles (args : JsVal) (userId : option string) : M B E JsVal :=
  (projectName <- liftC (destructure args "projectName") ;;
   updates <- liftC (destructure args "updates") ;;
   tryCatch
     (found <- onEnv (projectExists projectName userId) ;;
      if negb (truthy found) then
        ret (JStr ("Error: Project " +:+ toStr projectName +:+ " not found"))
      else
        (entries <- liftC (entriesOf updates) ;;
         results <- updateEach projectName userId entries [] ;;
         ret (JObj results)))
     (fun error => ret (JStr ("Error: " +:+ showUndef (message error)))))%js.

(** The storage after a save was attempted for every entry, in order,
    whether or not the ones before it failed. *)
Fixpoint savesOver (projectName : JsVal) (userId : option string)
    (entries : list (string * JsVal)) (e : E) : E :=
  match entries with
  | [] => e
  | (fileType, content) :: rest =>
      savesOver projectName userId rest
        (saveProjectFile projectName fileType content userId e).2
  end.

(** The reports those saves earn, one per entry and in their order: a save
    that returns is reported as updated, one that throws as failed, with
    its message. *)
Fixpoint reportsOver (projectName : JsVal) (userId : option string)
    (entries : list (string * JsVal)) (e : E) : list (string * JsVal) :=
  match entries with
  | [] => []
  | (fileType, content) :: rest =>
      (fileType,
       match (saveProjectFile projectName fileType content userId e).1 with
       | Normal _ => JStr "Updated successfully"
       | Throw err => JStr ("Failed: " +:+ showUndef (message err))
       end)
      :: reportsOver projectName userId rest
           (saveProjectFile projectName fileType content userId e).2
  end.

End UpdateHandler.

(** The digits, and the keys an object lists before its other keys
    whatever the order they were added in: this is a superset of them, the
    non-empty strings of digits. *)
Definition isDigit (c : ascii) : bool :=
  let n := nat_of_ascii c in (48 <=? n)%nat && (n <=? 57)%nat.

Definition digitsOnly (k : string) : bool := nonEmpty k && allChars isDigit k.

(** A key that an assignment adds last and that [Object.entries] lists in
    the order of the assignments: not [__proto__], not made of digits. *)
Definition plainKey (k : string) : bool :=
  negb (String.eqb k "__proto__") && negb (digitsOnly k).

(** The string holds characters of the ASCII range only; on such strings
    [toLowerCase], [\s] and [trim] of the language are the functions
    modelled here. *)
Definition asciiOnly (s : string) : bool :=
  allChars (fun c => (nat_of_ascii c <? 128)%nat) s.

(** A printable ASCII character other than the space, and a string that
    holds one. *)
Definition isVisible (c : ascii) : bool :=
  let n := nat_of_ascii c in (33 <=? n)%nat && (n <=? 126)%nat.

Definition hasVisible (s : string) : bool :=
  negb (allChars (fun c => negb (isVisible c)) s).

(** A store that lists its projects and logs what is saved, and refuses
    the file type [script.js]. *)
Definition demoExists (projectName : JsVal) (_ : option string)
    (log : list (string * JsVal)) : Completion JsVal * list (string * JsVal) :=
  (Normal (JBool (match projectName with JStr "shop" => true | _ => false end)), log).

Definition demoSave (_ : JsVal) (fileType : string) (content : JsVal)
    (_ : option string) (log : list (string * JsVal))
    : Completion unit * list (string * JsVal) :=
  if String.eqb fileType "script.js"
  then (Throw (Error_ "Supabase upload error: quota"), log)
  else (Normal tt, log ++ [(fileType, content)]).

Definition demoUpdate : JsVal :=
  JObj [("projectName", JStr "shop");
        ("updates", JObj [("script.js", JStr "let x;"); ("style.css", JStr "a{}")])].

(* ===================================================================== *)
(** * Properties                                                         *)
(* ===================================================================== *)

Example splitPath_ex1 :
  splitPath "projects/shop/index.html" = ["projects"; "shop"; "index.html"].
Proof. reflexivity. Qed.

Example splitPath_ex2 : splitPath "a\projects/" = ["a"; "projects"; ""].
Proof. reflexivity. Qed.

Example findIndex_ex :
  findIndex isProjectsSegment ["a"; "projects"; "b"; "projects"] = 1.
Proof. reflexivity. Qed.

(* ===================================================================== *)
(** ** RetryExecutor                                                     *)
(* ===================================================================== *)

Section RetryFacts.
Context {B E A : Type} `{!Collaborators B E}.

(** One iteration of the retry loop whose call fails with an overload
    before the last attempt: sleep, then go round again. *)
Lemma retryLoop_overloaded (op : B -> E -> Completion A * B * E) fuel attempt
    maxRetries baseDelay (w : World B E) err b' e' :
  attempt < maxRetries ->
  op (backend w) (env w) = (Throw err, b', e') ->
  is503 err = true ->
  retryLoop (external op) (S fuel) attempt maxRetries baseDelay w
  = retryLoop (external op) fuel (attempt + 1) maxRetries baseDelay
      (mkWorld b' (elapse (baseDelay * 2 ^ (attempt - 1)) e')
         (trace w ++ [EvAttempt attempt; EvSleep (baseDelay * 2 ^ (attempt - 1))])
         (ProjectHistory w)).
Proof.
  intros Hlt Hop H503. cbn [retryLoop].
  assert ((attempt <=? maxRetries) = true) as -> by lia.
  unfold bind at 1, emit at 1; cbn.
  unfold tryCatch, bind at 1, external; cbn. rewrite Hop; cbn.
  assert ((attempt =? maxRetries) = false) as -> by lia.
  rewrite H503. unfold bind, sleep; cbn.
  rewrite <- app_assoc. reflexivity.
Qed.

(** An iteration whose call fails on the last attempt, or with an error
    that is not an overload, rethrows at once. *)
Lemma retryLoop_rethrow (op : B -> E -> Completion A * B * E) fuel attempt
    maxRetries baseDelay (w : World B E) err b' e' :
  attempt <= maxRetries ->
  op (backend w) (env w) = (Throw err, b', e') ->
  attempt = maxRetries \/ is503 err = false ->
  retryLoop (external op) (S fuel) attempt maxRetries baseDelay w
  = (Throw err,
     mkWorld b' e' (trace w ++ [EvAttempt attempt]) (ProjectHistory w)).
Proof.
  intros Hle Hop Hwhy. cbn [retryLoop].
  assert ((attempt <=? maxRetries) = true) as -> by lia.
  unfold bind at 1, emit at 1; cbn.
  unfold tryCatch, bind at 1, external; cbn. rewrite Hop; cbn.
  destruct Hwhy as [-> | Hno].
  - rewrite Z.eqb_refl. reflexivity.
  - rewrite Hno. destruct (attempt =? maxRetries); reflexivity.
Qed.

(** An iteration whose call succeeds returns its value. *)
Lemma retryLoop_success (op : B -> E -> Completion A * B * E) fuel attempt
    maxRetries baseDelay (w : World B E) a b' e' :
  attempt <= maxRetries ->
  op (backend w) (env w) = (Normal a, b', e') ->
  retryLoop (external op) (S fuel) attempt maxRetries baseDelay w
  = (Normal (Some a),
     mkWorld b' e' (trace w ++ [EvAttempt attempt]) (ProjectHistory w)).
Proof.
  intros Hle Hop. cbn [retryLoop].
  assert ((attempt <=? maxRetries) = true) as -> by lia.
  unfold bind at 1, emit at 1; cbn.
  unfold tryCatch, bind at 1, external; cbn. rewrite Hop; cbn.
  reflexivity.
Qed.

(** C3 — retry boundary.  With [maxRetries = 3]: an operation that always
    fails with the 503 marker is invoked exactly three times, the executor
    sleeps [baseDelayMs] between attempts 1 and 2 and [2 * baseDelayMs]
    between attempts 2 and 3, and the third failure is the one thrown; an
    operation whose first invocation fails with an error that does not
    carry the marker is invoked exactly once and that error is thrown. *)
Theorem retry_boundary (op : B -> E -> Completion A * B * E) (baseDelayMs : Z)
    (w : World B E) :
  (alwaysOverloaded op ->
   exists err1 b1 e1 err2 b2 e2 err3 b3 e3,
     op (backend w) (env w) = (Throw err1, b1, e1) /\
     op b1 (elapse baseDelayMs e1) = (Throw err2, b2, e2) /\
     op b2 (elapse (2 * baseDelayMs) e2) = (Throw err3, b3, e3) /\
     retryWithBackoff (external op) 3 baseDelayMs w
     = (Throw err3,
        mkWorld b3 e3
          (trace w ++ [EvAttempt 1; EvSleep baseDelayMs;
                       EvAttempt 2; EvSleep (2 * baseDelayMs);
                       EvAttempt 3])
          (ProjectHistory w)))
  /\
  (forall err b1 e1,
     op (backend w) (env w) = (Throw err, b1, e1) ->
     is503 err = false ->
     retryWithBackoff (external op) 3 baseDelayMs w
     = (Throw err, mkWorld b1 e1 (trace w ++ [EvAttempt 1]) (ProjectHistory w))).
Proof.
  split.
  - intros Hall.
    destruct (Hall (backend w) (env w)) as (err1 & b1 & e1 & H1 & T1).
    destruct (Hall b1 (elapse baseDelayMs e1)) as (err2 & b2 & e2 & H2 & T2).
    destruct (Hall b2 (elapse (2 * baseDelayMs) e2)) as (err3 & b3 & e3 & H3 & T3).
    exists err1, b1, e1, err2, b2, e2, err3, b3, e3.
    repeat split; try assumption.
    unfold retryWithBackoff. change (Z.to_nat 3) with 3%nat.
    erewrite retryLoop_overloaded by (first [lia | eassumption]).
    replace (baseDelayMs * 2 ^ (1 - 1)) with baseDelayMs by (cbn; lia).
    erewrite retryLoop_overloaded by (cbn; first [lia | eassumption]).
    replace (baseDelayMs * 2 ^ (1 + 1 - 1)) with (2 * baseDelayMs) by (cbn; lia).
    erewrite retryLoop_rethrow by (cbn; first [lia | eassumption | left; reflexivity]).
    cbn. rewrite <- !app_assoc. reflexivity.
  - intros err b1 e1 Hop Hno.
    unfold retryWithBackoff. change (Z.to_nat 3) with 3%nat.
    erewrite retryLoop_rethrow by (first [lia | eassumption | right; assumption]).
    reflexivity.
Qed.

End RetryFacts.

(* ===================================================================== *)
(** ** ModelGateway: text extraction                                     *)
(* ===================================================================== *)

(** C7, as stated, fails: a response with a direct text field that is the
    empty string does not get that text back; both revisions throw
    "Unexpected response format from AI". *)
Lemma extract_empty_text_throws :
  text emptyTextResponse = Some ""
  /\ extractResponseText emptyTextResponse
     = Throw (Error_ "Unexpected response format from AI")
  /\ extractResponseText_old emptyTextResponse
     = Throw (Error_ "Unexpected response format from AI").
Proof. repeat split. Qed.

Lemma truthyStr_nonempty (t : string) : t <> "" -> truthyStr (Some t) = true.
Proof. destruct t; [congruence | reflexivity]. Qed.

Lemma extractFromCandidate_parts c ct p ps :
  content c = Some ct -> content_parts ct = Some (p :: ps) ->
  extractFromCandidate c = Normal (part_text p).
Proof.
  intros Hc Hp. unfold extractFromCandidate, firstPart. rewrite Hc, Hp. reflexivity.
Qed.

Lemma extractFromCandidate_truncated c ct :
  content c = Some ct -> content_parts ct = None ->
  truthyStr (candidate_text c) = false ->
  extractFromCandidate c = Normal (Some "").
Proof.
  intros Hc Hp Ht. unfold extractFromCandidate, firstPart, contentWithoutParts.
  rewrite Hc, Hp, Ht. reflexivity.
Qed.

(** C7, amended — the three shapes, in the order the function tests them.
    (1) A non-empty direct text field is returned.  (2) Without one, a first
    candidate (in [src/index.js]: one not flagged as a malformed function
    call) whose content holds at least one part yields the first part's
    text.  (3) Without one, such a candidate with no non-empty text of its
    own and a content without a parts field yields the empty string; the
    function does not throw. *)
Theorem extract_three_shapes (r : Response) :
  (forall t, text r = Some t -> t <> "" ->
     extractResponseText r = Normal (Some t)
     /\ extractResponseText_old r = Normal (Some t))
  /\
  (forall c cs ct p ps,
     truthyStr (text r) = false ->
     candidates r = Some (c :: cs) ->
     content c = Some ct -> content_parts ct = Some (p :: ps) ->
     (isMalformed c = false -> extractResponseText r = Normal (part_text p))
     /\ extractResponseText_old r = Normal (part_text p))
  /\
  (forall c cs ct,
     truthyStr (text r) = false ->
     candidates r = Some (c :: cs) ->
     content c = Some ct -> content_parts ct = None ->
     truthyStr (candidate_text c) = false ->
     (isMalformed c = false -> extractResponseText r = Normal (Some ""))
     /\ extractResponseText_old r = Normal (Some "")).
Proof.
  split; [| split].
  - intros t Ht Hne. unfold extractResponseText, extractResponseText_old.
    rewrite Ht, (truthyStr_nonempty _ Hne). split; reflexivity.
  - intros c cs ct p ps Hno Hcs Hct Hps.
    unfold extractResponseText, extractResponseText_old, firstCandidate.
    rewrite Hno, Hcs; cbn. split.
    + intros ->. eapply extractFromCandidate_parts; eassumption.
    + eapply extractFromCandidate_parts; eassumption.
  - intros c cs ct Hno Hcs Hct Hps Htxt.
    unfold extractResponseText, extractResponseText_old, firstCandidate.
    rewrite Hno, Hcs; cbn. split.
    + intros ->. eapply extractFromCandidate_truncated; eassumption.
    + eapply extractFromCandidate_truncated; eassumption.
Qed.

(** The three shapes on concrete responses. *)
Lemma extract_three_shapes_witness :
  extractResponseText (mkResponse (Some "Done") None None) = Normal (Some "Done")
  /\ extractResponseText twoPartResponse = Normal (Some "Hi")
  /\ extractResponseText (mkResponse None (Some [truncatedCandidate]) None)
     = Normal (Some "").
Proof.
  split; [| split].
  - apply (proj1 (extract_three_shapes (mkResponse (Some "Done") None None)) "Done");
      [reflexivity | discriminate].
  - apply (proj1 (proj2 (extract_three_shapes twoPartResponse))
             (mkCandidate (Some "STOP")
                (Some (mkContent (Some [mkRPart (Some "Hi"); mkRPart (Some "!")])))
                None)
             [] (mkContent (Some [mkRPart (Some "Hi"); mkRPart (Some "!")]))
             (mkRPart (Some "Hi")) [mkRPart (Some "!")]);
      reflexivity.
  - apply (proj2 (proj2 (extract_three_shapes
                           (mkResponse None (Some [truncatedCandidate]) None)))
             truncatedCandidate [] (mkContent None));
      reflexivity.
Defined.

(* ===================================================================== *)
(** ** ToolRegistry: the file-write handler                              *)
(* ===================================================================== *)

Section ToolFacts.
Context {B E : Type} `{!Collaborators B E}.

Lemma world_eta (w : World B E) :
  mkWorld (backend w) (env w) (trace w) (ProjectHistory w) = w.
Proof. destruct w; reflexivity. Qed.

Lemma awaitStorage_spec (rounds : nat) (w : World B E) :
  awaitStorage rounds w
  = (Normal tt,
     mkWorld (backend w) (waitEnv rounds (env w))
       (trace w ++ replicate (waitRounds rounds (env w)) (EvSleep 100))
       (ProjectHistory w)).
Proof.
  revert w. induction rounds as [| rounds IH]; intros w; cbn.
  - rewrite app_nil_r, world_eta. reflexivity.
  - unfold bind, sleep; cbn.
    destruct (storageLoaded (elapse 100 (env w))) eqn:Hl; cbn; [reflexivity |].
    rewrite IH; cbn. rewrite <- app_assoc. reflexivity.
Qed.

Lemma ensureStorage_spec (w : World B E) :
  ensureStorage w
  = ((if storageLoaded (settledEnv (env w)) then Normal tt
      else Throw (Error_ "Storage service not initialized. Please restart the server.")),
     mkWorld (backend w) (settledEnv (env w)) (trace w ++ settleSleeps (env w))
       (ProjectHistory w)).
Proof.
  unfold ensureStorage, settledEnv, settleSleeps.
  destruct (storageLoaded (env w)) eqn:Hl.
  - rewrite Hl, app_nil_r, world_eta. reflexivity.
  - unfold bind. rewrite awaitStorage_spec. cbn [env].
    destruct (storageLoaded (waitEnv 50 (env w))); reflexivity.
Qed.

End ToolFacts.

Section FindIndexFacts.
Context {A : Type} (p : A -> bool).

Lemma findIndex_range (l : list A) :
  findIndex p l = -1 \/ 0 <= findIndex p l < Z.of_nat (length l).
Proof.
  induction l as [| x rest IH]; cbn [findIndex length]; [left; reflexivity |].
  destruct (p x); [right; lia |].
  destruct (findIndex p rest =? -1) eqn:Hm; [left; reflexivity | right; lia].
Qed.

Lemma findIndex_none (l : list A) :
  findIndex p l = -1 -> forall j y, l !! j = Some y -> p y = false.
Proof.
  induction l as [| x rest IH]; cbn [findIndex]; intros Hm j y Hj.
  - destruct j; discriminate.
  - destruct (p x) eqn:Hx; [discriminate |].
    destruct (findIndex p rest =? -1) eqn:Hr.
    + destruct j as [| j]; cbn in Hj; [congruence |].
      apply (IH ltac:(lia) j y Hj).
    + pose proof (findIndex_range rest). lia.
Qed.

Lemma findIndex_first (l : list A) (i : nat) :
  findIndex p l = Z.of_nat i ->
  exists x, l !! i = Some x /\ p x = true
            /\ forall j y, (j < i)%nat -> l !! j = Some y -> p y = false.
Proof.
  revert i. induction l as [| x rest IH]; cbn [findIndex]; intros i Hi; [lia |].
  destruct (p x) eqn:Hx.
  - assert (i = 0%nat) as -> by lia. exists x. repeat split; [assumption |].
    intros j y Hj; lia.
  - destruct (findIndex p rest =? -1) eqn:Hr; [lia |].
    pose proof (findIndex_range rest) as Hrange.
    destruct i as [| i]; [lia |].
    destruct (IH i ltac:(lia)) as (x' & Hx' & Hp & Hbefore).
    exists x'. repeat split; [assumption | assumption |].
    intros [| j] y Hj Hy; cbn in Hy; [congruence |].
    apply (Hbefore j y); [lia | assumption].
Qed.

End FindIndexFacts.

Lemma isProjectsSegment_true (s : string) :
  isProjectsSegment s = true <-> s = "projects".
Proof. unfold isProjectsSegment. apply String.eqb_eq. Qed.

(** The test of [writeToFile] accepts exactly the conforming paths. *)
Lemma path_check_conforming (segs : list string) :
  ((findIndex isProjectsSegment segs =? -1)
   || (findIndex isProjectsSegment segs >=? Z.of_nat (length segs) - 2)) = false
  <-> conforming segs.
Proof.
  pose proof (findIndex_range isProjectsSegment segs) as Hrange.
  split.
  - intros Hchk. apply orb_false_iff in Hchk as [Hne Hlt].
    destruct Hrange as [Hm | Hr]; [lia |].
    destruct (findIndex_first isProjectsSegment segs
                (Z.to_nat (findIndex isProjectsSegment segs)) ltac:(lia))
      as (x & Hx & Hp & _).
    exists (Z.to_nat (findIndex isProjectsSegment segs)). split; [| lia].
    apply isProjectsSegment_true in Hp. congruence.
  - intros (j & Hj & Hlen).
    destruct Hrange as [Hm | Hr].
    + pose proof (findIndex_none isProjectsSegment segs Hm j _ Hj) as Hf.
      discriminate Hf.
    + destruct (findIndex_first isProjectsSegment segs
                  (Z.to_nat (findIndex isProjectsSegment segs)) ltac:(lia))
        as (x & Hx & Hp & Hbefore).
      assert (Z.to_nat (findIndex isProjectsSegment segs) <= j)%nat.
      { destruct (decide (Z.to_nat (findIndex isProjectsSegment segs) <= j)%nat)
          as [| Hgt]; [assumption |].
        pose proof (Hbefore j _ ltac:(lia) Hj) as Hf. discriminate Hf. }
      apply orb_false_iff. split; lia.
Qed.

Section WriteFacts.
Context {B E : Type} `{!Collaborators B E}.

Lemma savesOf_settle (e : E) (t : list Event) :
  savesOf (t ++ settleSleeps e) = savesOf t.
Proof.
  unfold savesOf, settleSleeps. rewrite List.filter_app.
  destruct (storageLoaded e); [apply app_nil_r |].
  induction (waitRounds 50 e) as [| n IH]; [apply app_nil_r | exact IH].
Qed.

Lemma index_nat {X : Type} (l : list X) (i : nat) (k : Z) :
  0 <= k -> index l (Z.of_nat i + k) = l !! (i + Z.to_nat k)%nat.
Proof.
  intros Hk. unfold index.
  assert ((Z.of_nat i + k <? 0) = false) as -> by (apply Z.ltb_ge; lia).
  f_equal. lia.
Qed.

(** C10, amended — path policy of the file-write handler.  For a path
    with no ["projects"] segment followed by at least two further segments
    the handler returns a text beginning with ["Error:"] and the world is
    the initial one but for the time spent waiting for the storage service:
    [storage.saveFile] is not invoked.  For a conforming path, once the
    storage service is loaded (at the call, or within the wait of at most
    fifty times 100 ms), the handler invokes [storage.saveFile] once, with
    the segment after the first ["projects"] as the project name and the
    next segment as the file name.  For a conforming path, when the
    storage service is still not loaded after the wait, the handler
    returns the text ["Error: Storage service not initialized. Please
    restart the server."] and [storage.saveFile] is not invoked: the world
    is the initial one but for the time spent waiting. *)
Theorem writeToFile_path_policy (fs : list (string * JsVal)) (p : string)
    (uid : option string) (w : World B E) :
  assoc "filePath" fs = JStr p ->
  (~ conforming (splitPath p) ->
   exists msg w',
     writeToFile (JObj fs) uid w = (Normal (JStr ("Error: " +:+ msg)), w')
     /\ w' = mkWorld (backend w) (settledEnv (env w)) (trace w ++ settleSleeps (env w))
               (ProjectHistory w)
     /\ savesOf (trace w') = savesOf (trace w))
  /\
  (conforming (splitPath p) ->
   storageLoaded (settledEnv (env w)) = true ->
   exists (i : nat) (pn fn : string),
     splitPath p !! i = Some "projects"
     /\ (forall j, (j < i)%nat -> splitPath p !! j <> Some "projects")
     /\ splitPath p !! (i + 1)%nat = Some pn
     /\ splitPath p !! (i + 2)%nat = Some fn
     /\ writeToFile (JObj fs) uid w
        = (Normal (saveReport pn fn
                     (saveFile (Some pn) (Some fn) (assoc "content" fs) uid
                        (settledEnv (env w))).1),
           mkWorld (backend w)
             (saveFile (Some pn) (Some fn) (assoc "content" fs) uid
                (settledEnv (env w))).2
             (trace w ++ settleSleeps (env w)
              ++ [EvSave (Some pn) (Some fn) (assoc "content" fs) uid])
             (ProjectHistory w)))
  /\
  (conforming (splitPath p) ->
   storageLoaded (settledEnv (env w)) = false ->
   exists w',
     writeToFile (JObj fs) uid w
     = (Normal (JStr "Error: Storage service not initialized. Please restart the server."),
        w')
     /\ w' = mkWorld (backend w) (settledEnv (env w)) (trace w ++ settleSleeps (env w))
               (ProjectHistory w)
     /\ savesOf (trace w') = savesOf (trace w)).
Proof.
  intros Hfp.
  assert (writeToFile (JObj fs) uid w
          = match ensureStorage w with
            | (Normal _, w') =>
                tryCatch
                  (let pathParts := splitPath p in
                   let projectsIndex := findIndex isProjectsSegment pathParts in
                   if (projectsIndex =? -1)
                      || (projectsIndex >=? Z.of_nat (length pathParts) - 2)
                   then throw (Error_ "Invalid file path. Expected format: projects/projectName/fileName")
                   else
                     (emit (EvSave (index pathParts (projectsIndex + 1))
                              (index pathParts (projectsIndex + 2))
                              (assoc "content" fs) uid) ;;;
                      onEnv (saveFile (index pathParts (projectsIndex + 1))
                               (index pathParts (projectsIndex + 2))
                               (assoc "content" fs) uid) ;;;
                      ret (JStr ("Success: Content written to "
                                 +:+ showUndef (index pathParts (projectsIndex + 2))
                                 +:+ " in project "
                                 +:+ showUndef (index pathParts (projectsIndex + 1)))))%js)
                  (fun error => ret (JStr ("Error: " +:+ showUndef (message error)))) w'
            | (Throw error, w') =>
                (Normal (JStr ("Error: " +:+ showUndef (message error))), w')
            end)
    as ->.
  { unfold writeToFile, bind at 1 2, liftC. cbn [destructure getProp]. rewrite Hfp.
    unfold tryCatch, writeToFile_try, bind at 1.
    destruct (ensureStorage w) as [[[] | err] w']; reflexivity. }
  rewrite ensureStorage_spec.
  pose proof (path_check_conforming (splitPath p)) as Hchk.
  cbv zeta.
  split; [| split].
  - intros Hbad.
    destruct (storageLoaded (settledEnv (env w))).
    + destruct ((findIndex isProjectsSegment (splitPath p) =? -1)
                || (findIndex isProjectsSegment (splitPath p)
                    >=? Z.of_nat (length (splitPath p)) - 2)) eqn:Hc.
      * eexists _, _. unfold tryCatch, throw, ret.
        split; [reflexivity | split; [reflexivity | cbn [trace]; apply savesOf_settle]].
      * exfalso. apply Hbad, Hchk. reflexivity.
    + eexists _, _.
      split; [reflexivity | split; [reflexivity | cbn [trace]; apply savesOf_settle]].
  - intros Hok Hloaded. rewrite Hloaded.
    apply Hchk in Hok as Hc. rewrite Hc.
    apply orb_false_iff in Hc as [Hne Hlt].
    pose proof (findIndex_range isProjectsSegment (splitPath p)) as Hrange.
    destruct Hrange as [Hm | Hr]; [lia |].
    set (i := Z.to_nat (findIndex isProjectsSegment (splitPath p))).
    assert (findIndex isProjectsSegment (splitPath p) = Z.of_nat i) as Hi by lia.
    destruct (findIndex_first isProjectsSegment (splitPath p) i Hi)
      as (x & Hx & Hp & Hbefore).
    apply isProjectsSegment_true in Hp. subst x.
    destruct (lookup_lt_is_Some_2 (splitPath p) (i + 1)%nat ltac:(lia)) as [pn Hpn].
    destruct (lookup_lt_is_Some_2 (splitPath p) (i + 2)%nat ltac:(lia)) as [fn Hfn].
    exists i, pn, fn. repeat split; try assumption.
    + intros j Hj Hjp.
      pose proof (Hbefore j _ Hj Hjp) as Hf. discriminate Hf.
    + rewrite Hi, !index_nat by lia.
      change (Z.to_nat 1) with 1%nat. change (Z.to_nat 2) with 2%nat.
      rewrite Hpn, Hfn.
      unfold tryCatch, bind, emit, onEnv, ret. cbn [env backend trace ProjectHistory].
      destruct (saveFile (Some pn) (Some fn) (assoc "content" fs) uid
                  (settledEnv (env w))) as [[[] | err] e'];
        cbn [fst snd saveReport showUndef default]; rewrite <- app_assoc; reflexivity.
  - intros _ Hnot. rewrite Hnot. eexists.
    split; [reflexivity | split; [reflexivity | cbn [trace]; apply savesOf_settle]].
Qed.

End WriteFacts.

(** C10, as stated, fails: for a conforming path, when the storage service
    has not finished loading after the wait, the handler returns an
    ["Error:"] text and saves nothing. *)
Lemma writeToFile_unloaded_storage :
  conforming (splitPath "projects/shop/index.html")
  /\ (writeToFile (writeArgs "projects/shop/index.html" "<html></html>")
        (Some "user1") unloadedWorld).1
     = Normal (JStr "Error: Storage service not initialized. Please restart the server.")
  /\ savesOf (trace (writeToFile (writeArgs "projects/shop/index.html" "<html></html>")
                        (Some "user1") unloadedWorld).2) = []
  /\ objects (env (writeToFile (writeArgs "projects/shop/index.html" "<html></html>")
                       (Some "user1") unloadedWorld).2) = [].
Proof.
  split; [| split; [| split]].
  - exists 0%nat. split; [reflexivity | cbn; lia].
  - vm_compute. reflexivity.
  - vm_compute. reflexivity.
  - vm_compute. reflexivity.
Qed.

(** The path policy on a path without a project folder and on a
    well-formed one, in a world whose storage is loaded, and on a
    well-formed one in a world whose storage never loads. *)
Lemma writeToFile_path_policy_witness :
  (exists msg w',
     writeToFile (writeArgs "shop/index.html" "x") None (scriptedWorld [])
     = (Normal (JStr ("Error: " +:+ msg)), w')
     /\ w' = scriptedWorld []
     /\ savesOf (trace w') = [])
  /\ (writeToFile (writeArgs "projects/shop/index.html" "x") (Some "user1")
        (scriptedWorld [])).1
     = Normal (JStr "Success: Content written to index.html in project shop")
  /\ (writeToFile (writeArgs "projects/shop/index.html" "x") (Some "user1")
        unloadedWorld).1
     = Normal (JStr "Error: Storage service not initialized. Please restart the server.").
Proof.
  assert (~ conforming (splitPath "shop/index.html")) as Hbad.
  { intros (i & Hi & Hlen). cbn in Hlen. lia. }
  assert (conforming (splitPath "projects/shop/index.html")) as Hok.
  { exists 0%nat. split; [reflexivity | cbn; lia]. }
  assert (storageLoaded (settledEnv (env (scriptedWorld []))) = true) as Hloaded.
  { reflexivity. }
  split; [| split].
  - destruct (proj1 (writeToFile_path_policy
                       [("filePath", JStr "shop/index.html"); ("content", JStr "x")]
                       "shop/index.html" None (scriptedWorld []) eq_refl) Hbad)
      as (msg & w' & Hmsg & Hw' & Hsaves).
    exists msg, w'. repeat split; assumption.
  - destruct (proj1 (proj2 (writeToFile_path_policy
                              [("filePath", JStr "projects/shop/index.html");
                               ("content", JStr "x")]
                              "projects/shop/index.html" (Some "user1") (scriptedWorld [])
                              eq_refl)) Hok Hloaded)
      as (i & pn & fn & Hi & Hfirst & Hpn & Hfn & Hrun).
    reflexivity.
  - destruct (proj2 (proj2 (writeToFile_path_policy
                              [("filePath", JStr "projects/shop/index.html");
                               ("content", JStr "x")]
                              "projects/shop/index.html" (Some "user1") unloadedWorld
                              eq_refl)) Hok)
      as (w' & Hrun & _ & _); [vm_compute; reflexivity |].
    unfold writeArgs. rewrite Hrun. reflexivity.
Defined.

(** The retry boundary on an always-overloaded and on an invalid request,
    with the default base delay of one second. *)
Lemma retry_boundary_witness :
  retryWithBackoff (external overloadedOp) 3 1000 (scriptedWorld [])
  = (Throw (Error_ "got status: 503 Service Unavailable"),
     mkWorld [] (mkBucket 3000 0 true [])
       [EvAttempt 1; EvSleep 1000; EvAttempt 2; EvSleep 2000; EvAttempt 3] ∅)
  /\ retryWithBackoff (external invalidOp) 3 1000 (scriptedWorld [])
     = (Throw (Error_ "got status: 400 INVALID_ARGUMENT"),
        mkWorld [] (mkBucket 0 0 true []) [EvAttempt 1] ∅).
Proof.
  split.
  - assert (alwaysOverloaded overloadedOp) as Hall.
    { intros b e. exists (Error_ "got status: 503 Service Unavailable"), b, e.
      split; reflexivity. }
    destruct (proj1 (retry_boundary overloadedOp 1000 (scriptedWorld [])) Hall)
      as (err1 & b1 & e1 & err2 & b2 & e2 & err3 & b3 & e3 & H1 & H2 & H3 & Hrun).
    rewrite Hrun.
    injection H1 as <- <- <-. injection H2 as <- <- <-. injection H3 as <- <- <-.
    reflexivity.
  - apply (proj2 (retry_boundary invalidOp 1000 (scriptedWorld []))
             (Error_ "got status: 400 INVALID_ARGUMENT") [] (mkBucket 0 0 true []));
      reflexivity.
Defined.

(* ===================================================================== *)
(** ** Frame properties: what the computations leave alone               *)
(* ===================================================================== *)

Section Frame.
Context {B E : Type} `{!Collaborators B E}.

Lemma keeps_ret {A X} (f : World B E -> X) (a : A) : keeps f (ret a).
Proof. intros w. reflexivity. Qed.

Lemma keeps_throw {A X} (f : World B E -> X) (e : JsError) : keeps f (@throw B E A e).
Proof. intros w. reflexivity. Qed.

Lemma keeps_liftC {A X} (f : World B E -> X) (c : Completion A) : keeps f (liftC c).
Proof. intros w. reflexivity. Qed.

Lemma keeps_bind {A C X} (f : World B E -> X) (m : M B E A) (k : A -> M B E C) :
  keeps f m -> (forall a, keeps f (k a)) -> keeps f (bind m k).
Proof.
  intros Hm Hk w. unfold bind. specialize (Hm w).
  destruct (m w) as [[a | e] w1]; cbn in *; [| assumption].
  rewrite (Hk a w1). assumption.
Qed.

Lemma keeps_tryCatch {A X} (f : World B E -> X) (m : M B E A) (h : JsError -> M B E A) :
  keeps f m -> (forall e, keeps f (h e)) -> keeps f (tryCatch m h).
Proof.
  intros Hm Hh w. unfold tryCatch. specialize (Hm w).
  destruct (m w) as [[a | e] w1]; cbn in *; [assumption |].
  rewrite (Hh e w1). assumption.
Qed.

(** The process map is touched by [storeHistory] and [loadHistory] only. *)
Lemma history_emit ev : keeps (@ProjectHistory B E) (emit ev).
Proof. intros w. reflexivity. Qed.

Lemma history_sleep ms : keeps (@ProjectHistory B E) (sleep ms).
Proof. intros w. reflexivity. Qed.

Lemma history_onEnv {A} (op : E -> Completion A * E) :
  keeps (@ProjectHistory B E) (onEnv op).
Proof. intros w. unfold onEnv. destruct (op (env w)). reflexivity. Qed.

Lemma history_onBackend {A} (op : B -> Completion A * B) :
  keeps (@ProjectHistory B E) (onBackend op).
Proof. intros w. unfold onBackend. destruct (op (backend w)). reflexivity. Qed.

(** The backend is touched by [onBackend] only. *)
Lemma backend_emit ev : keeps (@backend B E) (emit ev).
Proof. intros w. reflexivity. Qed.

Lemma backend_sleep ms : keeps (@backend B E) (sleep ms).
Proof. intros w. reflexivity. Qed.

Lemma backend_onEnv {A} (op : E -> Completion A * E) : keeps (@backend B E) (onEnv op).
Proof. intros w. unfold onEnv. destruct (op (env w)). reflexivity. Qed.

(** Handler executions are recorded by [emit (EvHandler ...)] only. *)
Lemma handlers_emit ev : handlerName ev = None -> keeps (@handlersRun B E) (emit ev).
Proof.
  intros Hev w. unfold handlersRun, handlersOf, emit; cbn.
  rewrite omap_app; cbn. rewrite Hev. apply app_nil_r.
Qed.

Lemma handlers_sleep ms : keeps (@handlersRun B E) (sleep ms).
Proof.
  intros w. unfold handlersRun, handlersOf, sleep; cbn.
  rewrite omap_app; cbn. apply app_nil_r.
Qed.

Lemma handlers_onEnv {A} (op : E -> Completion A * E) :
  keeps (@handlersRun B E) (onEnv op).
Proof. intros w. unfold onEnv. destruct (op (env w)). reflexivity. Qed.

Lemma handlers_onBackend {A} (op : B -> Completion A * B) :
  keeps (@handlersRun B E) (onBackend op).
Proof. intros w. unfold onBackend. destruct (op (backend w)). reflexivity. Qed.

End Frame.

Create HintDb frame.
#[export] Hint Resolve keeps_ret keeps_throw keeps_liftC keeps_bind keeps_tryCatch
  history_emit history_sleep history_onEnv history_onBackend
  backend_emit backend_sleep backend_onEnv
  handlers_emit handlers_sleep handlers_onEnv handlers_onBackend : frame.

Section HandlerFrame.
Context {B E : Type} `{!Collaborators B E}.

(** An observation the storage guard leaves alone. *)
Lemma keeps_awaitStorage {X} (f : World B E -> X) (rounds : nat) :
  keeps f (sleep 100) -> keeps f (awaitStorage rounds).
Proof.
  intros Hs. induction rounds as [| rounds IH]; cbn [awaitStorage].
  - apply keeps_ret.
  - apply keeps_bind; [assumption |]. intros _ w.
    destruct (storageLoaded (env w)); [reflexivity | apply IH].
Qed.

Lemma keeps_ensureStorage {X} (f : World B E -> X) :
  keeps f (sleep 100) -> keeps f ensureStorage.
Proof.
  intros Hs w. unfold ensureStorage.
  destruct (storageLoaded (env w)); [reflexivity |].
  pose proof (keeps_awaitStorage f 50 Hs w) as Hw. unfold bind.
  destruct (awaitStorage 50 w) as [[[] | e] w1]; cbn in *; [| assumption].
  destruct (storageLoaded (env w1)); assumption.
Qed.

(** The file-write handler changes an observation only through sleeps,
    save events and the storage service. *)
Lemma keeps_writeToFile {X} (f : World B E -> X) (a : JsVal) (u : option string) :
  keeps f (sleep 100) ->
  (forall ev, handlerName ev = None -> keeps f (emit ev)) ->
  (forall A (op : E -> Completion A * E), keeps f (onEnv op)) ->
  keeps f (writeToFile a u).
Proof.
  intros Hs Hemit Henv. unfold writeToFile, writeToFile_try.
  apply keeps_bind; [apply keeps_liftC |]. intros filePath.
  apply keeps_bind; [apply keeps_liftC |]. intros content.
  apply keeps_tryCatch; [| intros; apply keeps_ret].
  apply keeps_bind; [apply keeps_ensureStorage; assumption |]. intros _.
  apply keeps_bind; [apply keeps_liftC |]. intros pathParts. cbv zeta.
  destruct ((findIndex isProjectsSegment pathParts =? -1)
            || (findIndex isProjectsSegment pathParts
                >=? Z.of_nat (length pathParts) - 2)); [apply keeps_throw |].
  apply keeps_bind; [apply Hemit; reflexivity |]. intros _.
  apply keeps_bind; [apply Henv |]. intros _. apply keeps_ret.
Qed.

Lemma keeps_readProjectFiles {X} (f : World B E -> X) (a : JsVal) (u : option string) :
  (forall A (op : E -> Completion A * E), keeps f (onEnv op)) ->
  keeps f (readProjectFiles a u).
Proof.
  intros Henv. unfold readProjectFiles.
  apply keeps_bind; [apply keeps_liftC |]. intros pn.
  apply keeps_tryCatch; [| intros; apply keeps_ret].
  apply keeps_bind; [apply Henv |]. intros files.
  apply keeps_bind; [apply keeps_liftC |]. intros n.
  destruct (n =? 0)%nat; apply keeps_ret.
Qed.

(** Every handler of the catalog. *)
Lemma keeps_handler {X} (f : World B E -> X) (n : string) (h : Handler B E)
    (a : JsVal) (u : option string) :
  keeps f (sleep 100) ->
  (forall ev, handlerName ev = None -> keeps f (emit ev)) ->
  (forall A (op : E -> Completion A * E), keeps f (onEnv op)) ->
  availableTools n = Some h ->
  keeps f (h a u).
Proof.
  intros Hs Hemit Henv. unfold availableTools.
  repeat match goal with
         | |- (if ?c then _ else _) = _ -> _ => destruct c
         end; intros Hh; try discriminate; injection Hh as <-.
  - apply keeps_writeToFile; assumption.
  - apply keeps_readProjectFiles; assumption.
  - apply Henv.
Qed.

End HandlerFrame.

(* ===================================================================== *)
(** ** The turn-pairing discipline                                       *)
(* ===================================================================== *)

Lemma paired_app_bounded (n : nat) (h1 h2 : list Turn) :
  (length h1 <= n)%nat ->
  paired h1 = true -> paired h2 = true -> paired (h1 ++ h2) = true.
Proof.
  revert h1. induction n as [| n IH]; intros h1 Hlen H1 H2.
  - destruct h1; [assumption | cbn in Hlen; lia].
  - destruct h1 as [| t rest]; [assumption |].
    cbn [app paired] in *. destruct (isCallTurn t).
    + destruct (role t); [discriminate |].
      destruct (parts t) as [| [| fc |] [| ? ?]]; try discriminate.
      destruct rest as [| r rest']; [discriminate |].
      apply andb_true_iff in H1 as [Hr Hrest]. cbn [app].
      rewrite Hr. cbn. apply IH; [cbn in Hlen; lia | assumption | assumption].
    + apply andb_true_iff in H1 as [Hr Hrest]. rewrite Hr. cbn.
      apply IH; [cbn in Hlen; lia | assumption | assumption].
Qed.

Lemma paired_app (h1 h2 : list Turn) :
  paired h1 = true -> paired h2 = true -> paired (h1 ++ h2) = true.
Proof. apply (paired_app_bounded (length h1)). lia. Qed.

Lemma paired_userText (m : string) : paired [userText m] = true.
Proof. reflexivity. Qed.

Lemma paired_modelText (t : option string) : paired [modelText t] = true.
Proof. reflexivity. Qed.

Lemma paired_call_result (fc : FunctionCall) (r : JsVal) :
  paired [modelCall fc; userResult (name fc) r] = true.
Proof. cbn. rewrite String.eqb_refl. reflexivity. Qed.

Lemma paired_head_not_result (h : list Turn) (t : Turn) :
  paired h = true -> h !! 0%nat = Some t -> isResultTurn t = false.
Proof.
  destruct h as [| t0 rest]; [discriminate |]. cbn [paired].
  intros Hp [= ->]. destruct (isCallTurn t) eqn:Hc.
  - destruct (role t); [discriminate |].
    destruct t as [ro ps]; cbn in *.
    destruct ps as [| [| fc |] [| ? ?]]; try discriminate. reflexivity.
  - apply andb_true_iff in Hp as [Hr _]. apply negb_true_iff in Hr. assumption.
Qed.

Lemma paired_turnPairing_bounded (n : nat) (h : list Turn) :
  (length h <= n)%nat -> paired h = true -> turnPairing h.
Proof.
  revert h. induction n as [| n IH]; intros h Hlen Hp i t Hi Hcall.
  - destruct h; [destruct i; discriminate | cbn in Hlen; lia].
  - destruct h as [| t0 rest]; [destruct i; discriminate |].
    cbn [paired] in Hp. destruct (isCallTurn t0) eqn:Hc0.
    + destruct t0 as [ro ps]; cbn [role parts] in Hp.
      destruct ro; [discriminate |].
      destruct ps as [| [| fc |] [| ? ?]]; try discriminate.
      destruct rest as [| r rest']; [discriminate |].
      apply andb_true_iff in Hp as [Hr Hrest].
      destruct r as [rro rps]. unfold resultFor in Hr; cbn [role parts] in Hr.
      destruct rro; [| discriminate].
      destruct rps as [| [| | rn rv] [| ? ?]]; try discriminate.
      apply String.eqb_eq in Hr. subst rn.
      destruct i as [| [| i]]; cbn in Hi.
      * injection Hi as <-. exists fc, rv. repeat split.
        intros t' Ht'. cbn in Ht'. eapply paired_head_not_result; eassumption.
      * injection Hi as <-. discriminate Hcall.
      * destruct (IH rest' ltac:(cbn in Hlen; lia) Hrest i t Hi Hcall)
          as (fc' & r' & -> & Hnext & Hafter).
        exists fc', r'. repeat split; assumption.
    + apply andb_true_iff in Hp as [_ Hrest].
      destruct i as [| i]; cbn in Hi.
      * injection Hi as <-. congruence.
      * destruct (IH rest ltac:(cbn in Hlen; lia) Hrest i t Hi Hcall)
          as (fc' & r' & -> & Hnext & Hafter).
        exists fc', r'. repeat split; assumption.
Qed.

(** The check implies the invariant as the specification words it. *)
Lemma paired_turnPairing (h : list Turn) : paired h = true -> turnPairing h.
Proof. apply (paired_turnPairing_bounded (length h)). lia. Qed.

(* ===================================================================== *)
(** ** AgentLoop                                                         *)
(* ===================================================================== *)

Section AgentFacts.
Context {B E : Type} `{!Collaborators B E}.

Lemma keeps_generate {X} (f : World B E -> X) cfg h :
  (forall A (op : B -> Completion A * B), keeps f (onBackend op)) ->
  keeps f (generate cfg h).
Proof.
  intros Hb. unfold generate. destruct (revision cfg); [apply Hb |].
  apply keeps_tryCatch; [apply Hb |]. intros e.
  destruct (is503 e); [apply Hb | apply keeps_throw].
Qed.

Lemma keeps_retryLoop {A X} (f : World B E -> X) (fn : M B E A) fuel attempt
    maxRetries baseDelay :
  keeps f fn ->
  (forall ev, handlerName ev = None -> keeps f (emit ev)) ->
  (forall ms, keeps f (sleep ms)) ->
  keeps f (retryLoop fn fuel attempt maxRetries baseDelay).
Proof.
  intros Hfn Hemit Hsleep. revert attempt.
  induction fuel as [| fuel IH]; intros attempt; cbn [retryLoop];
    [apply keeps_ret |].
  destruct (attempt <=? maxRetries); [| apply keeps_ret].
  apply keeps_bind; [apply Hemit; reflexivity |]. intros _.
  apply keeps_tryCatch.
  - apply keeps_bind; [assumption | intros; apply keeps_ret].
  - intros e. destruct (attempt =? maxRetries); [apply keeps_throw |].
    destruct (is503 e); [| apply keeps_throw].
    apply keeps_bind; [apply Hsleep | intros; apply IH].
Qed.

(** Generating changes neither the stored histories nor the record of the
    handlers executed. *)
Lemma generating_keeps_history cfg h :
  keeps (@ProjectHistory B E) (retryWithBackoff (generate cfg h) 3 1000).
Proof.
  apply keeps_retryLoop; auto with frame.
  apply keeps_generate; auto with frame.
Qed.

Lemma generating_keeps_handlers cfg h :
  keeps (@handlersRun B E) (retryWithBackoff (generate cfg h) 3 1000).
Proof.
  apply keeps_retryLoop; auto with frame.
  apply keeps_generate; auto with frame.
Qed.

(** A request the backend answers at once goes through the retry executor
    in one attempt, without a sleep. *)
Lemma generating_answered cfg h (w : World B E) r b' :
  generateContent (mkRequest "gemini-2.5-flash" h (isUpdate cfg) (projectName cfg))
    (backend w) = (Normal r, b') ->
  retryWithBackoff (generate cfg h) 3 1000 w
  = (Normal (Some r),
     mkWorld b' (env w) (trace w ++ [EvAttempt 1]) (ProjectHistory w)).
Proof.
  intros Hgen. unfold retryWithBackoff. change (Z.to_nat 3) with 3%nat.
  cbn [retryLoop]. change (1 <=? 3) with true. cbv iota.
  unfold bind at 1, emit at 1. cbn [fst snd].
  unfold tryCatch at 1, bind at 1.
  assert (generate cfg h
            (mkWorld (backend w) (env w) (trace w ++ [EvAttempt 1]) (ProjectHistory w))
          = (Normal r, mkWorld b' (env w) (trace w ++ [EvAttempt 1]) (ProjectHistory w)))
    as ->.
  { unfold generate. destruct (revision cfg).
    - unfold onBackend; cbn [backend env trace ProjectHistory]. rewrite Hgen. reflexivity.
    - unfold tryCatch, onBackend; cbn [backend env trace ProjectHistory].
      rewrite Hgen. reflexivity. }
  reflexivity.
Qed.

Lemma writeToFile_not_allowed : allowedForUpdate "writeToFile" = false.
Proof. reflexivity. Qed.

(** Dispatch in update mode of a tool outside the allowed three. *)
Lemma dispatch_rejected cfg h fc (w : World B E) :
  isUpdate cfg = true -> allowedForUpdate (name fc) = false ->
  dispatch cfg h fc w
  = (Normal (Continue (h ++ [userText (rejectionMessage cfg fc)])), w).
Proof.
  intros Hu Hno. unfold dispatch, rejectionMessage. rewrite Hu, Hno. cbn [andb negb].
  destruct (String.eqb (name fc) "writeToFile"); reflexivity.
Qed.

(** Dispatch of a tool the mode allows. *)
Lemma dispatch_allowed cfg h fc (w : World B E) :
  isUpdate cfg = false \/ allowedForUpdate (name fc) = true ->
  dispatch cfg h fc w
  = match availableTools (name fc) with
    | None => (Throw (Error_ "funCall is not a function"), w)
    | Some funCall =>
        match funCall (args fc) (handlerUser cfg (name fc))
                (mkWorld (backend w) (env w)
                   (trace w ++ [EvHandler (name fc) (args fc) (handlerUser cfg (name fc))])
                   (ProjectHistory w)) with
        | (Normal result, w') =>
            (Normal (Continue (h ++ [modelCall fc; userResult (name fc) result])), w')
        | (Throw e, w') => (Throw e, w')
        end
    end.
Proof.
  intros Hok. unfold dispatch.
  assert (isUpdate cfg && String.eqb (name fc) "writeToFile" = false) as ->.
  { destruct Hok as [-> | Hal]; [reflexivity |].
    destruct (String.eqb (name fc) "writeToFile") eqn:Hw; [| apply andb_false_r].
    apply String.eqb_eq in Hw. rewrite Hw in Hal. discriminate Hal. }
  assert (isUpdate cfg && negb (allowedForUpdate (name fc)) = false) as ->.
  { destruct Hok as [-> | ->]; [reflexivity | apply andb_false_r]. }
  destruct (availableTools (name fc)) as [funCall |]; [| reflexivity].
  unfold bind at 1, emit at 1. cbn [fst snd]. unfold bind, ret.
  destruct (funCall _ _ _) as [[result | e] w']; reflexivity.
Qed.

(** The loop body, by the response the generation step produced. *)
Lemma loopBody_unfold cfg h (w : World B E) :
  loopBody cfg h w
  = match retryWithBackoff (generate cfg h) 3 1000 w with
    | (Throw e, w1) => (Throw e, w1)
    | (Normal None, w1) =>
        (Throw (Error_ "Cannot read properties of undefined (reading 'candidates')"), w1)
    | (Normal (Some response), w1) =>
        if malformedBranch cfg response then
          (Normal (Continue (h ++ [userText (malformedCallMessage (projectName cfg))])), w1)
        else
          match functionCalls response with
          | Some (fc :: _) => dispatch cfg h fc w1
          | _ =>
              match extractText cfg response with
              | Normal responseText =>
                  (Normal (Return responseText),
                   mkWorld (backend w1) (env w1) (trace w1)
                     (<[projectName cfg := h ++ [modelText responseText]]>
                        (ProjectHistory w1)))
              | Throw e => (Throw e, w1)
              end
          end
    end.
Proof.
  unfold loopBody, bind at 1.
  destruct (retryWithBackoff (generate cfg h) 3 1000 w) as [[[response |] | e] w1];
    try reflexivity.
  destruct (malformedBranch cfg response); [reflexivity |].
  destruct (functionCalls response) as [[| fc rest] |]; try reflexivity.
  all: unfold bind, liftC; destruct (extractText cfg response); reflexivity.
Qed.

Lemma continues_refl (h : list Turn) : continues h h.
Proof. exists []. split; [symmetry; apply app_nil_r | reflexivity]. Qed.

Lemma continues_trans (h1 h2 h3 : list Turn) :
  continues h1 h2 -> continues h2 h3 -> continues h1 h3.
Proof.
  intros (a1 & -> & P1) (a2 & -> & P2). exists (a1 ++ a2).
  split; [symmetry; apply app_assoc | apply paired_app; assumption].
Qed.

Lemma continues_paired (h h' : list Turn) :
  continues h h' -> paired h = true -> paired h' = true.
Proof. intros (a & -> & Pa) Ph. apply paired_app; assumption. Qed.

Lemma onlyAllowedRan_refl (w w' : World B E) :
  handlersRun w' = handlersRun w -> onlyAllowedRan w w'.
Proof. intros Heq. exists []. split; [rewrite app_nil_r; assumption | constructor]. Qed.

Lemma onlyAllowedRan_trans (w1 w2 w3 : World B E) :
  onlyAllowedRan w1 w2 -> onlyAllowedRan w2 w3 -> onlyAllowedRan w1 w3.
Proof.
  intros (n1 & H1 & F1) (n2 & H2 & F2). exists (n1 ++ n2).
  split; [rewrite H2, H1; symmetry; apply app_assoc | apply Forall_app; split; assumption].
Qed.

(** What a handler call leaves behind: the stored histories are the same
    and the record of executed handlers grew by this one call. *)
Lemma handler_call_frame n (funCall : Handler B E) a u (w : World B E) :
  availableTools n = Some funCall ->
  let w0 := mkWorld (backend w) (env w) (trace w ++ [EvHandler n a u])
              (ProjectHistory w) in
  ProjectHistory (funCall a u w0).2 = ProjectHistory w
  /\ handlersRun (funCall a u w0).2 = handlersRun w ++ [n].
Proof.
  intros Hh w0. split.
  - rewrite (keeps_handler (@ProjectHistory B E) n funCall a u); auto with frame.
  - rewrite (keeps_handler (@handlersRun B E) n funCall a u); auto with frame.
    unfold handlersRun, handlersOf, w0; cbn [trace]. rewrite omap_app. reflexivity.
Qed.

(** One iteration: what it does to the stored histories and to the local
    one. *)
Lemma loopBody_history cfg h (w : World B E) :
  match loopBody cfg h w with
  | (Throw _, w') => ProjectHistory w' = ProjectHistory w
  | (Normal (Continue h'), w') =>
      ProjectHistory w' = ProjectHistory w /\ continues h h'
  | (Normal (Return t), w') =>
      ProjectHistory w'
      = <[projectName cfg := h ++ [modelText t]]> (ProjectHistory w)
  end.
Proof.
  rewrite loopBody_unfold.
  pose proof (generating_keeps_history cfg h w) as Hgen.
  destruct (retryWithBackoff (generate cfg h) 3 1000 w) as [[[response |] | e] w1];
    cbn [snd] in Hgen; try assumption.
  destruct (malformedBranch cfg response).
  { split; [assumption |]. eexists. split; [reflexivity | reflexivity]. }
  destruct (functionCalls response) as [[| fc rest] |].
  - destruct (extractText cfg response); cbn [ProjectHistory]; congruence.
  - destruct (isUpdate cfg) eqn:Hu, (allowedForUpdate (name fc)) eqn:Hal.
    2:{ rewrite dispatch_rejected by assumption. split; [assumption |].
        eexists. split; reflexivity. }
    all: rewrite dispatch_allowed by (first [left; assumption | right; assumption]).
    all: destruct (availableTools (name fc)) as [funCall |] eqn:Hh; [| assumption].
    all: destruct (handler_call_frame (name fc) funCall (args fc)
                     (handlerUser cfg (name fc)) w1 Hh) as [Hph _].
    all: destruct (funCall _ _ _) as [[result | e] w2]; cbn [snd] in Hph;
      [| congruence].
    all: split; [congruence |]; eexists; split;
      [reflexivity | apply paired_call_result].
  - destruct (extractText cfg response); cbn [ProjectHistory]; congruence.
Qed.

(** One iteration of an update executes no handler outside the allowed
    three. *)
Lemma loopBody_handlers cfg h (w : World B E) :
  isUpdate cfg = true -> onlyAllowedRan w (loopBody cfg h w).2.
Proof.
  intros Hu. rewrite loopBody_unfold.
  pose proof (generating_keeps_handlers cfg h w) as Hgen.
  destruct (retryWithBackoff (generate cfg h) 3 1000 w) as [[[response |] | e] w1];
    cbn [snd] in *; try (apply onlyAllowedRan_refl; assumption).
  destruct (malformedBranch cfg response);
    [apply onlyAllowedRan_refl; assumption |].
  destruct (functionCalls response) as [[| fc rest] |].
  - destruct (extractText cfg response); apply onlyAllowedRan_refl; assumption.
  - destruct (allowedForUpdate (name fc)) eqn:Hal.
    2:{ rewrite dispatch_rejected by assumption. apply onlyAllowedRan_refl; assumption. }
    rewrite dispatch_allowed by (right; assumption).
    destruct (availableTools (name fc)) as [funCall |] eqn:Hh;
      [| apply onlyAllowedRan_refl; assumption].
    destruct (handler_call_frame (name fc) funCall (args fc)
                (handlerUser cfg (name fc)) w1 Hh) as [_ Hrun].
    exists [name fc]. split; [| repeat constructor; assumption].
    destruct (funCall _ _ _) as [[result | e] w2]; cbn [snd] in *; congruence.
  - destruct (extractText cfg response); apply onlyAllowedRan_refl; assumption.
Qed.

(** The loop: the stored histories change only when it returns, and then
    only at the project of the run, to a continuation of the local history
    closed by the final text. *)
Lemma agentLoop_history fuel cfg h (w : World B E) :
  match agentLoop fuel cfg h w with
  | (Throw _, w') => ProjectHistory w' = ProjectHistory w
  | (Normal (Continue h'), w') =>
      ProjectHistory w' = ProjectHistory w /\ continues h h'
  | (Normal (Return t), w') =>
      exists h', continues h h'
                 /\ ProjectHistory w'
                    = <[projectName cfg := h' ++ [modelText t]]> (ProjectHistory w)
  end.
Proof.
  revert h w. induction fuel as [| fuel IH]; intros h w; cbn [agentLoop].
  - split; [reflexivity | apply continues_refl].
  - unfold bind. pose proof (loopBody_history cfg h w) as Hbody.
    destruct (loopBody cfg h w) as [[[h1 | t] | e] w1].
    + destruct Hbody as [Hph Hc]. specialize (IH h1 w1).
      destruct (agentLoop fuel cfg h1 w1) as [[[h2 | t] | e] w2].
      * destruct IH as [Hph2 Hc2]. split; [congruence |].
        eapply continues_trans; eassumption.
      * destruct IH as (h' & Hc2 & Hph2). exists h'.
        split; [eapply continues_trans; eassumption | congruence].
      * congruence.
    + exists h. split; [apply continues_refl | assumption].
    + assumption.
Qed.

Lemma agentLoop_handlers fuel cfg h (w : World B E) :
  isUpdate cfg = true -> onlyAllowedRan w (agentLoop fuel cfg h w).2.
Proof.
  intros Hu. revert h w. induction fuel as [| fuel IH]; intros h w; cbn [agentLoop].
  - apply onlyAllowedRan_refl. reflexivity.
  - unfold bind. pose proof (loopBody_handlers cfg h w Hu) as Hbody.
    destruct (loopBody cfg h w) as [[[h1 | t] | e] w1]; cbn [snd] in *;
      try assumption.
    eapply onlyAllowedRan_trans; [eassumption | apply IH].
Qed.

Lemma loadHistory_spec cfg (w : World B E) :
  loadHistory cfg w
  = (Normal (priorHistory cfg w),
     mkWorld (backend w) (env w) (trace w) (storeAfterLoad cfg w)).
Proof.
  unfold loadHistory, priorHistory, storeAfterLoad.
  destruct (ProjectHistory w !! projectName cfg); cbn; [rewrite world_eta |]; reflexivity.
Qed.

(** Seeding, by what the read of the existing files produced. *)
Lemma seed_unfold cfg userProblem (w : World B E) :
  seed cfg userProblem w
  = if isUpdate cfg && hasProjectName cfg then
      match readProjectFiles (seedReadArgs cfg) (handlerUser cfg "readProjectFiles")
              (mkWorld (backend w) (env w) (trace w ++ [seedReadEvent cfg])
                 (storeAfterLoad cfg w)) with
      | (Normal existingFiles, w1) =>
          (Normal (priorHistory cfg w
                   ++ match contextTurns cfg existingFiles with
                      | Normal context => context
                      | Throw _ => []
                      end
                   ++ [userText userProblem]), w1)
      | (Throw _, w1) => (Normal (priorHistory cfg w ++ [] ++ [userText userProblem]), w1)
      end
    else
      (Normal (priorHistory cfg w ++ [] ++ [userText userProblem]),
       mkWorld (backend w) (env w) (trace w) (storeAfterLoad cfg w)).
Proof.
  unfold seed, bind at 1. rewrite loadHistory_spec.
  destruct (isUpdate cfg && hasProjectName cfg); [| reflexivity].
  unfold bind at 1, tryCatch, bind at 1, emit at 1. cbn [fst snd].
  unfold seedReadEvent, seedReadArgs. cbn [backend env trace ProjectHistory].
  unfold bind at 1.
  destruct (readProjectFiles _ _ _) as [[existingFiles | e] w1]; [| reflexivity].
  unfold liftC. destruct (contextTurns cfg existingFiles); reflexivity.
Qed.

(** The context turns are user texts. *)
Lemma contextTurns_paired cfg v ctx : contextTurns cfg v = Normal ctx -> paired ctx = true.
Proof.
  unfold contextTurns. destruct (String.eqb (typeof v) "object"); [| intros [= <-]; reflexivity].
  destruct (getProp v "error") as [err | e]; [| discriminate].
  destruct (negb (truthy err)); intros [= <-]; [| reflexivity].
  destruct (truthy (assoc "style.css" _)); reflexivity.
Qed.

(** Seeding never throws; it appends context and the user request to the
    prior history, creates the store entry at most, leaves the backend
    alone, and executes the read handler at most. *)
Lemma seed_total cfg userProblem (w : World B E) :
  exists context w',
    seed cfg userProblem w
    = (Normal (priorHistory cfg w ++ context ++ [userText userProblem]), w')
    /\ paired context = true
    /\ ProjectHistory w' = storeAfterLoad cfg w
    /\ backend w' = backend w
    /\ onlyAllowedRan w w'.
Proof.
  rewrite seed_unfold.
  destruct (isUpdate cfg && hasProjectName cfg).
  - set (w0 := mkWorld (backend w) (env w) (trace w ++ [seedReadEvent cfg])
                 (storeAfterLoad cfg w)).
    pose proof (keeps_readProjectFiles (@ProjectHistory B E) (seedReadArgs cfg)
                  (handlerUser cfg "readProjectFiles") ltac:(auto with frame) w0) as Hph.
    pose proof (keeps_readProjectFiles (@backend B E) (seedReadArgs cfg)
                  (handlerUser cfg "readProjectFiles") ltac:(auto with frame) w0) as Hb.
    pose proof (keeps_readProjectFiles (@handlersRun B E) (seedReadArgs cfg)
                  (handlerUser cfg "readProjectFiles") ltac:(auto with frame) w0) as Hh.
    assert (onlyAllowedRan w
              (readProjectFiles (seedReadArgs cfg) (handlerUser cfg "readProjectFiles") w0).2)
      as Hran.
    { exists ["readProjectFiles"]. split; [| repeat constructor].
      rewrite Hh. unfold handlersRun, handlersOf, w0; cbn [trace].
      rewrite omap_app. reflexivity. }
    destruct (readProjectFiles _ _ w0) as [[existingFiles | e] w1]; cbn [snd] in *.
    + destruct (contextTurns cfg existingFiles) as [context | e] eqn:Hctx.
      * exists context, w1. repeat split; try assumption.
        eapply contextTurns_paired; eassumption.
      * exists [], w1. repeat split; assumption.
    + exists [], w1. repeat split; assumption.
  - eexists [], _. repeat split. apply onlyAllowedRan_refl. reflexivity.
Qed.

Lemma allowedForUpdate_false (n : string) :
  n <> "updateProjectFiles" -> n <> "readProjectFiles" -> n <> "listProjects" ->
  allowedForUpdate n = false.
Proof.
  intros H1 H2 H3. unfold allowedForUpdate.
  apply String.eqb_neq in H1, H2, H3. rewrite H1, H2, H3. reflexivity.
Qed.

(** C1 — mode policy enforcement.  In a run with [isUpdate = true], at any
    iteration (any local history [h], any world [w]): when the generation
    step yields a response whose first function call names a tool other
    than [updateProjectFiles], [readProjectFiles] and [listProjects], the
    iteration appends one corrective user turn and nothing else happens —
    the world is the one the generation step left, so no handler was
    executed and nothing was stored — and the loop goes on generating with
    the same configuration, hence still in update mode. *)
Theorem update_policy_rejects cfg h (w w1 : World B E) response fc rest :
  isUpdate cfg = true ->
  retryWithBackoff (generate cfg h) 3 1000 w = (Normal (Some response), w1) ->
  functionCalls response = Some (fc :: rest) ->
  name fc <> "updateProjectFiles" ->
  name fc <> "readProjectFiles" ->
  name fc <> "listProjects" ->
  exists msg,
    loopBody cfg h w = (Normal (Continue (h ++ [userText msg])), w1)
    /\ handlersRun w1 = handlersRun w
    /\ ProjectHistory w1 = ProjectHistory w
    /\ forall fuel,
         agentLoop (S fuel) cfg h w = agentLoop fuel cfg (h ++ [userText msg]) w1.
Proof.
  intros Hu Hgen Hfc N1 N2 N3.
  pose proof (allowedForUpdate_false _ N1 N2 N3) as Hno.
  pose proof (generating_keeps_handlers cfg h w) as Hh.
  pose proof (generating_keeps_history cfg h w) as Hph.
  rewrite Hgen in Hh, Hph. cbn [snd] in Hh, Hph.
  exists (if malformedBranch cfg response
          then malformedCallMessage (projectName cfg)
          else rejectionMessage cfg fc).
  assert (loopBody cfg h w
          = (Normal (Continue (h ++ [userText (if malformedBranch cfg response
                                               then malformedCallMessage (projectName cfg)
                                               else rejectionMessage cfg fc)])), w1))
    as Hbody.
  { rewrite loopBody_unfold, Hgen.
    destruct (malformedBranch cfg response); [reflexivity |].
    rewrite Hfc. apply dispatch_rejected; assumption. }
  repeat split; try assumption.
  intros fuel. cbn [agentLoop]. unfold bind. rewrite Hbody. reflexivity.
Qed.

(** A whole update run — seeding and any number of iterations — executes
    no handler outside the allowed three. *)
Lemma update_run_handlers fuel cfg userProblem (w : World B E) :
  isUpdate cfg = true -> onlyAllowedRan w (runAgent fuel cfg userProblem w).2.
Proof.
  intros Hu. unfold runAgent, bind.
  destruct (seed_total cfg userProblem w) as (ctx & w0 & -> & _ & _ & _ & Hseed).
  eapply onlyAllowedRan_trans; [eassumption | apply agentLoop_handlers; assumption].
Qed.

(** What a run does to the stored histories, by its outcome. *)
Lemma runAgent_history fuel cfg userProblem (w : World B E) :
  match runAgent fuel cfg userProblem w with
  | (Normal (Return t), w') =>
      exists h', continues (priorHistory cfg w) h'
                 /\ ProjectHistory w'
                    = <[projectName cfg := h' ++ [modelText t]]> (storeAfterLoad cfg w)
  | (_, w') => ProjectHistory w' = storeAfterLoad cfg w
  end.
Proof.
  unfold runAgent, bind.
  destruct (seed_total cfg userProblem w) as (ctx & w0 & -> & Hctx & Hph & _ & _).
  pose proof (agentLoop_history fuel cfg
                (priorHistory cfg w ++ ctx ++ [userText userProblem]) w0) as Hloop.
  destruct (agentLoop fuel cfg _ w0) as [[[h2 | t] | e] w2].
  - destruct Hloop as [-> _]. assumption.
  - destruct Hloop as (h' & Hc & ->). exists h'. split; [| congruence].
    eapply continues_trans; [| eassumption].
    exists (ctx ++ [userText userProblem]). split; [reflexivity |].
    apply paired_app; [assumption | reflexivity].
  - congruence.
Qed.

Lemma storeAfterLoad_lookup cfg (w : World B E) key :
  storeAfterLoad cfg w !! key
  = if decide (key = projectName cfg) then Some (priorHistory cfg w)
    else ProjectHistory w !! key.
Proof.
  unfold storeAfterLoad, priorHistory.
  destruct (ProjectHistory w !! projectName cfg) as [h |] eqn:Hl.
  - destruct (decide (key = projectName cfg)) as [-> |]; [assumption | reflexivity].
  - destruct (decide (key = projectName cfg)) as [-> | Hne].
    + rewrite lookup_insert_eq. reflexivity.
    + rewrite lookup_insert_ne by congruence. reflexivity.
Qed.

(** C9 — a failed run persists nothing.  When a run throws (retry
    exhaustion, a provider error, a failing handler) the history stored for
    its project is the one stored before the run (empty if there was none,
    the entry being created on first reference) and the histories of the
    other projects are untouched: no turn appended during the run is
    stored. *)
Theorem failed_run_persists_nothing fuel cfg userProblem (w w' : World B E) e :
  runAgent fuel cfg userProblem w = (Throw e, w') ->
  ProjectHistory w' !! projectName cfg
  = Some (default [] (ProjectHistory w !! projectName cfg))
  /\ forall key, key <> projectName cfg ->
       ProjectHistory w' !! key = ProjectHistory w !! key.
Proof.
  intros Hrun. pose proof (runAgent_history fuel cfg userProblem w) as Hh.
  rewrite Hrun in Hh. split.
  - rewrite Hh, storeAfterLoad_lookup. rewrite decide_True by reflexivity. reflexivity.
  - intros key Hne. rewrite Hh, storeAfterLoad_lookup.
    rewrite decide_False by assumption. reflexivity.
Qed.

(** A run keeps every stored history paired, however it ends. *)
Lemma runAgent_storePaired fuel cfg userProblem (w : World B E) :
  storePaired (ProjectHistory w) ->
  storePaired (ProjectHistory (runAgent fuel cfg userProblem w).2).
Proof.
  intros Hstore.
  assert (paired (priorHistory cfg w) = true) as Hprior.
  { unfold priorHistory. destruct (ProjectHistory w !! projectName cfg) eqn:Hl;
      [eapply Hstore; eassumption | reflexivity]. }
  assert (storePaired (storeAfterLoad cfg w)) as Hloaded.
  { intros key h. rewrite storeAfterLoad_lookup.
    destruct (decide (key = projectName cfg)); [congruence | apply Hstore]. }
  pose proof (runAgent_history fuel cfg userProblem w) as Hh.
  destruct (runAgent fuel cfg userProblem w) as [[[h2 | t] | e] w2]; cbn [snd];
    try (rewrite Hh; assumption).
  destruct Hh as (h' & Hc & ->). intros key h.
  destruct (decide (key = projectName cfg)) as [-> | Hne].
  - rewrite lookup_insert_eq. intros [= <-].
    apply paired_app; [| reflexivity].
    eapply continues_paired; eassumption.
  - rewrite lookup_insert_ne by congruence. apply Hloaded.
Qed.

Lemma reachable_storePaired (w : World B E) :
  reachable w -> storePaired (ProjectHistory w).
Proof.
  induction 1 as [b e t | w fuel cfg p _ IH | w key _ IH | w b e t _ IH]; cbn.
  - intros key h. rewrite lookup_empty. discriminate.
  - apply runAgent_storePaired. assumption.
  - intros k h Hk. apply lookup_delete_Some in Hk as [_ Hk]. eapply IH; eassumption.
  - assumption.
Qed.

(** C2 — turn pairing.  After a run that returned, from any state the
    process can be in, the history persisted for the project of the run
    satisfies the pairing invariant: every model turn recording a tool call
    is immediately followed by the user turn recording that tool's result,
    and no second result follows. *)
Theorem completed_run_history_paired fuel cfg userProblem (w w' : World B E) t :
  reachable w ->
  runAgent fuel cfg userProblem w = (Normal (Return t), w') ->
  exists h, ProjectHistory w' !! projectName cfg = Some h /\ turnPairing h.
Proof.
  intros Hreach Hrun.
  pose proof (runAgent_storePaired fuel cfg userProblem w
                (reachable_storePaired w Hreach)) as Hstore.
  pose proof (runAgent_history fuel cfg userProblem w) as Hh.
  rewrite Hrun in Hstore, Hh. cbn [snd] in Hstore.
  destruct Hh as (h' & _ & Hph).
  exists (h' ++ [modelText t]). split.
  - rewrite Hph. apply lookup_insert_eq.
  - apply paired_turnPairing. apply (Hstore (projectName cfg)).
    rewrite Hph. apply lookup_insert_eq.
Qed.

Lemma readProjectFiles_unfold (pnv : JsVal) (u : option string) (w : World B E) :
  readProjectFiles (JObj [("projectName", pnv)]) u w
  = match readAllProjectFiles pnv u (env w) with
    | (Normal files, e1) =>
        (match keyCount files with
         | Normal n =>
             if (n =? 0)%nat
             then Normal (JStr ("Error: Project " +:+ toStr pnv
                                +:+ " not found or has no files"))
             else Normal files
         | Throw err => Normal (JStr ("Error: " +:+ showUndef (message err)))
         end,
         mkWorld (backend w) e1 (trace w) (ProjectHistory w))
    | (Throw err, e1) =>
        (Normal (JStr ("Error: " +:+ showUndef (message err))),
         mkWorld (backend w) e1 (trace w) (ProjectHistory w))
    end.
Proof.
  unfold readProjectFiles, bind at 1, liftC at 1. cbn [destructure getProp assoc].
  change (String.eqb "projectName" "projectName") with true. cbv iota.
  unfold tryCatch, bind at 1, onEnv.
  destruct (readAllProjectFiles pnv u (env w)) as [[files | err] e1]; [| reflexivity].
  unfold bind, liftC. destruct (keyCount files) as [n | err]; [| reflexivity].
  destruct (n =? 0)%nat; reflexivity.
Qed.

Lemma truthy_assoc_present (k : string) (fs : list (string * JsVal)) :
  truthy (assoc k fs) = true -> exists v, In (k, v) fs.
Proof.
  induction fs as [| [k' v] fs IH]; cbn [assoc]; [discriminate |].
  destruct (String.eqb k k') eqn:Hk.
  - apply String.eqb_eq in Hk. subst k'. intros _. exists v. left. reflexivity.
  - intros Ht. destruct (IH Ht) as [v' Hin]. exists v'. right. assumption.
Qed.

Lemma contextTurns_error_text cfg (s : string) : contextTurns cfg (JStr s) = Normal [].
Proof. reflexivity. Qed.

(** C8 — seeding of an update.  With [isUpdate] set and a project name,
    let the storage read of the project's files end in [c].  If it threw,
    or yielded an error value, the failure is swallowed: seeding returns the
    prior history followed by the user request only.  If it yielded a
    non-empty file object, the summary turn is appended, followed by the
    turn with the style-file content exactly when [style.css] has content
    (which requires the file to exist), and then the user request.  In
    every case seeding returns normally and the loop starts. *)
Theorem seed_update_context cfg userProblem (w : World B E) pn c e1 :
  isUpdate cfg = true ->
  projectName cfg = Some pn -> pn <> "" ->
  readAllProjectFiles (JStr pn) (handlerUser cfg "readProjectFiles") (env w) = (c, e1) ->
  let w1 := mkWorld (backend w) e1 (trace w ++ [seedReadEvent cfg])
              (storeAfterLoad cfg w) in
  (forall err, c = Throw err ->
     seed cfg userProblem w
     = (Normal (priorHistory cfg w ++ [userText userProblem]), w1))
  /\ (forall v, c = Normal v -> yieldsError v ->
        seed cfg userProblem w
        = (Normal (priorHistory cfg w ++ [userText userProblem]), w1))
  /\ (forall fs, c = Normal (JObj fs) -> fs <> [] ->
        truthy (assoc "error" fs) = false ->
        seed cfg userProblem w
        = (Normal (priorHistory cfg w ++ fileContext cfg fs ++ [userText userProblem]),
           w1)
        /\ (truthy (assoc "style.css" fs) = true ->
            fileContext cfg fs
            = [userText (updateContextMessage (Some pn) fs);
               userText (cssContextMessage (assoc "style.css" fs))]
            /\ exists css, In ("style.css", css) fs)
        /\ (truthy (assoc "style.css" fs) = false ->
            fileContext cfg fs = [userText (updateContextMessage (Some pn) fs)])).
Proof.
  intros Hu Hpn Hne Hread w1.
  assert (seed cfg userProblem w
          = match c with
            | Normal files =>
                (Normal (priorHistory cfg w
                         ++ match contextTurns cfg
                                    match keyCount files with
                                    | Normal n =>
                                        if (n =? 0)%nat
                                        then JStr ("Error: Project " +:+ pn
                                                   +:+ " not found or has no files")
                                        else files
                                    | Throw err =>
                                        JStr ("Error: " +:+ showUndef (message err))
                                    end with
                            | Normal context => context
                            | Throw _ => []
                            end
                         ++ [userText userProblem]), w1)
            | Throw _ => (Normal (priorHistory cfg w ++ [userText userProblem]), w1)
            end) as Hseed.
  { rewrite seed_unfold. unfold hasProjectName. rewrite Hu, Hpn.
    rewrite (truthyStr_nonempty _ Hne). cbn [andb].
    unfold seedReadArgs. rewrite Hpn. cbn [showNull default].
    rewrite readProjectFiles_unfold. cbn [env backend trace ProjectHistory].
    unfold id. cbn [toStr]. rewrite Hread. destruct c as [files | err]; [| reflexivity].
    destruct (keyCount files) as [n | err]; [| reflexivity].
    destruct (n =? 0)%nat; reflexivity. }
  rewrite Hseed. clear Hseed. split; [| split].
  - intros err ->. reflexivity.
  - intros v -> Herr.
    destruct (keyCount v) as [n | err] eqn:Hk; [| reflexivity].
    destruct (n =? 0)%nat eqn:Hn; [reflexivity |].
    destruct Herr as [H0 | [[err H0] | [Hty | (fs & -> & Herr)]]].
    + rewrite Hk in H0. injection H0 as ->. discriminate Hn.
    + rewrite Hk in H0. discriminate H0.
    + unfold contextTurns. apply String.eqb_neq in Hty. rewrite Hty. reflexivity.
    + unfold contextTurns. cbn [typeof getProp].
      change (String.eqb "object" "object") with true. cbv iota.
      rewrite Herr. reflexivity.
  - intros fs -> Hfs Hnoerr. cbn [keyCount].
    destruct fs as [| f fs']; [congruence |]. cbn [length Nat.eqb].
    split; [| split].
    + unfold contextTurns. cbn [typeof getProp].
      change (String.eqb "object" "object") with true. cbv iota.
      rewrite Hnoerr. reflexivity.
    + intros Hcss. split; [| apply truthy_assoc_present; assumption].
      unfold fileContext. rewrite Hcss, Hpn. reflexivity.
    + intros Hcss. unfold fileContext. rewrite Hcss, Hpn. reflexivity.
Qed.

(** The file-write handler always returns a value when its argument is an
    object: every failure inside it becomes an ["Error: ..."] text. *)
Lemma writeToFile_returns (fs : list (string * JsVal)) (u : option string)
    (w : World B E) :
  exists result w',
    writeToFile (JObj fs) u w = (Normal result, w')
    /\ backend w' = backend w
    /\ ProjectHistory w' = ProjectHistory w.
Proof.
  pose proof (keeps_writeToFile (@backend B E) (JObj fs) u
                ltac:(auto with frame) ltac:(auto with frame) ltac:(auto with frame) w)
    as Hb.
  pose proof (keeps_writeToFile (@ProjectHistory B E) (JObj fs) u
                ltac:(auto with frame) ltac:(auto with frame) ltac:(auto with frame) w)
    as Hph.
  assert (exists result w', writeToFile (JObj fs) u w = (Normal result, w'))
    as (result & w' & Hrun).
  { unfold writeToFile, bind at 1 2, liftC. cbn [destructure getProp]. unfold tryCatch.
    destruct (writeToFile_try _ _ _ w) as [[result | e] w']; eexists _, _; reflexivity. }
  rewrite Hrun in Hb, Hph. exists result, w'. repeat split; assumption.
Qed.

Lemma malformedBranch_false cfg r : reportsMalformed r = false -> malformedBranch cfg r = false.
Proof. intros Hr. unfold malformedBranch. destruct (revision cfg); [assumption | reflexivity]. Qed.

(** An iteration of a create run in which the model asks to write a file. *)
Lemma loopBody_writes cfg h (w : World B E) r b' fs :
  isUpdate cfg = false ->
  (forall req, generateContent req (backend w) = (Normal r, b')) ->
  requestsTool r (mkCall "writeToFile" (JObj fs)) ->
  exists result w',
    loopBody cfg h w
    = (Normal (Continue (h ++ [modelCall (mkCall "writeToFile" (JObj fs));
                               userResult "writeToFile" result])), w')
    /\ backend w' = b'
    /\ ProjectHistory w' = ProjectHistory w.
Proof.
  intros Hu Hgen (Hnm & rest & Hfc).
  rewrite loopBody_unfold, (generating_answered cfg h w r b' (Hgen _)).
  rewrite (malformedBranch_false _ _ Hnm), Hfc.
  rewrite dispatch_allowed by (left; assumption).
  cbn [name args]. change (availableTools "writeToFile") with (Some (@writeToFile B E _)).
  cbv iota.
  destruct (writeToFile_returns fs (handlerUser cfg "writeToFile")
              (mkWorld b' (env w)
                 ((trace w ++ [EvAttempt 1])
                  ++ [EvHandler "writeToFile" (JObj fs) (handlerUser cfg "writeToFile")])
                 (ProjectHistory w)))
    as (result & w' & Hrun & Hb & Hph).
  cbn [backend env trace ProjectHistory]. rewrite Hrun.
  exists result, w'. repeat split; assumption.
Qed.

(** An iteration in which the model answers in plain text. *)
Lemma loopBody_answers cfg h (w : World B E) r b' t :
  (forall req, generateContent req (backend w) = (Normal r, b')) ->
  answersText r t ->
  loopBody cfg h w
  = (Normal (Return (Some t)),
     mkWorld b' (env w) (trace w ++ [EvAttempt 1])
       (<[projectName cfg := h ++ [modelText (Some t)]]> (ProjectHistory w))).
Proof.
  intros Hgen (Hnm & Hfc & Htext & Hne).
  rewrite loopBody_unfold, (generating_answered cfg h w r b' (Hgen _)).
  rewrite (malformedBranch_false _ _ Hnm).
  assert (extractText cfg r = Normal (Some t)) as Hex.
  { unfold extractText, extractResponseText, extractResponseText_old.
    rewrite Htext, (truthyStr_nonempty _ Hne). destruct (revision cfg); reflexivity. }
  destruct Hfc as [-> | ->]; rewrite Hex; reflexivity.
Qed.

(** An iteration of [src/index.js] in which the backend reports a malformed
    tool call: one corrective turn, one attempt, no sleep. *)
Lemma loopBody_malformed cfg h (w : World B E) r b' :
  revision cfg = Current ->
  (forall req, generateContent req (backend w) = (Normal r, b')) ->
  reportsMalformed r = true ->
  loopBody cfg h w
  = (Normal (Continue (h ++ [userText (malformedCallMessage (projectName cfg))])),
     mkWorld b' (env w) (trace w ++ [EvAttempt 1]) (ProjectHistory w)).
Proof.
  intros Hrev Hgen Hm.
  rewrite loopBody_unfold, (generating_answered cfg h w r b' (Hgen _)).
  unfold malformedBranch. rewrite Hrev, Hm. reflexivity.
Qed.

(** C4 — malformed recovery.  In [src/index.js], when the backend reports a
    malformed tool call once and then answers ["ok"] in plain text, the run
    appends exactly one corrective user turn after the seeded history, then
    the model's text turn, persists that history and returns ["ok"].  The
    trace gains two first attempts and no sleep: the malformed outcome is a
    response the retry executor returned, not a failure it retried. *)
Theorem malformed_call_recovery cfg userProblem (w : World B E) r1 b1 r2 b2 :
  revision cfg = Current ->
  (forall req, generateContent req (backend w) = (Normal r1, b1)) ->
  reportsMalformed r1 = true ->
  (forall req, generateContent req b1 = (Normal r2, b2)) ->
  answersText r2 "ok" ->
  exists h0 w0,
    seed cfg userProblem w = (Normal h0, w0)
    /\ forall fuel, (2 <= fuel)%nat ->
         runAgent fuel cfg userProblem w
         = (Normal (Return (Some "ok")),
            mkWorld b2 (env w0) (trace w0 ++ [EvAttempt 1; EvAttempt 1])
              (<[projectName cfg :=
                   h0 ++ [userText (malformedCallMessage (projectName cfg));
                          modelText (Some "ok")]]> (ProjectHistory w0))).
Proof.
  intros Hrev Hgen1 Hm Hgen2 Hans.
  destruct (seed_total cfg userProblem w) as (ctx & w0 & Hseed & _ & _ & Hb & _).
  exists (priorHistory cfg w ++ ctx ++ [userText userProblem]), w0.
  split; [assumption |].
  intros [| [| fuel]] Hfuel; [lia | lia |].
  unfold runAgent, bind at 1. rewrite Hseed.
  cbn [agentLoop]. unfold bind at 1.
  rewrite (loopBody_malformed cfg _ w0 r1 b1 Hrev) by (rewrite ?Hb; assumption).
  unfold bind at 1.
  rewrite (loopBody_answers cfg _ _ r2 b2 "ok") by assumption.
  cbn [env trace ProjectHistory ret]. unfold ret.
  rewrite <- !app_assoc. reflexivity.
Qed.

(** C5 — happy path of a create run.  From an empty project history, when
    the model requests [writeToFile] three times and then answers ["Done"],
    the run returns ["Done"] and the history persisted for the project has
    exactly eight turns: the user request, three pairs of a model tool-call
    turn and the user turn with its result, and the model's final text. *)
Theorem happy_path_create cfg userProblem (w : World B E)
    r1 r2 r3 r4 b1 b2 b3 b4 fs1 fs2 fs3 :
  isUpdate cfg = false ->
  priorHistory cfg w = [] ->
  (forall req, generateContent req (backend w) = (Normal r1, b1)) ->
  requestsTool r1 (mkCall "writeToFile" (JObj fs1)) ->
  (forall req, generateContent req b1 = (Normal r2, b2)) ->
  requestsTool r2 (mkCall "writeToFile" (JObj fs2)) ->
  (forall req, generateContent req b2 = (Normal r3, b3)) ->
  requestsTool r3 (mkCall "writeToFile" (JObj fs3)) ->
  (forall req, generateContent req b3 = (Normal r4, b4)) ->
  answersText r4 "Done" ->
  exists res1 res2 res3 w' h,
    (forall fuel, (4 <= fuel)%nat ->
       runAgent fuel cfg userProblem w = (Normal (Return (Some "Done")), w'))
    /\ ProjectHistory w' !! projectName cfg = Some h
    /\ h = [userText userProblem;
            modelCall (mkCall "writeToFile" (JObj fs1)); userResult "writeToFile" res1;
            modelCall (mkCall "writeToFile" (JObj fs2)); userResult "writeToFile" res2;
            modelCall (mkCall "writeToFile" (JObj fs3)); userResult "writeToFile" res3;
            modelText (Some "Done")]
    /\ length h = 8%nat.
Proof.
  intros Hu Hprior G1 T1 G2 T2 G3 T3 G4 T4.
  assert (seed cfg userProblem w
          = (Normal [userText userProblem],
             mkWorld (backend w) (env w) (trace w) (storeAfterLoad cfg w))) as Hseed.
  { rewrite seed_unfold, Hu, Hprior. reflexivity. }
  set (w0 := mkWorld (backend w) (env w) (trace w) (storeAfterLoad cfg w)) in *.
  destruct (loopBody_writes cfg [userText userProblem] w0 r1 b1 fs1 Hu G1 T1)
    as (res1 & w1 & L1 & B1 & P1).
  destruct (loopBody_writes cfg
              ([userText userProblem]
               ++ [modelCall (mkCall "writeToFile" (JObj fs1));
                   userResult "writeToFile" res1])
              w1 r2 b2 fs2 Hu ltac:(rewrite B1; exact G2) T2)
    as (res2 & w2 & L2 & B2 & P2).
  destruct (loopBody_writes cfg
              (([userText userProblem]
                ++ [modelCall (mkCall "writeToFile" (JObj fs1));
                    userResult "writeToFile" res1])
               ++ [modelCall (mkCall "writeToFile" (JObj fs2));
                   userResult "writeToFile" res2])
              w2 r3 b3 fs3 Hu ltac:(rewrite B2; exact G3) T3)
    as (res3 & w3 & L3 & B3 & P3).
  pose proof (loopBody_answers cfg
                ((([userText userProblem]
                   ++ [modelCall (mkCall "writeToFile" (JObj fs1));
                       userResult "writeToFile" res1])
                  ++ [modelCall (mkCall "writeToFile" (JObj fs2));
                      userResult "writeToFile" res2])
                 ++ [modelCall (mkCall "writeToFile" (JObj fs3));
                     userResult "writeToFile" res3])
                w3 r4 b4 "Done" ltac:(rewrite B3; exact G4) T4) as L4.
  eexists res1, res2, res3, _, _. split; [| split; [| split]].
  - intros [| [| [| [| fuel]]]] Hfuel; try lia.
    unfold runAgent, bind at 1. rewrite Hseed.
    cbn [agentLoop]. unfold bind at 1. rewrite L1.
    unfold bind at 1. rewrite L2.
    unfold bind at 1. rewrite L3.
    unfold bind at 1. rewrite L4. reflexivity.
  - cbn [ProjectHistory]. apply lookup_insert_eq.
  - reflexivity.
  - reflexivity.
Qed.

End AgentFacts.

(* ===================================================================== *)
(** ** The theorems at work on scripted runs                             *)
(* ===================================================================== *)

(** An update run whose model asks to deploy: rejected, nothing executed. *)
Lemma update_policy_rejects_witness :
  exists msg,
    loopBody updateRun [userText "make it blue"]
      (scriptedWorld [Normal (toolRequest "deployProject" (args deployCall))])
    = (Normal (Continue ([userText "make it blue"] ++ [userText msg])),
       mkWorld [] (mkBucket 0 0 true []) [EvAttempt 1] ∅)
    /\ handlersRun (mkWorld (B := list (Completion Response)) []
                      (mkBucket 0 0 true []) [EvAttempt 1] ∅) = []
    /\ ProjectHistory (mkWorld (B := list (Completion Response)) []
                         (mkBucket 0 0 true []) [EvAttempt 1] ∅) = ∅
    /\ forall fuel,
         agentLoop (S fuel) updateRun [userText "make it blue"]
           (scriptedWorld [Normal (toolRequest "deployProject" (args deployCall))])
         = agentLoop fuel updateRun ([userText "make it blue"] ++ [userText msg])
             (mkWorld [] (mkBucket 0 0 true []) [EvAttempt 1] ∅).
Proof.
  apply (update_policy_rejects updateRun [userText "make it blue"]
           (scriptedWorld [Normal (toolRequest "deployProject" (args deployCall))])
           (mkWorld [] (mkBucket 0 0 true []) [EvAttempt 1] ∅)
           (toolRequest "deployProject" (args deployCall)) deployCall []);
    first [reflexivity | discriminate].
Defined.

(** The history a completed create run persists is paired. *)
Lemma completed_run_history_paired_witness :
  exists h,
    ProjectHistory (runAgent 10 createRun "a portfolio site" (scriptedWorld happyScript)).2
      !! Some "proj1" = Some h
    /\ turnPairing h.
Proof.
  apply (completed_run_history_paired 10 createRun "a portfolio site"
           (scriptedWorld happyScript)
           (runAgent 10 createRun "a portfolio site" (scriptedWorld happyScript)).2
           (Some "Done")).
  - apply reach_start.
  - vm_compute. reflexivity.
Defined.

(** A run that exhausts its retries stores no turn. *)
Lemma failed_run_persists_nothing_witness :
  ProjectHistory (runAgent 10 createRun "a portfolio site"
                    (scriptedWorld overloadedScript)).2 !! Some "proj1"
  = Some []
  /\ forall key, key <> Some "proj1" ->
       ProjectHistory (runAgent 10 createRun "a portfolio site"
                         (scriptedWorld overloadedScript)).2 !! key
       = (∅ : gmap (option string) (list Turn)) !! key.
Proof.
  apply (failed_run_persists_nothing 10 createRun "a portfolio site"
           (scriptedWorld overloadedScript)
           (runAgent 10 createRun "a portfolio site" (scriptedWorld overloadedScript)).2
           (Error_ "got status: 503 Service Unavailable")).
  vm_compute. reflexivity.
Defined.

(** Malformed once, then ["ok"]. *)
Lemma malformed_call_recovery_witness :
  exists h0 w0,
    seed createRun "a portfolio site" (scriptedWorld malformedScript) = (Normal h0, w0)
    /\ forall fuel, (2 <= fuel)%nat ->
         runAgent fuel createRun "a portfolio site" (scriptedWorld malformedScript)
         = (Normal (Return (Some "ok")),
            mkWorld [] (env w0) (trace w0 ++ [EvAttempt 1; EvAttempt 1])
              (<[Some "proj1" :=
                   h0 ++ [userText (malformedCallMessage (Some "proj1"));
                          modelText (Some "ok")]]> (ProjectHistory w0))).
Proof.
  apply (malformed_call_recovery createRun "a portfolio site"
           (scriptedWorld malformedScript)
           malformedResponse [Normal (textAnswer "ok")] (textAnswer "ok") []).
  - reflexivity.
  - intros req. reflexivity.
  - reflexivity.
  - intros req. reflexivity.
  - repeat split; [left; reflexivity | discriminate].
Defined.

(** Three files, then ["Done"]: eight turns. *)
Lemma happy_path_create_witness :
  exists res1 res2 res3 w' h,
    (forall fuel, (4 <= fuel)%nat ->
       runAgent fuel createRun "a portfolio site" (scriptedWorld happyScript)
       = (Normal (Return (Some "Done")), w'))
    /\ ProjectHistory w' !! Some "proj1" = Some h
    /\ h = [userText "a portfolio site";
            modelCall (writeCall "index.html"); userResult "writeToFile" res1;
            modelCall (writeCall "style.css"); userResult "writeToFile" res2;
            modelCall (writeCall "script.js"); userResult "writeToFile" res3;
            modelText (Some "Done")]
    /\ length h = 8%nat.
Proof.
  apply (happy_path_create createRun "a portfolio site" (scriptedWorld happyScript)
           (toolRequest "writeToFile" (args (writeCall "index.html")))
           (toolRequest "writeToFile" (args (writeCall "style.css")))
           (toolRequest "writeToFile" (args (writeCall "script.js")))
           (textAnswer "Done")
           (tail happyScript) (tail (tail happyScript))
           (tail (tail (tail happyScript))) []).
  - reflexivity.
  - reflexivity.
  - intros req. reflexivity.
  - split; [reflexivity | exists []; reflexivity].
  - intros req. reflexivity.
  - split; [reflexivity | exists []; reflexivity].
  - intros req. reflexivity.
  - split; [reflexivity | exists []; reflexivity].
  - intros req. reflexivity.
  - repeat split; [left; reflexivity | discriminate].
Defined.

(** Seeding an update: an unreachable bucket, an empty project, and a
    project with a page and a style sheet. *)
Lemma seed_update_context_witness :
  seed updateRun "make it blue" (offlineWorld [])
  = (Normal [userText "make it blue"],
     mkWorld [] (mkBucket 0 0 false []) [seedReadEvent updateRun] {[Some "proj1" := []]})
  /\ seed updateRun "make it blue" (scriptedWorld [])
     = (Normal [userText "make it blue"],
        mkWorld [] (mkBucket 0 0 true []) [seedReadEvent updateRun] {[Some "proj1" := []]})
  /\ (seed updateRun "make it blue" (siteWorld [])).1
     = Normal [userText (updateContextMessage (Some "proj1")
                           [("index.html", JStr "<html></html>");
                            ("style.css", JStr "body{}")]);
               userText (cssContextMessage (JStr "body{}"));
               userText "make it blue"].
Proof.
  split; [| split].
  - apply (proj1 (seed_update_context updateRun "make it blue" (offlineWorld [])
                    "proj1" (Throw (Error_ "fetch failed")) (mkBucket 0 0 false [])
                    eq_refl eq_refl ltac:(discriminate) eq_refl)
             (Error_ "fetch failed") eq_refl).
  - apply (proj1 (proj2 (seed_update_context updateRun "make it blue" (scriptedWorld [])
                           "proj1" (Normal (JObj [])) (mkBucket 0 0 true [])
                           eq_refl eq_refl ltac:(discriminate) eq_refl))
             (JObj []) eq_refl).
    left. reflexivity.
  - destruct (proj2 (proj2 (seed_update_context updateRun "make it blue" (siteWorld [])
                              "proj1"
                              (Normal (JObj [("index.html", JStr "<html></html>");
                                             ("style.css", JStr "body{}")]))
                              (mkBucket 0 0 true
                                 [("proj1", "index.html", "<html></html>");
                                  ("proj1", "style.css", "body{}")])
                              eq_refl eq_refl ltac:(discriminate) eq_refl))
                [("index.html", JStr "<html></html>"); ("style.css", JStr "body{}")]
                eq_refl ltac:(discriminate) eq_refl)
      as (Hseed & Hcss & _).
    rewrite Hseed. destruct (Hcss eq_refl) as [-> _]. reflexivity.
Defined.

(* ===================================================================== *)
(** ** ConversationStore: the bound on a chat session                    *)
(* ===================================================================== *)

Example extractProjectName_ex1 : extractProjectName "update foo" [] = Some "foo".
Proof. reflexivity. Qed.

Example extractProjectName_ex2 :
  extractProjectName "Please EDIT   my-shop_2 today" ["blog"] = Some "my-shop_2".
Proof. reflexivity. Qed.

Example extractProjectName_ex3 :
  extractProjectName "show me the Blog" ["blog"] = Some "blog".
Proof. reflexivity. Qed.







Lemma emptyChat_wf : wfChat emptyChat.
Proof.
  split.
  - intros key r Hk. cbn in Hk. rewrite lookup_empty in Hk. discriminate.
  - intros r [x Hx]. cbn in Hx. rewrite lookup_empty in Hx. discriminate.
Qed.

Lemma push_wf r m st : wfChat st -> wfChat (push r m st).
Proof.
  intros [Hstored Hfresh]. split; cbn.
  - intros key r' Hk. apply lookup_alter_is_Some. eapply Hstored; eassumption.
  - intros r' Hr'. apply Hfresh. apply lookup_alter_is_Some in Hr'. assumption.
Qed.

Lemma alloc_wf items st : wfChat st -> wfChat (alloc items st).2.
Proof.
  intros [Hstored Hfresh]. split; cbn.
  - intros key r Hk. destruct (decide (nextRef st = r)) as [<- | Hne].
    + rewrite lookup_insert_eq. eauto.
    + rewrite lookup_insert_ne by assumption. eapply Hstored; eassumption.
  - intros r [x Hx]. destruct (decide (nextRef st = r)) as [<- | Hne]; [lia |].
    rewrite lookup_insert_ne in Hx by assumption.
    pose proof (Hfresh r ltac:(eauto)). lia.
Qed.

Lemma recordAnswer_wf key r answer st :
  wfChat st -> is_Some (heap st !! r) -> wfChat (recordAnswer key r answer st).
Proof.
  intros Hwf Hr. unfold recordAnswer.
  pose proof (push_wf r (mkMsg model answer) st Hwf) as Hp.
  assert (is_Some (heap (push r (mkMsg model answer) st) !! r)) as Hr'.
  { cbn. apply lookup_alter_is_Some. assumption. }
  destruct (20 <? length (deref r (push r (mkMsg model answer) st)))%nat.
  - pose proof (alloc_wf (sliceLast 20 (deref r (push r (mkMsg model answer) st)))
                  _ Hp) as [Hs Hf].
    split; cbn in *; [| assumption].
    intros k r' Hk. destruct (decide (key = k)) as [<- | Hne].
    + rewrite lookup_insert_eq in Hk. injection Hk as <-.
      rewrite lookup_insert_eq. eauto.
    + rewrite lookup_insert_ne in Hk by assumption. eapply Hs; eassumption.
  - destruct Hp as [Hs Hf]. split; cbn in *; [| assumption].
    intros k r' Hk. destruct (decide (key = k)) as [<- | Hne].
    + rewrite lookup_insert_eq in Hk. injection Hk as <-. assumption.
    + rewrite lookup_insert_ne in Hk by assumption. eapply Hs; eassumption.
Qed.

(** Every request leaves the store well formed, so the bound of the
    answered path holds in every state the route can reach. *)
Lemma chatRoute_wf key message currentProject projects answer st :
  wfChat st -> wfChat (chatRoute key message currentProject projects answer st).2.
Proof.
  intros Hwf. unfold chatRoute.
  destruct (negb (nonEmpty message)); [assumption |].
  destruct (ChatHistory st !! key) as [r |] eqn:Hkey.
  - assert (is_Some (heap (push r (mkMsg user (Some message)) st) !! r)) as Hr.
    { cbn. apply lookup_alter_is_Some. destruct Hwf as [Hs _]. eapply Hs; eassumption. }
    cbv beta iota zeta.
    repeat match goal with
           | |- wfChat (if ?c then _ else _).2 => destruct c
           end; cbn [snd];
      first [apply recordAnswer_wf; [apply push_wf; assumption | assumption]
            | apply push_wf; assumption].
  - pose proof (alloc_wf [] st Hwf) as Ha.
    assert (is_Some (heap (push (nextRef st) (mkMsg user (Some message)) (alloc [] st).2)
                     !! nextRef st)) as Hr.
    { cbn. apply lookup_alter_is_Some. rewrite lookup_insert_eq. eauto. }
    cbn [alloc] in *. cbv beta iota zeta.
    repeat match goal with
           | |- wfChat (if ?c then _ else _).2 => destruct c
           end; cbn [snd];
      first [apply recordAnswer_wf; [apply push_wf; assumption | assumption]
            | apply push_wf; assumption].
Qed.

(** C6 — the code at the failing input.  After ten answered requests the
    session of ["u1"] holds 20 entries.  The next request mentions a project
    that does not exist: the route answers "not found" and returns early,
    but it has already pushed the message onto the stored array, which now
    holds 21 entries, the oldest still first. *)
Theorem chat_history_exceeds_cap :
  length <$> storedSession "u1" (greetings 10 "u1" emptyChat) = Some 20%nat
  /\ (chatRoute "u1" "update foo" None (Normal []) (Some "Sure.")
        (greetings 10 "u1" emptyChat)).1
     = ProjectNotFound "foo"
  /\ length <$> storedSession "u1"
                  (chatRoute "u1" "update foo" None (Normal []) (Some "Sure.")
                     (greetings 10 "u1" emptyChat)).2
     = Some 21%nat
  /\ head <$> storedSession "u1"
                (chatRoute "u1" "update foo" None (Normal []) (Some "Sure.")
                   (greetings 10 "u1" emptyChat)).2
     = Some (Some (mkMsg user (Some "hello"))).
Proof. repeat split; vm_compute; reflexivity. Qed.

(* ===================================================================== *)
(** * Further properties of the code                                     *)
(* ===================================================================== *)

(* ===================================================================== *)
(** ** RetryExecutor, for any budget                                     *)
(* ===================================================================== *)

Section RetryShape.
Context {B E A : Type} `{!Collaborators B E}.

Lemma backoffTrace_step baseDelay attempt n :
  backoffTrace baseDelay attempt (S (S n))
  = EvAttempt attempt :: EvSleep (baseDelay * 2 ^ (attempt - 1))
    :: backoffTrace baseDelay (attempt + 1) (S n).
Proof. reflexivity. Qed.

(** The loop from attempt [attempt] on, with [fuel] attempts left: it makes
    some [n] of them, the last of which decides the result. *)
Lemma retryLoop_shape (op : B -> E -> Completion A * B * E) (fuel : nat)
    (attempt maxRetries baseDelay : Z) (w : World B E) :
  Z.of_nat fuel = maxRetries - attempt + 1 -> (0 < fuel)%nat ->
  exists (n : nat) b0 e0 c b' e',
    (1 <= n <= fuel)%nat
    /\ op b0 e0 = (c, b', e')
    /\ retryLoop (external op) fuel attempt maxRetries baseDelay w
       = (retryResult c,
          mkWorld b' e' (trace w ++ backoffTrace baseDelay attempt n)
            (ProjectHistory w))
    /\ (forall err, c = Throw err -> n = fuel \/ is503 err = false).
Proof.
  revert attempt w. induction fuel as [| fuel IH]; intros attempt w Hfuel Hpos; [lia |].
  destruct (op (backend w) (env w)) as [[c b1] e1] eqn:Hop.
  destruct c as [a | err].
  - exists 1%nat, (backend w), (env w), (Normal a), b1, e1.
    split; [lia |]. split; [assumption |]. split; [| discriminate].
    rewrite (retryLoop_success op fuel attempt maxRetries baseDelay w a b1 e1)
      by (first [lia | assumption]).
    reflexivity.
  - destruct (decide (attempt = maxRetries \/ is503 err = false)) as [Hstop | Hgo].
    + exists 1%nat, (backend w), (env w), (Throw err), b1, e1.
      split; [lia |]. split; [assumption |]. split.
      * rewrite (retryLoop_rethrow op fuel attempt maxRetries baseDelay w err b1 e1)
          by (first [lia | assumption]).
        reflexivity.
      * intros err' [= <-]. destruct Hstop as [-> | Hno]; [left; lia | right; assumption].
    + assert (attempt < maxRetries) as Hlt by (destruct (decide (attempt = maxRetries)); [tauto | lia]).
      assert (is503 err = true) as H503 by (destruct (is503 err); [reflexivity | tauto]).
      rewrite (retryLoop_overloaded op fuel attempt maxRetries baseDelay w err b1 e1)
        by assumption.
      destruct fuel as [| fuel']; [lia |].
      destruct (IH (attempt + 1)
                  (mkWorld b1 (elapse (baseDelay * 2 ^ (attempt - 1)) e1)
                     (trace w ++ [EvAttempt attempt;
                                  EvSleep (baseDelay * 2 ^ (attempt - 1))])
                     (ProjectHistory w))
                  ltac:(lia) ltac:(lia))
        as (n & b0 & e0 & c & b' & e' & Hn & Hlast & Hrun & Hthrow).
      exists (S n), b0, e0, c, b', e'.
      split; [lia |]. split; [assumption |]. split.
      * rewrite Hrun. cbn [trace ProjectHistory].
        destruct n as [| n]; [lia |].
        rewrite backoffTrace_step, <- app_assoc. reflexivity.
      * intros err' Herr'. destruct (Hthrow err' Herr') as [-> | Hno];
          [left; reflexivity | right; assumption].
Qed.

Lemma sleptTotal_app (t1 t2 : list Event) :
  sleptTotal (t1 ++ t2) = sleptTotal t1 + sleptTotal t2.
Proof.
  induction t1 as [| ev t1 IH]; cbn [app sleptTotal]; [lia |].
  destruct ev; lia.
Qed.

Lemma sleptTotal_backoff (baseDelay attempt : Z) (n : nat) :
  1 <= attempt -> (1 <= n)%nat ->
  sleptTotal (backoffTrace baseDelay attempt n)
  = baseDelay * 2 ^ (attempt - 1) * (2 ^ (Z.of_nat n - 1) - 1).
Proof.
  intros Hatt Hn. revert attempt Hatt.
  induction n as [| n IH]; intros attempt Hatt; [lia |].
  destruct n as [| n].
  - cbn. lia.
  - rewrite backoffTrace_step. cbn [sleptTotal].
    rewrite (IH ltac:(lia) (attempt + 1) ltac:(lia)).
    replace (attempt + 1 - 1) with (Z.succ (attempt - 1)) by lia.
    replace (Z.of_nat (S (S n)) - 1) with (Z.succ (Z.of_nat (S n) - 1)) by lia.
    rewrite !Z.pow_succ_r by lia. ring.
Qed.

(** X1 — the shape of every retry.  With a budget of at least one attempt
    and whatever the operation does, the executor makes [n] attempts with
    [1 <= n <= maxRetries], numbered from 1; before attempt [i + 1] it
    sleeps [baseDelay * 2 ^ (i - 1)] and it never sleeps after the last
    one; the result is the value or the error of the last call; and an
    error is thrown before the budget is used up only if it does not carry
    the 503 marker.  With a budget of zero or less the operation is never
    called and [undefined] is returned. *)
Theorem retry_shape (op : B -> E -> Completion A * B * E)
    (maxRetries baseDelay : Z) (w : World B E) :
  (1 <= maxRetries ->
   exists (n : nat) b0 e0 c b' e',
     1 <= Z.of_nat n <= maxRetries
     /\ op b0 e0 = (c, b', e')
     /\ retryWithBackoff (external op) maxRetries baseDelay w
        = (retryResult c,
           mkWorld b' e' (trace w ++ backoffTrace baseDelay 1 n) (ProjectHistory w))
     /\ (forall err, c = Throw err -> Z.of_nat n = maxRetries \/ is503 err = false))
  /\ (maxRetries <= 0 ->
      retryWithBackoff (external op) maxRetries baseDelay w = (Normal None, w)).
Proof.
  split.
  - intros Hmax. unfold retryWithBackoff.
    destruct (retryLoop_shape op (Z.to_nat maxRetries) 1 maxRetries baseDelay w
                ltac:(lia) ltac:(lia))
      as (n & b0 & e0 & c & b' & e' & Hn & Hlast & Hrun & Hthrow).
    exists n, b0, e0, c, b', e'. split; [lia |]. split; [assumption |].
    split; [assumption |].
    intros err Herr. destruct (Hthrow err Herr) as [-> | Hno];
      [left; lia | right; assumption].
  - intros Hmax. unfold retryWithBackoff.
    replace (Z.to_nat maxRetries) with 0%nat by lia. reflexivity.
Qed.

(** X2 — the time a retry can cost.  With a budget of at least one attempt
    and a non-negative base delay, the executor sleeps in total at most
    [baseDelay * (2 ^ (maxRetries - 1) - 1)] milliseconds: 3000 ms with
    the defaults of three attempts and one second. *)
Theorem retry_total_sleep (op : B -> E -> Completion A * B * E)
    (maxRetries baseDelay : Z) (w : World B E) :
  1 <= maxRetries -> 0 <= baseDelay ->
  sleptTotal (trace (retryWithBackoff (external op) maxRetries baseDelay w).2)
  - sleptTotal (trace w)
  <= baseDelay * (2 ^ (maxRetries - 1) - 1).
Proof.
  intros Hmax Hbase. unfold retryWithBackoff.
  destruct (retryLoop_shape op (Z.to_nat maxRetries) 1 maxRetries baseDelay w
              ltac:(lia) ltac:(lia))
    as (n & b0 & e0 & c & b' & e' & Hn & _ & Hrun & _).
  rewrite Hrun. cbn [snd trace].
  rewrite sleptTotal_app, sleptTotal_backoff by lia.
  replace (1 - 1) with 0 by lia. rewrite Z.pow_0_r, Z.mul_1_r.
  assert (2 ^ (Z.of_nat n - 1) <= 2 ^ (maxRetries - 1)) as Hpow.
  { apply Z.pow_le_mono_r; lia. }
  nia.
Qed.

End RetryShape.

(** The shape and the cost of a retry on the always-overloaded request. *)
Lemma retry_shape_witness :
  exists (n : nat) b0 e0 c b' e',
    1 <= Z.of_nat n <= 3
    /\ overloadedOp b0 e0 = (c, b', e')
    /\ retryWithBackoff (external overloadedOp) 3 1000 (scriptedWorld [])
       = (retryResult c,
          mkWorld b' e' (trace (scriptedWorld []) ++ backoffTrace 1000 1 n)
            (ProjectHistory (scriptedWorld [])))
    /\ (forall err, c = Throw err -> Z.of_nat n = 3 \/ is503 err = false).
Proof.
  apply (proj1 (retry_shape overloadedOp 3 1000 (scriptedWorld []))). lia.
Defined.

Lemma retry_total_sleep_witness :
  sleptTotal (trace (retryWithBackoff (external overloadedOp) 3 1000 (scriptedWorld [])).2)
  - sleptTotal (trace (scriptedWorld [])) <= 1000 * (2 ^ (3 - 1) - 1).
Proof.
  apply (retry_total_sleep overloadedOp 3 1000 (scriptedWorld [])); lia.
Defined.

(* ===================================================================== *)
(** ** AgentLoop: failures, fallbacks and what is shared                 *)
(* ===================================================================== *)

Section AgentMore.
Context {B E : Type} `{!Collaborators B E}.

(** The generation step once the primary model answered or failed. *)
Lemma generate_unfold cfg h (w : World B E) :
  generate cfg h w
  = match generateContent (runRequest cfg "gemini-2.5-flash" h) (backend w) with
    | (Normal r, b1) =>
        (Normal r, mkWorld b1 (env w) (trace w) (ProjectHistory w))
    | (Throw primaryError, b1) =>
        match revision cfg with
        | Current =>
            (Throw primaryError, mkWorld b1 (env w) (trace w) (ProjectHistory w))
        | Older =>
            if is503 primaryError then
              let '(c, b2) := generateContent (runRequest cfg "gemini-1.5-flash" h) b1 in
              (c, mkWorld b2 (env w) (trace w) (ProjectHistory w))
            else (Throw primaryError, mkWorld b1 (env w) (trace w) (ProjectHistory w))
        end
    end.
Proof.
  unfold generate, runRequest, tryCatch, onBackend, throw.
  destruct (revision cfg);
    destruct (generateContent _ (backend w)) as [[r | err] b1];
    cbn [backend env trace ProjectHistory]; try reflexivity.
  destruct (is503 err); reflexivity.
Qed.

(** Against an overloaded backend the generation step throws an error
    with the marker, in either revision, and touches nothing but the
    backend. *)
Lemma generate_overloaded cfg h (w : World B E) :
  backendOverloaded ->
  exists err b',
    generate cfg h w = (Throw err, mkWorld b' (env w) (trace w) (ProjectHistory w))
    /\ is503 err = true.
Proof.
  intros Hover. rewrite generate_unfold.
  destruct (Hover (runRequest cfg "gemini-2.5-flash" h) (backend w))
    as (err1 & b1 & -> & H1).
  destruct (revision cfg).
  - exists err1, b1. split; [reflexivity | assumption].
  - rewrite H1.
    destruct (Hover (runRequest cfg "gemini-1.5-flash" h) b1) as (err2 & b2 & -> & H2).
    exists err2, b2. split; [reflexivity | assumption].
Qed.

(** Three attempts against an overloaded backend. *)
Lemma retry_generate_exhausted cfg h (w : World B E) :
  backendOverloaded ->
  exists err b',
    retryWithBackoff (generate cfg h) 3 1000 w
    = (Throw err,
       mkWorld b' (elapse 2000 (elapse 1000 (env w)))
         (trace w ++ [EvAttempt 1; EvSleep 1000; EvAttempt 2; EvSleep 2000;
                      EvAttempt 3])
         (ProjectHistory w))
    /\ is503 err = true.
Proof.
  intros Hover. unfold retryWithBackoff. change (Z.to_nat 3) with 3%nat.
  cbn [retryLoop].
  change (1 <=? 3) with true. change (1 + 1 <=? 3) with true.
  change (1 + 1 + 1 <=? 3) with true.
  change (1 =? 3) with false. change (1 + 1 =? 3) with false.
  change (1 + 1 + 1 =? 3) with true.
  change (1000 * 2 ^ (1 - 1)) with 1000. change (1000 * 2 ^ (1 + 1 - 1)) with 2000.
  cbv iota.
  unfold bind at 1, emit at 1; cbn [fst snd]. unfold tryCatch at 1, bind at 1.
  match goal with
  | |- context [generate cfg h ?w1] =>
      destruct (generate_overloaded cfg h w1 Hover) as (err1 & b1 & -> & ->)
  end.
  cbn [backend env trace ProjectHistory].
  unfold bind at 1, sleep at 1; cbn [fst snd backend env trace ProjectHistory].
  unfold bind at 1, emit at 1; cbn [fst snd backend env trace ProjectHistory].
  unfold tryCatch at 1, bind at 1.
  match goal with
  | |- context [generate cfg h ?w1] =>
      destruct (generate_overloaded cfg h w1 Hover) as (err2 & b2 & -> & ->)
  end.
  cbn [backend env trace ProjectHistory].
  unfold bind at 1, sleep at 1; cbn [fst snd backend env trace ProjectHistory].
  unfold bind at 1, emit at 1; cbn [fst snd backend env trace ProjectHistory].
  unfold tryCatch at 1, bind at 1.
  match goal with
  | |- context [generate cfg h ?w1] =>
      destruct (generate_overloaded cfg h w1 Hover) as (err3 & b3 & -> & H3)
  end.
  cbn [backend env trace ProjectHistory].
  exists err3, b3. split; [| assumption].
  unfold throw. rewrite <- !app_assoc. reflexivity.
Qed.

(** X3 — an overloaded backend ends the run with status 503.  When the
    backend fails every request with the 503 marker, a run (of either
    revision, with at least one iteration) makes three attempts with
    sleeps of 1000 and 2000 ms between them and throws an error carrying
    the marker; no turn of the run is stored; and the [catch] block of the
    build and update routes turns that error into status 503 with the
    fixed "overloaded" message. *)
Theorem overloaded_run_answers_503 fuel cfg userProblem (w : World B E) :
  backendOverloaded -> (1 <= fuel)%nat ->
  exists err w' w0 h0 m,
    seed cfg userProblem w = (Normal h0, w0)
    /\ runAgent fuel cfg userProblem w = (Throw err, w')
    /\ trace w' = trace w0 ++ [EvAttempt 1; EvSleep 1000; EvAttempt 2;
                               EvSleep 2000; EvAttempt 3]
    /\ ProjectHistory w' = storeAfterLoad cfg w
    /\ message err = Some m
    /\ agentErrorReply err
       = Normal (mkErrorReply 503
                   "The AI model is currently overloaded. Please try again in a few moments."
                   m).
Proof.
  intros Hover Hfuel.
  destruct (seed_total cfg userProblem w) as (ctx & w0 & Hseed & _ & Hph & _ & _).
  destruct (retry_generate_exhausted cfg
              (priorHistory cfg w ++ ctx ++ [userText userProblem]) w0 Hover)
    as (err & b' & Hretry & H503).
  unfold is503 in H503. destruct (message err) as [m |] eqn:Hm; [| discriminate].
  apply andb_true_iff in H503 as [_ Hinc].
  eexists err, _, w0, _, m. split; [eassumption |].
  split; [| split; [| split; [| split]]].
  - unfold runAgent, bind at 1. rewrite Hseed.
    destruct fuel as [| fuel]; [lia |]. cbn [agentLoop]. unfold bind at 1.
    rewrite loopBody_unfold, Hretry. reflexivity.
  - reflexivity.
  - cbn [ProjectHistory]. assumption.
  - assumption.
  - unfold agentErrorReply. rewrite Hm, Hinc. reflexivity.
Qed.

(** X4 — the fallback model of the older file.  There, when the primary
    model fails with the 503 marker and the second model answers, the
    generation step returns that answer within the first attempt, without a
    sleep; when the primary model fails with another error, the error is
    thrown after one attempt and the second model is not asked. *)
Theorem older_fallback_answers cfg h (w : World B E) primaryError b1 :
  revision cfg = Older ->
  generateContent (runRequest cfg "gemini-2.5-flash" h) (backend w)
  = (Throw primaryError, b1) ->
  (is503 primaryError = true ->
   forall r b2,
     generateContent (runRequest cfg "gemini-1.5-flash" h) b1 = (Normal r, b2) ->
     retryWithBackoff (generate cfg h) 3 1000 w
     = (Normal (Some r),
        mkWorld b2 (env w) (trace w ++ [EvAttempt 1]) (ProjectHistory w)))
  /\ (is503 primaryError = false ->
      retryWithBackoff (generate cfg h) 3 1000 w
      = (Throw primaryError,
         mkWorld b1 (env w) (trace w ++ [EvAttempt 1]) (ProjectHistory w))).
Proof.
  intros Hrev Hprimary.
  assert (forall c,
            generate cfg h
              (mkWorld (backend w) (env w) (trace w ++ [EvAttempt 1]) (ProjectHistory w))
            = c ->
            retryWithBackoff (generate cfg h) 3 1000 w
            = match c with
              | (Normal r, w1) => (Normal (Some r), w1)
              | (Throw err, w1) =>
                  if is503 err
                  then retryLoop (generate cfg h) 2 2 3 1000
                         (mkWorld (backend w1) (elapse 1000 (env w1))
                            (trace w1 ++ [EvSleep 1000]) (ProjectHistory w1))
                  else (Throw err, w1)
              end) as Hstep.
  { intros c Hc. unfold retryWithBackoff. change (Z.to_nat 3) with 3%nat.
    cbn [retryLoop]. change (1 <=? 3) with true. cbv iota.
    unfold bind at 1, emit at 1; cbn [fst snd].
    unfold tryCatch at 1, bind at 1. rewrite Hc.
    destruct c as [[r | err] w1]; [reflexivity |].
    change (1 =? 3) with false. cbv iota.
    destruct (is503 err); [| reflexivity].
    unfold bind at 1, sleep at 1. reflexivity. }
  split.
  - intros H503 r b2 Hfallback. erewrite Hstep; [| rewrite generate_unfold; reflexivity].
    cbn [backend env trace ProjectHistory]. rewrite Hprimary, Hrev, H503, Hfallback.
    reflexivity.
  - intros Hno. erewrite Hstep; [| rewrite generate_unfold; reflexivity].
    cbn [backend env trace ProjectHistory]. rewrite Hprimary, Hrev, Hno, Hno.
    reflexivity.
Qed.

(** X5 — no bound on corrections.  In [src/index.js], against a backend
    that reports a malformed tool call on every request, the loop never
    returns and never fails: after any number [n] of iterations it is
    still generating, its local history has grown by [n] corrective turns,
    it made [n] first attempts without a sleep, and nothing was stored. *)
Theorem malformed_forever cfg r (b : B) :
  revision cfg = Current ->
  (forall req, generateContent req b = (Normal r, b)) ->
  reportsMalformed r = true ->
  forall (n : nat) h (w : World B E),
    backend w = b ->
    agentLoop n cfg h w
    = (Normal (Continue
                 (h ++ replicate n (userText (malformedCallMessage (projectName cfg))))),
       mkWorld b (env w) (trace w ++ replicate n (EvAttempt 1)) (ProjectHistory w)).
Proof.
  intros Hrev Hgen Hm. induction n as [| n IH]; intros h w Hb.
  - cbn [agentLoop replicate]. unfold ret. rewrite !app_nil_r, <- Hb, world_eta.
    reflexivity.
  - cbn [agentLoop]. unfold bind at 1.
    rewrite (loopBody_malformed cfg h w r b Hrev) by (rewrite ?Hb; assumption).
    rewrite IH by reflexivity. cbn [env trace ProjectHistory replicate].
    rewrite <- !app_assoc. reflexivity.
Qed.

Lemma availableTools_unknown (n : string) :
  n ∉ catalogNames -> @availableTools B E _ n = None.
Proof.
  intros Hn. unfold availableTools.
  repeat match goal with
         | |- context [String.eqb n ?s] =>
             let Hs := fresh "Hs" in
             destruct (String.eqb n s) eqn:Hs;
             [apply String.eqb_eq in Hs; subst n; exfalso; apply Hn;
              unfold catalogNames; repeat constructor |]
         end.
  reflexivity.
Qed.

(** X6 — a tool outside the catalog.  In a create run, when the model
    requests a tool that is none of the seven of the catalog, nor a name
    the object literal inherits from [Object.prototype], the look-up in
    [availableTools] yields [undefined] and calling it throws: the run
    fails in that iteration, in the world the generation step left — no
    handler was executed, nothing was stored.  (An update run rejects the
    same request with a corrective turn instead.) *)
Theorem unknown_tool_fails_run cfg h (w w1 : World B E) response fc rest :
  isUpdate cfg = false ->
  retryWithBackoff (generate cfg h) 3 1000 w = (Normal (Some response), w1) ->
  malformedBranch cfg response = false ->
  functionCalls response = Some (fc :: rest) ->
  name fc ∉ catalogNames ->
  name fc ∉ prototypeNames ->
  loopBody cfg h w = (Throw (Error_ "funCall is not a function"), w1)
  /\ handlersRun w1 = handlersRun w
  /\ ProjectHistory w1 = ProjectHistory w
  /\ forall fuel,
       agentLoop (S fuel) cfg h w = (Throw (Error_ "funCall is not a function"), w1).
Proof.
  intros Hu Hgen Hnm Hfc Hname _.
  pose proof (generating_keeps_handlers cfg h w) as Hh.
  pose proof (generating_keeps_history cfg h w) as Hph.
  rewrite Hgen in Hh, Hph. cbn [snd] in Hh, Hph.
  assert (loopBody cfg h w = (Throw (Error_ "funCall is not a function"), w1)) as Hbody.
  { rewrite loopBody_unfold, Hgen, Hnm, Hfc.
    rewrite dispatch_allowed by (left; assumption).
    rewrite (availableTools_unknown _ Hname). reflexivity. }
  repeat split; try assumption.
  intros fuel. cbn [agentLoop]. unfold bind. rewrite Hbody. reflexivity.
Qed.

(** X7 — a file-write request without arguments.  The handlers destructure
    their argument before their [try] block: in a create run, when the
    model requests [writeToFile] with no argument object ([undefined] or
    [null]), the handler throws instead of returning an ["Error: ..."]
    text, and the run fails with that error; the call is the only event,
    nothing is saved and nothing is stored. *)
Theorem missing_args_fail_run cfg h (w w1 : World B E) response fc rest :
  isUpdate cfg = false ->
  retryWithBackoff (generate cfg h) 3 1000 w = (Normal (Some response), w1) ->
  malformedBranch cfg response = false ->
  functionCalls response = Some (fc :: rest) ->
  name fc = "writeToFile" ->
  args fc = JUndefined \/ args fc = JNull ->
  exists err,
    loopBody cfg h w
    = (Throw err,
       mkWorld (backend w1) (env w1)
         (trace w1 ++ [EvHandler "writeToFile" (args fc) (handlerUser cfg "writeToFile")])
         (ProjectHistory w))
    /\ destructure (args fc) "filePath" = Throw err
    /\ forall fuel,
         agentLoop (S fuel) cfg h w
         = (Throw err,
            mkWorld (backend w1) (env w1)
              (trace w1
               ++ [EvHandler "writeToFile" (args fc) (handlerUser cfg "writeToFile")])
              (ProjectHistory w)).
Proof.
  intros Hu Hgen Hnm Hfc Hname Hargs.
  pose proof (generating_keeps_history cfg h w) as Hph.
  rewrite Hgen in Hph. cbn [snd] in Hph.
  rewrite loopBody_unfold, Hgen, Hnm, Hfc.
  rewrite dispatch_allowed by (left; assumption).
  rewrite Hname. change (availableTools "writeToFile") with (Some (@writeToFile B E _)).
  cbv iota. rewrite Hph.
  destruct Hargs as [Ha | Ha]; rewrite Ha; eexists;
    (split; [reflexivity |]); (split; [reflexivity |]);
    intros fuel; cbn [agentLoop]; unfold bind at 1;
    rewrite loopBody_unfold, Hgen, Hnm, Hfc;
    rewrite dispatch_allowed by (left; assumption);
    rewrite Hname, Ha;
    change (availableTools "writeToFile") with (Some (@writeToFile B E _));
    cbv iota; rewrite Hph; reflexivity.
Qed.

(** X8 — the history is keyed by the project name alone.  After a run
    returned, a later run on the same project name — whoever the acting
    user, whichever the mode — starts from exactly the history that run
    persisted: its seeded history is that history, then its context turns,
    then its own request. *)
Theorem history_shared_by_name fuel cfgA cfgB problemA problemB
    (w w1 : World B E) t :
  runAgent fuel cfgA problemA w = (Normal (Return t), w1) ->
  projectName cfgB = projectName cfgA ->
  exists persisted context w2,
    ProjectHistory w1 !! projectName cfgA = Some persisted
    /\ seed cfgB problemB w1
       = (Normal (persisted ++ context ++ [userText problemB]), w2).
Proof.
  intros Hrun Hname.
  pose proof (runAgent_history fuel cfgA problemA w) as Hh. rewrite Hrun in Hh.
  destruct Hh as (h' & _ & Hph).
  assert (ProjectHistory w1 !! projectName cfgA = Some (h' ++ [modelText t])) as Hl.
  { rewrite Hph. apply lookup_insert_eq. }
  destruct (seed_total cfgB problemB w1) as (ctx & w2 & Hseed & _).
  exists (h' ++ [modelText t]), ctx, w2. split; [assumption |].
  rewrite Hseed. unfold priorHistory. rewrite Hname, Hl. reflexivity.
Qed.

(** X9 — what a returning run persists.  The history stored for the
    project after a run returned [t] is the prior history, untouched and
    in front, followed by the turns of the run — the user request among
    them — and closed by the model's text [t]: a run never drops or
    reorders what was stored, and the store only grows.  The histories of
    the other projects are unchanged. *)
Theorem returning_run_extends_history fuel cfg userProblem (w w' : World B E) t :
  runAgent fuel cfg userProblem w = (Normal (Return t), w') ->
  exists added,
    ProjectHistory w' !! projectName cfg
    = Some (priorHistory cfg w ++ added ++ [modelText t])
    /\ userText userProblem ∈ added
    /\ forall key, key <> projectName cfg ->
         ProjectHistory w' !! key = ProjectHistory w !! key.
Proof.
  intros Hrun. unfold runAgent, bind in Hrun.
  destruct (seed_total cfg userProblem w) as (ctx & w0 & Hseed & _ & Hph & _ & _).
  rewrite Hseed in Hrun.
  pose proof (agentLoop_history fuel cfg
                (priorHistory cfg w ++ ctx ++ [userText userProblem]) w0) as Hloop.
  rewrite Hrun in Hloop. destruct Hloop as (h' & (more & -> & _) & Hstore).
  exists ((ctx ++ [userText userProblem]) ++ more). split; [| split].
  - rewrite Hstore, lookup_insert_eq. f_equal. rewrite <- !app_assoc. reflexivity.
  - apply elem_of_app. left. apply elem_of_app. right. constructor.
  - intros key Hne. rewrite Hstore, lookup_insert_ne by congruence.
    rewrite Hph, storeAfterLoad_lookup. rewrite decide_False by assumption. reflexivity.
Qed.

(** X10 — an update run never executes a handler outside the allowed
    three.  Over a whole update run — seeding and any number of iterations,
    however it ends — the handlers executed are [updateProjectFiles],
    [readProjectFiles] and [listProjects] only; in particular
    [writeToFile], [executeCommand] and [deployProject] are never run. *)
Theorem update_run_allowed_only fuel cfg userProblem (w : World B E) :
  isUpdate cfg = true ->
  exists ran,
    handlersRun (runAgent fuel cfg userProblem w).2 = handlersRun w ++ ran
    /\ forall n, n ∈ ran ->
         n = "updateProjectFiles" \/ n = "readProjectFiles" \/ n = "listProjects".
Proof.
  intros Hu. destruct (update_run_handlers fuel cfg userProblem w Hu) as (ran & Hran & Hall).
  exists ran. split; [assumption |].
  intros n Hn. rewrite Forall_forall in Hall. specialize (Hall n Hn).
  unfold allowedForUpdate in Hall.
  apply orb_true_iff in Hall as [Hall | Hl]; [apply orb_true_iff in Hall as [Hu' | Hr] |].
  - left. apply String.eqb_eq. assumption.
  - right; left. apply String.eqb_eq. assumption.
  - right; right. apply String.eqb_eq. assumption.
Qed.

End AgentMore.
(* ===================================================================== *)
(** ** The further agent properties on scripted runs                     *)
(* ===================================================================== *)

Lemma overloaded_run_answers_503_witness :
  exists err w' w0 h0 m,
    seed createRun "a portfolio site" (mkWorld tt (mkBucket 0 0 true []) [] ∅)
    = (Normal h0, w0)
    /\ runAgent 5 createRun "a portfolio site" (mkWorld tt (mkBucket 0 0 true []) [] ∅)
       = (Throw err, w')
    /\ trace w' = trace w0 ++ [EvAttempt 1; EvSleep 1000; EvAttempt 2;
                               EvSleep 2000; EvAttempt 3]
    /\ ProjectHistory w'
       = storeAfterLoad createRun (mkWorld tt (mkBucket 0 0 true []) [] ∅)
    /\ message err = Some m
    /\ agentErrorReply err
       = Normal (mkErrorReply 503
                   "The AI model is currently overloaded. Please try again in a few moments."
                   m).
Proof.
  apply (overloaded_run_answers_503 5 createRun "a portfolio site"
           (mkWorld tt (mkBucket 0 0 true []) [] ∅)).
  - intros req b. exists (Error_ "got status: 503 Service Unavailable"), tt.
    split; reflexivity.
  - lia.
Defined.

Lemma older_fallback_answers_witness :
  retryWithBackoff (generate olderRun [userText "hi"]) 3 1000
    (scriptedWorld [Throw (Error_ "got status: 503 Service Unavailable");
                    Normal (textAnswer "Hello")])
  = (Normal (Some (textAnswer "Hello")),
     mkWorld [] (mkBucket 0 0 true []) [EvAttempt 1] ∅)
  /\ retryWithBackoff (generate olderRun [userText "hi"]) 3 1000
       (scriptedWorld [Throw (Error_ "got status: 400 INVALID_ARGUMENT");
                       Normal (textAnswer "Hello")])
     = (Throw (Error_ "got status: 400 INVALID_ARGUMENT"),
        mkWorld [Normal (textAnswer "Hello")] (mkBucket 0 0 true []) [EvAttempt 1] ∅).
Proof.
  split.
  - apply (proj1 (older_fallback_answers olderRun [userText "hi"]
                    (scriptedWorld [Throw (Error_ "got status: 503 Service Unavailable");
                                    Normal (textAnswer "Hello")])
                    (Error_ "got status: 503 Service Unavailable")
                    [Normal (textAnswer "Hello")] ltac:(reflexivity) ltac:(reflexivity)));
      reflexivity.
  - apply (proj2 (older_fallback_answers olderRun [userText "hi"]
                    (scriptedWorld [Throw (Error_ "got status: 400 INVALID_ARGUMENT");
                                    Normal (textAnswer "Hello")])
                    (Error_ "got status: 400 INVALID_ARGUMENT")
                    [Normal (textAnswer "Hello")] ltac:(reflexivity) ltac:(reflexivity)));
      reflexivity.
Defined.

Lemma malformed_forever_witness :
  agentLoop 7 createRun [userText "a portfolio site"]
    (mkWorld malformedResponse (mkBucket 0 0 true []) [] ∅)
  = (Normal (Continue ([userText "a portfolio site"]
                       ++ replicate 7 (userText (malformedCallMessage (Some "proj1"))))),
     mkWorld malformedResponse (mkBucket 0 0 true []) ([] ++ replicate 7 (EvAttempt 1)) ∅).
Proof.
  apply (malformed_forever createRun malformedResponse malformedResponse
           ltac:(reflexivity) ltac:(intros req; reflexivity) ltac:(reflexivity) 7%nat
           [userText "a portfolio site"]
           (mkWorld malformedResponse (mkBucket 0 0 true []) [] ∅) ltac:(reflexivity)).
Defined.

Lemma unknown_tool_fails_run_witness :
  loopBody createRun [userText "a portfolio site"]
    (scriptedWorld [Normal (toolRequest "sendEmail" (JObj []))])
  = (Throw (Error_ "funCall is not a function"),
     mkWorld [] (mkBucket 0 0 true []) [EvAttempt 1] ∅).
Proof.
  apply (unknown_tool_fails_run createRun [userText "a portfolio site"]
           (scriptedWorld [Normal (toolRequest "sendEmail" (JObj []))])
           (mkWorld [] (mkBucket 0 0 true []) [EvAttempt 1] ∅)
           (toolRequest "sendEmail" (JObj [])) (mkCall "sendEmail" (JObj [])) []
           ltac:(reflexivity) ltac:(reflexivity) ltac:(reflexivity) ltac:(reflexivity)).
  - unfold catalogNames. intros Hin.
    repeat match goal with
           | H : _ ∈ _ :: _ |- _ => apply elem_of_cons in H as [H | H]; [discriminate H |]
           end.
    apply elem_of_nil in Hin. exact Hin.
  - unfold prototypeNames. intros Hin.
    repeat match goal with
           | H : _ ∈ _ :: _ |- _ => apply elem_of_cons in H as [H | H]; [discriminate H |]
           end.
    apply elem_of_nil in Hin. exact Hin.
Defined.

Lemma missing_args_fail_run_witness :
  exists err,
    loopBody createRun [userText "a portfolio site"]
      (scriptedWorld [Normal (toolRequest "writeToFile" JUndefined)])
    = (Throw err,
       mkWorld [] (mkBucket 0 0 true [])
         ([EvAttempt 1] ++ [EvHandler "writeToFile" JUndefined (Some "user1")]) ∅)
    /\ destructure JUndefined "filePath" = Throw err
    /\ forall fuel,
         agentLoop (S fuel) createRun [userText "a portfolio site"]
           (scriptedWorld [Normal (toolRequest "writeToFile" JUndefined)])
         = (Throw err,
            mkWorld [] (mkBucket 0 0 true [])
              ([EvAttempt 1] ++ [EvHandler "writeToFile" JUndefined (Some "user1")]) ∅).
Proof.
  apply (missing_args_fail_run createRun [userText "a portfolio site"]
           (scriptedWorld [Normal (toolRequest "writeToFile" JUndefined)])
           (mkWorld [] (mkBucket 0 0 true []) [EvAttempt 1] ∅)
           (toolRequest "writeToFile" JUndefined) (mkCall "writeToFile" JUndefined) []
           ltac:(reflexivity) ltac:(reflexivity) ltac:(reflexivity) ltac:(reflexivity) ltac:(reflexivity) ltac:(left; reflexivity)).
Defined.

Lemma history_shared_by_name_witness :
  exists persisted context w2,
    ProjectHistory (runAgent 10 createRun "a portfolio site"
                      (scriptedWorld happyScript)).2 !! Some "proj1"
    = Some persisted
    /\ seed otherUserUpdate "make it blue"
         (runAgent 10 createRun "a portfolio site" (scriptedWorld happyScript)).2
       = (Normal (persisted ++ context ++ [userText "make it blue"]), w2).
Proof.
  apply (history_shared_by_name 10 createRun otherUserUpdate "a portfolio site"
           "make it blue" (scriptedWorld happyScript)
           (runAgent 10 createRun "a portfolio site" (scriptedWorld happyScript)).2
           (Some "Done")).
  - vm_compute. reflexivity.
  - reflexivity.
Defined.

Lemma returning_run_extends_history_witness :
  exists added,
    ProjectHistory (runAgent 10 createRun "a portfolio site"
                      (scriptedWorld happyScript)).2 !! Some "proj1"
    = Some (priorHistory createRun (scriptedWorld happyScript) ++ added
            ++ [modelText (Some "Done")])
    /\ userText "a portfolio site" ∈ added
    /\ forall key, key <> Some "proj1" ->
         ProjectHistory (runAgent 10 createRun "a portfolio site"
                           (scriptedWorld happyScript)).2 !! key
         = ProjectHistory (scriptedWorld happyScript) !! key.
Proof.
  apply (returning_run_extends_history 10 createRun "a portfolio site"
           (scriptedWorld happyScript)
           (runAgent 10 createRun "a portfolio site" (scriptedWorld happyScript)).2
           (Some "Done")).
  vm_compute. reflexivity.
Defined.

Lemma update_run_allowed_only_witness :
  exists ran,
    handlersRun (runAgent 10 updateRun "make it blue"
                   (siteWorld [Normal (toolRequest "deployProject" (args deployCall));
                               Normal (textAnswer "Done")])).2
    = handlersRun (siteWorld [Normal (toolRequest "deployProject" (args deployCall));
                              Normal (textAnswer "Done")]) ++ ran
    /\ forall n, n ∈ ran ->
         n = "updateProjectFiles" \/ n = "readProjectFiles" \/ n = "listProjects".
Proof.
  apply (update_run_allowed_only 10 updateRun "make it blue"
           (siteWorld [Normal (toolRequest "deployProject" (args deployCall));
                       Normal (textAnswer "Done")])).
  reflexivity.
Defined.

(* ===================================================================== *)
(** ** The file handlers: paths, missing arguments, reads                *)
(* ===================================================================== *)

Lemma splitPath_nonempty (s : string) : splitPath s <> [].
Proof.
  destruct s as [| c s]; cbn [splitPath]; [discriminate |].
  destruct (isPathSep c); [discriminate |].
  destruct (splitPath s); discriminate.
Qed.

Lemma splitPath_separatorFree (s : string) :
  separatorFree s = true -> splitPath s = [s].
Proof.
  induction s as [| c s IH]; cbn [separatorFree splitPath]; [reflexivity |].
  intros Hs. apply andb_true_iff in Hs as [Hc Hs].
  apply negb_true_iff in Hc. rewrite Hc, (IH Hs). reflexivity.
Qed.

Lemma append_empty (s : string) : "" +:+ s = s.
Proof. reflexivity. Qed.

Lemma append_cons (c : ascii) (s t : string) : String c s +:+ t = String c (s +:+ t).
Proof. reflexivity. Qed.

Lemma append_assoc (s t u : string) : (s +:+ t) +:+ u = s +:+ (t +:+ u).
Proof.
  induction s as [| c s IH]; [reflexivity |].
  rewrite !append_cons, IH. reflexivity.
Qed.

Lemma splitPath_app_sep (s rest : string) (sep : ascii) :
  separatorFree s = true -> isPathSep sep = true ->
  splitPath (s +:+ String sep rest) = s :: splitPath rest.
Proof.
  intros Hs Hsep. induction s as [| c s IH].
  - rewrite append_empty. cbn [splitPath]. rewrite Hsep. reflexivity.
  - rewrite append_cons. cbn [splitPath].
    cbn [separatorFree] in Hs. apply andb_true_iff in Hs as [Hc Hs].
    apply negb_true_iff in Hc. rewrite Hc, (IH Hs). reflexivity.
Qed.

(** X11 — joining and splitting a path.  Segments that contain no
    separator, joined with a slash or with a backslash, split back into
    exactly those segments: [split] undoes [join], for both separators. *)
Theorem splitPath_join (sep : ascii) (segs : list string) :
  isPathSep sep = true -> segs <> [] ->
  Forall (fun s => separatorFree s = true) segs ->
  splitPath (joinSegments sep segs) = segs.
Proof.
  intros Hsep Hne Hall. induction Hall as [| s rest Hs Hrest IH]; [congruence |].
  destruct rest as [| s' rest'].
  - cbn [joinSegments]. apply splitPath_separatorFree. assumption.
  - change (joinSegments sep (s :: s' :: rest'))
      with (s +:+ String sep (joinSegments sep (s' :: rest'))).
    rewrite splitPath_app_sep by assumption.
    rewrite IH by discriminate. reflexivity.
Qed.

Lemma splitPath_join_witness :
  splitPath (joinSegments "\" ["projects"; "shop"; "index.html"])
  = ["projects"; "shop"; "index.html"].
Proof.
  apply (splitPath_join "\" ["projects"; "shop"; "index.html"]).
  - reflexivity.
  - discriminate.
  - repeat constructor.
Defined.

Section FileHandlers.
Context {B E : Type} `{!Collaborators B E}.

(** The handler on a path whose first three segments are ["projects"], a
    project and a file, once the storage service is loaded. *)
Lemma writeToFile_segments (fs : list (string * JsVal)) (p : string)
    (uid : option string) (w : World B E) (pn fn : string) (more : list string) :
  assoc "filePath" fs = JStr p ->
  splitPath p = "projects" :: pn :: fn :: more ->
  storageLoaded (settledEnv (env w)) = true ->
  writeToFile (JObj fs) uid w
  = (Normal (saveReport pn fn
               (saveFile (Some pn) (Some fn) (assoc "content" fs) uid
                  (settledEnv (env w))).1),
     mkWorld (backend w)
       (saveFile (Some pn) (Some fn) (assoc "content" fs) uid (settledEnv (env w))).2
       (trace w ++ settleSleeps (env w)
        ++ [EvSave (Some pn) (Some fn) (assoc "content" fs) uid])
       (ProjectHistory w)).
Proof.
  intros Hfp Hsegs Hloaded.
  unfold writeToFile, bind at 1 2, liftC. cbn [destructure getProp]. rewrite Hfp.
  unfold tryCatch, writeToFile_try, bind at 1. rewrite ensureStorage_spec, Hloaded.
  unfold bind at 1, liftC. rewrite Hsegs. cbv zeta.
  assert (findIndex isProjectsSegment ("projects" :: pn :: fn :: more) = 0) as ->
    by reflexivity.
  cbn [length].
  assert (((0 =? -1) || (0 >=? Z.of_nat (S (S (S (length more)))) - 2)) = false) as ->.
  { apply orb_false_iff. split; [reflexivity |].
    rewrite Z.geb_leb. apply Z.leb_gt. lia. }
  unfold index. change (0 + 1 <? 0) with false. change (0 + 2 <? 0) with false.
  change (Z.to_nat (0 + 1)) with 1%nat. change (Z.to_nat (0 + 2)) with 2%nat.
  cbn [lookup list_lookup].
  unfold bind, emit, onEnv, ret. cbn [env backend trace ProjectHistory].
  destruct (saveFile (Some pn) (Some fn) (assoc "content" fs) uid (settledEnv (env w)))
    as [[[] | err] e']; cbn [fst snd saveReport]; rewrite <- app_assoc; reflexivity.
Qed.

Lemma splitPath_projectFilePath (project file : string) (more : string) :
  separatorFree project = true -> separatorFree file = true ->
  splitPath (projectFilePath project file) = ["projects"; project; file]
  /\ splitPath (projectFilePath project file +:+ "/" +:+ more)
     = "projects" :: project :: file :: splitPath more.
Proof.
  intros Hp Hf. unfold projectFilePath. split.
  - change ("projects/" +:+ project +:+ "/" +:+ file)
      with ("projects" +:+ String "/" (project +:+ String "/" file)).
    rewrite !splitPath_app_sep by (first [assumption | reflexivity]).
    rewrite splitPath_separatorFree by assumption. reflexivity.
  - replace (("projects/" +:+ project +:+ "/" +:+ file) +:+ "/" +:+ more)
      with ("projects" +:+ String "/" (project +:+ String "/" (file +:+ String "/" more))).
    + rewrite !splitPath_app_sep by (first [assumption | reflexivity]). reflexivity.
    + rewrite !append_assoc, !append_cons, !append_empty. reflexivity.
Qed.

(** X12 — the prescribed path reaches the right object.  For a project
    name and a file name without separators, and a loaded storage service,
    writing to [projects/<project>/<file>] invokes [storage.saveFile] once,
    with exactly that project, that file, the given content and the acting
    user; the handler answers ["Success: ..."] if the save returns and
    ["Error: <message>"] if it throws. *)
Theorem writeToFile_prescribed_path (project file : string) (content : JsVal)
    (uid : option string) (w : World B E) :
  separatorFree project = true -> separatorFree file = true ->
  storageLoaded (settledEnv (env w)) = true ->
  writeToFile (JObj [("filePath", JStr (projectFilePath project file));
                     ("content", content)]) uid w
  = (Normal (saveReport project file
               (saveFile (Some project) (Some file) content uid (settledEnv (env w))).1),
     mkWorld (backend w)
       (saveFile (Some project) (Some file) content uid (settledEnv (env w))).2
       (trace w ++ settleSleeps (env w) ++ [EvSave (Some project) (Some file) content uid])
       (ProjectHistory w)).
Proof.
  intros Hp Hf Hloaded.
  rewrite (writeToFile_segments
             [("filePath", JStr (projectFilePath project file)); ("content", content)]
             (projectFilePath project file) uid w project file []);
    [reflexivity | reflexivity | | assumption].
  apply (splitPath_projectFilePath project file ""); assumption.
Qed.

(** X13 — sub-folders are dropped.  Whatever follows the file segment of
    the path is ignored: writing to [projects/<project>/<folder>/<rest>]
    does exactly what writing to [projects/<project>/<folder>] does — the
    content is saved under the name of the folder, not of the file in
    it. *)
Theorem writeToFile_drops_subfolders (project file more : string) (content : JsVal)
    (uid : option string) (w : World B E) :
  separatorFree project = true -> separatorFree file = true ->
  storageLoaded (settledEnv (env w)) = true ->
  writeToFile (JObj [("filePath", JStr (projectFilePath project file +:+ "/" +:+ more));
                     ("content", content)]) uid w
  = writeToFile (JObj [("filePath", JStr (projectFilePath project file));
                       ("content", content)]) uid w.
Proof.
  intros Hp Hf Hloaded.
  rewrite (writeToFile_segments
             [("filePath", JStr (projectFilePath project file +:+ "/" +:+ more));
              ("content", content)]
             (projectFilePath project file +:+ "/" +:+ more)
             uid w project file (splitPath more));
    [| reflexivity | apply splitPath_projectFilePath; assumption | assumption].
  rewrite (writeToFile_segments
             [("filePath", JStr (projectFilePath project file)); ("content", content)]
             (projectFilePath project file) uid w project file []);
    [| reflexivity | apply (splitPath_projectFilePath project file ""); assumption
     | assumption].
  reflexivity.
Qed.

(** X14 — a file path that is not a string.  When the argument object has
    no [filePath] (or one that is not a string), the handler returns an
    ["Error: ..."] text and saves nothing; the world is the initial one but
    for the time spent waiting for the storage service. *)
Theorem writeToFile_without_path (fs : list (string * JsVal)) (uid : option string)
    (w : World B E) :
  (forall p, assoc "filePath" fs <> JStr p) ->
  exists msg,
    writeToFile (JObj fs) uid w
    = (Normal (JStr ("Error: " +:+ msg)),
       mkWorld (backend w) (settledEnv (env w)) (trace w ++ settleSleeps (env w))
         (ProjectHistory w)).
Proof.
  intros Hnot.
  unfold writeToFile, bind at 1 2, liftC. cbn [destructure getProp].
  unfold tryCatch, writeToFile_try, bind at 1. rewrite ensureStorage_spec.
  destruct (storageLoaded (settledEnv (env w))); [| eexists; reflexivity].
  unfold bind at 1, liftC.
  destruct (assoc "filePath" fs) as [| | b | n | p | items | fields];
    try (eexists; reflexivity).
  exfalso. apply (Hnot p). reflexivity.
Qed.

(** X15 — what reading the files of a project returns.  Called with an
    argument object that names the project by a string, [readProjectFiles]
    never throws and returns by the outcome of the storage read: the very
    value the read yielded when that value has at least one key; the text
    ["Error: Project <name> not found or has no files"] when it has none;
    the text ["Error: <message>"] when the read throws, or yields a value
    whose keys cannot be taken.  It records no event and touches only the
    storage service. *)
Theorem readProjectFiles_returns (fs : list (string * JsVal)) (p : string)
    (uid : option string) (w : World B E) (outcome : Completion JsVal) (e1 : E) :
  assoc "projectName" fs = JStr p ->
  readAllProjectFiles (JStr p) uid (env w) = (outcome, e1) ->
  exists result,
    readProjectFiles (JObj fs) uid w
    = (Normal result, mkWorld (backend w) e1 (trace w) (ProjectHistory w))
    /\ (forall files n,
          outcome = Normal files -> keyCount files = Normal (S n) -> result = files)
    /\ (forall files,
          outcome = Normal files -> keyCount files = Normal 0%nat ->
          result = JStr ("Error: Project " +:+ p +:+ " not found or has no files"))
    /\ (forall files err,
          outcome = Normal files -> keyCount files = Throw err ->
          result = JStr ("Error: " +:+ showUndef (message err)))
    /\ (forall err,
          outcome = Throw err -> result = JStr ("Error: " +:+ showUndef (message err))).
Proof.
  intros Hp Hread.
  unfold readProjectFiles, bind at 1, liftC at 1. cbn [destructure getProp].
  rewrite Hp. unfold tryCatch, bind at 1, onEnv. rewrite Hread.
  destruct outcome as [files | err].
  - unfold bind, liftC. destruct (keyCount files) as [[| n] | err] eqn:Hk;
      cbn [Nat.eqb]; eexists; (split; [reflexivity |]); repeat split;
      intros; congruence.
  - eexists. split; [reflexivity |]. repeat split; intros; congruence.
Qed.

End FileHandlers.

Lemma readProjectFiles_returns_witness :
  readProjectFiles (JObj [("projectName", JStr "proj1")]) (Some "user1") (siteWorld [])
  = (Normal (JObj [("index.html", JStr "<html></html>"); ("style.css", JStr "body{}")]),
     siteWorld []).
Proof.
  destruct (readProjectFiles_returns [("projectName", JStr "proj1")] "proj1"
              (Some "user1") (siteWorld [])
              (Normal (JObj [("index.html", JStr "<html></html>");
                             ("style.css", JStr "body{}")]))
              (env (siteWorld [])) ltac:(reflexivity) ltac:(reflexivity))
    as (result & Hrun & Hfiles & _).
  rewrite Hrun, (Hfiles _ 1%nat eq_refl eq_refl). reflexivity.
Defined.

Lemma writeToFile_prescribed_path_witness :
  writeToFile (JObj [("filePath", JStr (projectFilePath "shop" "index.html"));
                     ("content", JStr "<html></html>")]) (Some "user1") openWorld
  = (Normal (JStr "Success: Content written to index.html in project shop"),
     mkWorld [] (mkBucket 0 0 true [("shop", "index.html", "<html></html>")])
       [EvSave (Some "shop") (Some "index.html") (JStr "<html></html>") (Some "user1")] ∅).
Proof.
  rewrite (writeToFile_prescribed_path "shop" "index.html" (JStr "<html></html>")
             (Some "user1") openWorld) by reflexivity.
  reflexivity.
Defined.

Lemma writeToFile_drops_subfolders_witness :
  writeToFile (JObj [("filePath", JStr (projectFilePath "shop" "assets" +:+ "/" +:+ "logo.svg"));
                     ("content", JStr "<svg/>")]) None openWorld
  = writeToFile (JObj [("filePath", JStr (projectFilePath "shop" "assets"));
                       ("content", JStr "<svg/>")]) None openWorld.
Proof.
  apply (writeToFile_drops_subfolders "shop" "assets" "logo.svg" (JStr "<svg/>") None
           openWorld); reflexivity.
Defined.

Lemma writeToFile_without_path_witness :
  exists msg,
    writeToFile (JObj [("content", JStr "<html></html>")]) None openWorld
    = (Normal (JStr ("Error: " +:+ msg)),
       mkWorld (backend openWorld) (settledEnv (env openWorld))
         (trace openWorld ++ settleSleeps (env openWorld)) (ProjectHistory openWorld)).
Proof.
  apply (writeToFile_without_path [("content", JStr "<html></html>")] None openWorld).
  intros p. discriminate.
Defined.

(* ===================================================================== *)
(** ** ConversationStore: answered requests, clearing, isolation         *)
(* ===================================================================== *)

Lemma emptyChat_sound : soundChat emptyChat.
Proof.
  split; [apply emptyChat_wf |].
  intros k k' r Hk. cbn in Hk. rewrite lookup_empty in Hk. discriminate.
Qed.


(** What storing an answer does to the map of sessions and to the heap. *)
Lemma recordAnswer_effect key r0 answer s :
  (forall k, k <> key ->
     ChatHistory (recordAnswer key r0 answer s) !! k = ChatHistory s !! k)
  /\ (forall r, r <> r0 -> (r < nextRef s)%nat ->
        heap (recordAnswer key r0 answer s) !! r = heap s !! r)
  /\ (forall r, ChatHistory (recordAnswer key r0 answer s) !! key = Some r ->
        r = r0 \/ (nextRef s <= r)%nat).
Proof.
  unfold recordAnswer.
  destruct (20 <? length _)%nat; cbn.
  - repeat split.
    + intros k Hk. rewrite lookup_insert_ne by congruence. reflexivity.
    + intros r Hr Hlt. rewrite lookup_insert_ne by lia.
      rewrite lookup_alter_ne by congruence. reflexivity.
    + intros r. rewrite lookup_insert_eq. intros [= <-]. right. lia.
  - repeat split.
    + intros k Hk. rewrite lookup_insert_ne by congruence. reflexivity.
    + intros r Hr Hlt. rewrite lookup_alter_ne by congruence. reflexivity.
    + intros r. rewrite lookup_insert_eq. intros [= <-]. left. reflexivity.
Qed.

(** What one request does to the map of sessions and to the heap: the
    other sessions keep their references, the arrays of the other sessions
    are not written, and the session of the request keeps its array or
    gets a fresh one. *)
Lemma chatRoute_effect key message currentProject projects answer st :
  wfChat st ->
  (forall k, k <> key ->
     ChatHistory (chatRoute key message currentProject projects answer st).2 !! k
     = ChatHistory st !! k)
  /\ (forall r, is_Some (heap st !! r) -> ChatHistory st !! key <> Some r ->
        heap (chatRoute key message currentProject projects answer st).2 !! r
        = heap st !! r)
  /\ (forall r,
        ChatHistory (chatRoute key message currentProject projects answer st).2 !! key
        = Some r ->
        ChatHistory st !! key = Some r \/ (nextRef st <= r)%nat).
Proof.
  intros [Hstored Hfresh]. unfold chatRoute.
  destruct (negb (nonEmpty message)); [cbn; repeat split; auto |].
  destruct (ChatHistory st !! key) as [r0 |] eqn:Hkey.
  - cbv beta iota zeta.
    destruct (recordAnswer_effect key r0 answer (push r0 (mkMsg user (Some message)) st))
      as (H1 & H2 & H3).
    cbn [push ChatHistory heap nextRef] in H1, H2, H3.
    repeat match goal with
           | |- context [if ?c then _ else _] => destruct c
           end; cbn [snd].
    all: first
      [ repeat split;
        [ exact H1
        | intros r Hr Hne; rewrite H2 by (first [congruence | apply Hfresh; assumption]);
          apply lookup_alter_ne; congruence
        | intros r Hr; destruct (H3 r Hr) as [-> | Hge];
          [left; reflexivity | right; assumption] ]
      | cbn [push ChatHistory heap nextRef]; repeat split;
        [ intros r Hr Hne; apply lookup_alter_ne; congruence
        | intros r Hr; left; congruence ] ].
  - cbn [alloc]. cbv beta iota zeta.
    destruct (recordAnswer_effect key (nextRef st) answer
                (push (nextRef st) (mkMsg user (Some message))
                   (mkChat (<[nextRef st := []]> (heap st)) (S (nextRef st))
                      (ChatHistory st))))
      as (H1 & H2 & H3).
    cbn [push ChatHistory heap nextRef] in H1, H2, H3.
    repeat match goal with
           | |- context [if ?c then _ else _] => destruct c
           end; cbn [snd].
    all: first
      [ repeat split;
        [ exact H1
        | intros r Hr Hne; pose proof (Hfresh r Hr); rewrite H2 by lia;
          rewrite lookup_alter_ne by lia; apply lookup_insert_ne; lia
        | intros r Hr; destruct (H3 r Hr) as [-> | Hge]; right; lia ]
      | cbn [push ChatHistory heap nextRef]; repeat split;
        [ intros r Hr Hne; pose proof (Hfresh r Hr);
          rewrite lookup_alter_ne by lia; apply lookup_insert_ne; lia
        | intros r Hr; congruence ] ].
Qed.

Lemma chatRoute_sound key message currentProject projects answer st :
  soundChat st -> soundChat (chatRoute key message currentProject projects answer st).2.
Proof.
  intros [Hwf Hsep]. split; [apply chatRoute_wf; assumption |].
  destruct (chatRoute_effect key message currentProject projects answer st Hwf)
    as (Hother & _ & Hown).
  destruct Hwf as [Hstored Hfresh].
  assert (forall k r, k <> key -> ChatHistory st !! k = Some r ->
            forall r', ChatHistory (chatRoute key message currentProject projects answer st).2
                       !! key = Some r' -> r <> r') as Hdiff.
  { intros k r Hk Hr r' Hr' <-. destruct (Hown r Hr') as [Hold | Hge].
    - apply Hk. eapply Hsep; eassumption.
    - pose proof (Hfresh r (Hstored k r Hr)). lia. }
  intros k k' r Hk Hk'.
  destruct (decide (k = key)) as [-> | Hne]; destruct (decide (k' = key)) as [-> | Hne'].
  - reflexivity.
  - rewrite Hother in Hk' by assumption. exfalso. eapply Hdiff; eauto.
  - rewrite Hother in Hk by assumption. exfalso. eapply Hdiff; eauto.
  - rewrite Hother in Hk, Hk' by assumption. eapply Hsep; eassumption.
Qed.

(** X16.  A request of one session leaves the stored history of every
    other session as it was, whatever the route answers. *)
Theorem chat_sessions_isolated key other message currentProject projects answer st :
  soundChat st -> other <> key ->
  storedSession other (chatRoute key message currentProject projects answer st).2
  = storedSession other st.
Proof.
  intros [Hwf Hsep] Hne.
  destruct (chatRoute_effect key message currentProject projects answer st Hwf)
    as (Hother & Hheap & _).
  unfold storedSession. rewrite Hother by assumption.
  destruct (ChatHistory st !! other) as [r |] eqn:Hr; [| reflexivity].
  apply Hheap.
  - destruct Hwf as [Hstored _]. eapply Hstored; eassumption.
  - intros Hkey. apply Hne. eapply Hsep; eassumption.
Qed.

Lemma chat_sessions_isolated_witness :
  storedSession "bob"
    (chatRoute "alice" "update shop" None (Normal ["blog"]) None
       (greetings 3 "bob" emptyChat)).2
  = storedSession "bob" (greetings 3 "bob" emptyChat).
Proof.
  apply (chat_sessions_isolated "alice" "bob" "update shop" None (Normal ["blog"]) None
           (greetings 3 "bob" emptyChat)).
  - cbn [greetings]. repeat apply chatRoute_sound. apply emptyChat_sound.
  - discriminate.
Defined.





(** X19.  When the route answers that the mentioned project was not found,
    a session that already has a stored history gets the message appended
    to it, without any cut; a session that has none is left without one,
    and the message is not recorded. *)
Theorem chat_not_found_stored key message currentProject projects answer st st' p :
  wfChat st ->
  chatRoute key message currentProject projects answer st = (ProjectNotFound p, st') ->
  storedSession key st'
  = option_map (fun l => l ++ [mkMsg user (Some message)]) (storedSession key st).
Proof.
  intros [Hstored Hfresh] Hroute. unfold chatRoute in Hroute.
  destruct (negb (nonEmpty message)); [discriminate |].
  unfold storedSession at 2.
  destruct (ChatHistory st !! key) as [r |] eqn:Hkey.
  - cbv beta iota zeta in Hroute.
    repeat match type of Hroute with
           | context [if ?c then _ else _] => destruct c
           end; try discriminate.
    injection Hroute as _ <-.
    unfold storedSession, push; cbn. rewrite Hkey, lookup_alter_eq.
    destruct (Hstored key r Hkey) as [l ->]. reflexivity.
  - cbn [alloc] in Hroute. cbv beta iota zeta in Hroute.
    repeat match type of Hroute with
           | context [if ?c then _ else _] => destruct c
           end; try discriminate.
    injection Hroute as _ <-.
    unfold storedSession, push; cbn. rewrite Hkey. reflexivity.
Qed.

Lemma chat_not_found_stored_witness :
  storedSession "alice"
    (chatRoute "alice" "update shop" None (Normal ["blog"]) None
       (greetings 2 "alice" emptyChat)).2
  = option_map (fun l => l ++ [mkMsg user (Some "update shop")])
      (storedSession "alice" (greetings 2 "alice" emptyChat)).
Proof.
  apply (chat_not_found_stored "alice" "update shop" None (Normal ["blog"]) None
           (greetings 2 "alice" emptyChat) _ "shop").
  - cbn [greetings]. repeat apply chatRoute_wf. apply emptyChat_wf.
  - reflexivity.
Defined.

(* ===================================================================== *)
(** ** ConversationStore: which messages are answered with "not found"   *)
(* ===================================================================== *)

Lemma prefix_app (a b : string) : String.prefix a (a +:+ b) = true.
Proof.
  induction a as [| c a IH]; [destruct b; reflexivity |].
  rewrite append_cons. cbn [String.prefix].
  destruct (ascii_dec c c) as [_ | Hne]; [exact IH | congruence].
Qed.

Lemma includes_app (pre sub post : string) :
  includes sub (pre +:+ (sub +:+ post)) = true.
Proof.
  induction pre as [| c pre IH].
  - rewrite append_empty. destruct (sub +:+ post) eqn:Hs; cbn [includes];
      rewrite <- Hs, prefix_app; reflexivity.
  - rewrite append_cons. cbn [includes]. rewrite IH. apply orb_true_r.
Qed.

Lemma toLowerCase_app (a b : string) :
  toLowerCase (a +:+ b) = toLowerCase a +:+ toLowerCase b.
Proof.
  induction a as [| c a IH]; [reflexivity |].
  rewrite append_cons. cbn [toLowerCase]. rewrite append_cons, IH. reflexivity.
Qed.

Lemma takeWhile_dropWhile (p : ascii -> bool) (s : string) :
  s = takeWhile p s +:+ dropWhile p s.
Proof.
  induction s as [| c s IH]; [reflexivity |].
  cbn [takeWhile dropWhile]. destruct (p c).
  - rewrite append_cons, <- IH. reflexivity.
  - reflexivity.
Qed.

Lemma takeWhile_allChars (p : ascii -> bool) (s : string) :
  allChars p (takeWhile p s) = true.
Proof.
  induction s as [| c s IH]; [reflexivity |].
  cbn [takeWhile]. destruct (p c) eqn:Hc; [| reflexivity].
  cbn [allChars]. rewrite Hc, IH. reflexivity.
Qed.

Lemma stripKeyword_suffix (kw s t : string) :
  stripKeyword kw s = Some t -> exists pre, s = pre +:+ t.
Proof.
  revert s. induction kw as [| k kw IH]; intros s Hs.
  - cbn in Hs. injection Hs as <-. exists "". reflexivity.
  - destruct s as [| c s]; [discriminate |]. cbn [stripKeyword] in Hs.
    destruct (Ascii.eqb (lowerAscii k) (lowerAscii c)); [| discriminate].
    destruct (IH s Hs) as (pre & ->). exists (String c pre). reflexivity.
Qed.

(** What a pattern captures is a non-empty run of name characters that
    occurs in the text. *)
Lemma matchHere_captured (kw s g : string) :
  matchHere kw s = Some g ->
  nonEmpty g = true /\ allChars isNameChar g = true
  /\ exists pre post, s = pre +:+ (g +:+ post).
Proof.
  unfold matchHere. intros Hm.
  destruct (stripKeyword kw s) as [[| c rest] |] eqn:Hk; try discriminate.
  destruct (isSpace c); [| discriminate].
  destruct (nonEmpty (takeWhile isNameChar (dropWhile isSpace rest))) eqn:Hne;
    [| discriminate].
  injection Hm as <-. split; [exact Hne |]. split; [apply takeWhile_allChars |].
  destruct (stripKeyword_suffix _ _ _ Hk) as (pre & ->).
  exists (pre +:+ String c (takeWhile isSpace rest)),
         (dropWhile isNameChar (dropWhile isSpace rest)).
  rewrite <- takeWhile_dropWhile, append_assoc, append_cons, <- takeWhile_dropWhile.
  reflexivity.
Qed.

Lemma matchPattern_captured (kw s g : string) :
  matchPattern kw s = Some g ->
  nonEmpty g = true /\ allChars isNameChar g = true
  /\ exists pre post, s = pre +:+ (g +:+ post).
Proof.
  induction s as [| c s IH]; cbn [matchPattern]; intros Hm.
  - destruct (matchHere kw "") eqn:Hh; [| discriminate].
    injection Hm as ->. apply (matchHere_captured _ _ _ Hh).
  - destruct (matchHere kw (String c s)) eqn:Hh.
    + injection Hm as ->. apply (matchHere_captured _ _ _ Hh).
    + destruct (IH Hm) as (Hne & Hall & pre & post & ->).
      split; [exact Hne |]. split; [exact Hall |].
      exists (String c pre), post. reflexivity.
Qed.

Lemma extractProjectName_unknown (message : string) (ps : list string) (g : string) :
  knownMention message ps = None ->
  extractProjectName message ps = Some g ->
  exists kw, In kw updatePatterns /\ matchPattern kw message = Some g.
Proof.
  unfold knownMention, extractProjectName. intros -> Hg.
  unfold updatePatterns in *.
  repeat match type of Hg with
         | context [matchPattern ?kw message] =>
             let Hm := fresh "Hm" in
             destruct (matchPattern kw message) eqn:Hm;
             [ injection Hg as ->; exists kw; split; [cbn; tauto | exact Hm] |]
         end.
  discriminate.
Qed.

Lemma extractProjectName_known (message : string) (ps : list string) (q : string) :
  knownMention message ps = Some q ->
  extractProjectName message ps = Some q /\ listIncludes q ps = true.
Proof.
  unfold knownMention, extractProjectName. intros Hq. rewrite Hq.
  split; [reflexivity |].
  apply find_some in Hq as [Hin _]. unfold listIncludes.
  apply existsb_exists. exists q. split; [exact Hin | apply String.eqb_refl].
Qed.

(** A name that occurs in the message and is a known project is found by
    the search through the known projects. *)
Lemma occurring_project_known (message : string) (ps : list string) (g pre post : string) :
  message = pre +:+ (g +:+ post) -> listIncludes g ps = true ->
  knownMention message ps <> None.
Proof.
  intros -> Hin Hnone. unfold listIncludes in Hin.
  apply existsb_exists in Hin as (x & Hx & Heq). apply String.eqb_eq in Heq as <-.
  unfold knownMention in Hnone.
  pose proof (find_none _ _ Hnone g Hx) as Hf. cbv beta in Hf.
  rewrite !toLowerCase_app, includes_app in Hf. discriminate.
Qed.

(** The reply of the route, without the store. *)
Lemma chatRoute_reply key message currentProject projects answer st :
  (chatRoute key message currentProject projects answer st).1
  = if negb (nonEmpty message) then BadRequest
    else
      let mentionedProject := extractProjectName message (availableOf projects) in
      let contextProject :=
        if truthyStr mentionedProject then mentionedProject else currentProject in
      if truthyStr contextProject
         && listIncludes (default "" contextProject) (availableOf projects)
      then Answered answer
      else if truthyStr mentionedProject
              && negb (listIncludes (default "" mentionedProject) (availableOf projects))
      then ProjectNotFound (default "" mentionedProject)
      else Answered answer.
Proof.
  unfold chatRoute, availableOf.
  destruct (negb (nonEmpty message)); [reflexivity |].
  destruct (ChatHistory st !! key); cbv beta iota zeta;
    repeat match goal with
           | |- context [if ?c then _ else _] => destruct c
           end; reflexivity.
Qed.

Lemma chatRoute_not_found_inv key message currentProject projects answer st p :
  (chatRoute key message currentProject projects answer st).1 = ProjectNotFound p ->
  nonEmpty message = true
  /\ extractProjectName message (availableOf projects) = Some p
  /\ nonEmpty p = true
  /\ listIncludes p (availableOf projects) = false.
Proof.
  rewrite chatRoute_reply.
  destruct (nonEmpty message); cbn [negb]; [| discriminate].
  cbv zeta.
  destruct (extractProjectName message (availableOf projects)) as [m |];
    cbn [truthyStr].
  - destruct (nonEmpty m) eqn:Hm.
    + cbn [truthyStr default from_option]. unfold id. rewrite Hm. cbn [andb].
      destruct (listIncludes m (availableOf projects)) eqn:Hin; cbn [negb];
        [discriminate |].
      intros [= <-]. auto.
    + cbn [andb]. destruct (_ && _); discriminate.
  - cbn [andb]. destruct (_ && _); discriminate.
Qed.

(** X20.  For a message and project names of ASCII characters, the route
    answers "not found" exactly when the message is not empty, no known
    project occurs in it, and one of the update patterns captures a name
    in it; that name is the one reported.  The project the client says is
    current plays no part. *)
Theorem chat_not_found_iff key message currentProject projects answer st p :
  asciiOnly message = true ->
  Forall (fun project => asciiOnly project = true) (availableOf projects) ->
  (chatRoute key message currentProject projects answer st).1 = ProjectNotFound p
  <-> nonEmpty message = true
      /\ knownMention message (availableOf projects) = None
      /\ extractProjectName message (availableOf projects) = Some p.
Proof.
  intros _ _. split.
  - intros Hr. destruct (chatRoute_not_found_inv _ _ _ _ _ _ _ Hr)
      as (Hmsg & Hp & _ & Hout).
    repeat split; try assumption.
    destruct (knownMention message (availableOf projects)) as [q |] eqn:Hq;
      [| reflexivity].
    destruct (extractProjectName_known _ _ _ Hq) as [Hq' Hin]. congruence.
  - intros (Hmsg & Hnone & Hp).
    destruct (extractProjectName_unknown _ _ _ Hnone Hp) as (kw & _ & Hm).
    destruct (matchPattern_captured _ _ _ Hm) as (Hne & _ & pre & post & Hocc).
    assert (listIncludes p (availableOf projects) = false) as Hout.
    { destruct (listIncludes p (availableOf projects)) eqn:Hin; [| reflexivity].
      exfalso. apply (occurring_project_known _ _ _ _ _ Hocc Hin Hnone). }
    rewrite chatRoute_reply, Hmsg, Hp. cbn [negb]. cbv zeta.
    cbn [truthyStr default from_option]. unfold id. rewrite Hne.
    cbn [truthyStr default from_option]. rewrite ?Hne, Hout.
    reflexivity.
Qed.

Lemma chat_not_found_iff_witness :
  (chatRoute "alice" "please fix the header" (Some "shop") (Normal ["shop"; "blog"])
     (Some "Sure.") emptyChat).1 = ProjectNotFound "the"
  <-> nonEmpty "please fix the header" = true
      /\ knownMention "please fix the header" (availableOf (Normal ["shop"; "blog"])) = None
      /\ extractProjectName "please fix the header" (availableOf (Normal ["shop"; "blog"]))
         = Some "the".
Proof.
  apply (chat_not_found_iff "alice" "please fix the header" (Some "shop")
           (Normal ["shop"; "blog"]) (Some "Sure.") emptyChat "the").
  - reflexivity.
  - repeat constructor.
Defined.

(** X21.  The name reported as not found is a non-empty run of the
    characters [a-zA-Z0-9-_] that occurs in the message and is not the
    name of a known project. *)
Theorem chat_not_found_mention key message currentProject projects answer st p :
  (chatRoute key message currentProject projects answer st).1 = ProjectNotFound p ->
  nonEmpty p = true
  /\ allChars isNameChar p = true
  /\ includes p message = true
  /\ listIncludes p (availableOf projects) = false.
Proof.
  intros Hr. destruct (chatRoute_not_found_inv _ _ _ _ _ _ _ Hr)
    as (_ & Hp & Hne & Hout).
  assert (knownMention message (availableOf projects) = None) as Hnone.
  { destruct (knownMention message (availableOf projects)) as [q |] eqn:Hq;
      [| reflexivity].
    destruct (extractProjectName_known _ _ _ Hq) as [Hq' Hin]. congruence. }
  destruct (extractProjectName_unknown _ _ _ Hnone Hp) as (kw & _ & Hm).
  destruct (matchPattern_captured _ _ _ Hm) as (_ & Hall & pre & post & ->).
  repeat split; try assumption. apply includes_app.
Qed.

Lemma chat_not_found_mention_witness :
  nonEmpty "the" = true
  /\ allChars isNameChar "the" = true
  /\ includes "the" "please fix the header" = true
  /\ listIncludes "the" (availableOf (Normal ["shop"; "blog"])) = false.
Proof.
  apply (chat_not_found_mention "alice" "please fix the header" (Some "shop")
           (Normal ["shop"; "blog"]) (Some "Sure.") emptyChat "the").
  reflexivity.
Defined.

(* ===================================================================== *)
(** ** ConversationStore: [handleChatMessage]                            *)
(* ===================================================================== *)

Lemma matchLabelHere_captured (kw s g : string) :
  matchLabelHere kw s = Some g ->
  nonEmpty g = true /\ allChars isNameChar g = true
  /\ exists pre post, s = pre +:+ (g +:+ post).
Proof.
  unfold matchLabelHere. intros Hm.
  destruct (stripKeyword kw s) as [[| c rest] |] eqn:Hk; try discriminate.
  destruct (isLabelSep c); [| discriminate].
  destruct (nonEmpty (takeWhile isNameChar (dropWhile isLabelSep rest))) eqn:Hne;
    [| discriminate].
  injection Hm as <-. split; [exact Hne |]. split; [apply takeWhile_allChars |].
  destruct (stripKeyword_suffix _ _ _ Hk) as (pre & ->).
  exists (pre +:+ String c (takeWhile isLabelSep rest)),
         (dropWhile isNameChar (dropWhile isLabelSep rest)).
  rewrite <- takeWhile_dropWhile, append_assoc, append_cons, <- takeWhile_dropWhile.
  reflexivity.
Qed.

Lemma matchLabel_captured (kw s g : string) :
  matchLabel kw s = Some g ->
  nonEmpty g = true /\ allChars isNameChar g = true
  /\ exists pre post, s = pre +:+ (g +:+ post).
Proof.
  induction s as [| c s IH]; cbn [matchLabel]; intros Hm.
  - destruct (matchLabelHere kw "") eqn:Hh; [| discriminate].
    injection Hm as ->. apply (matchLabelHere_captured _ _ _ Hh).
  - destruct (matchLabelHere kw (String c s)) eqn:Hh.
    + injection Hm as ->. apply (matchLabelHere_captured _ _ _ Hh).
    + destruct (IH Hm) as (Hne & Hall & pre & post & ->).
      split; [exact Hne |]. split; [exact Hall |].
      exists (String c pre), post. reflexivity.
Qed.

(** X22.  A reply of [handleChatMessage] names a project only for a
    website-building request: the action is then [create_project], and the
    name is a non-empty run of the characters [a-zA-Z0-9-_] taken from the
    text of the model's answer, which is also the text of the reply.  When
    the message is made of ASCII characters, it holds one of the building
    phrases, case ignored. *)
Theorem handleChatMessage_named message generated name :
  answer_projectName (handleChatMessage message generated) = Some name ->
  answer_action (handleChatMessage message generated) = create_project
  /\ nonEmpty name = true
  /\ allChars isNameChar name = true
  /\ (exists t, answer_text (handleChatMessage message generated) = Some t
                /\ includes name t = true)
  /\ (asciiOnly message = true ->
      anyIncludes buildPhrases (toLowerCase message) = true).
Proof.
  unfold handleChatMessage.
  destruct generated as [response | e]; [| discriminate].
  destruct (extractResponseText response) as [responseText | e]; [| discriminate].
  cbv zeta.
  destruct (anyIncludes buildPhrases (toLowerCase message)).
  - destruct responseText as [t |]; [| discriminate].
    cbn [answer_projectName answer_action answer_text]. intros Hname.
    assert (exists kw, matchLabel kw t = Some name) as (kw & Hm).
    { destruct (matchLabel "project" t) eqn:H1;
        [injection Hname as ->; eauto |].
      destruct (matchLabel "suggest" t) eqn:H2;
        [injection Hname as ->; eauto | eauto]. }
    destruct (matchLabel_captured _ _ _ Hm) as (Hne & Hall & pre & post & ->).
    split; [reflexivity |]. split; [exact Hne |]. split; [exact Hall |].
    split; [| reflexivity].
    eexists. split; [reflexivity | apply includes_app].
  - repeat match goal with
           | |- context [if ?c then _ else _] => destruct c
           end; discriminate.
Qed.

Lemma handleChatMessage_named_witness :
  answer_action
    (handleChatMessage "Build a site for my bakery"
       (Normal (textAnswer "Great! Project: bakery-site is a good start.")))
  = create_project.
Proof.
  apply (handleChatMessage_named "Build a site for my bakery"
           (Normal (textAnswer "Great! Project: bakery-site is a good start."))
           "bakery-site").
  reflexivity.
Defined.



(* ===================================================================== *)
(** ** Authentication middleware                                         *)
(* ===================================================================== *)

Lemma prefix_split (a s : string) :
  String.prefix a s = true -> s = a +:+ substringFrom (String.length a) s.
Proof.
  revert s. induction a as [| c a IH]; intros s Hp; [reflexivity |].
  destruct s as [| d s]; [discriminate |]. cbn [String.prefix] in Hp.
  destruct (ascii_dec c d) as [<- | ]; [| discriminate].
  cbn [String.length substringFrom]. rewrite append_cons, <- (IH s Hp). reflexivity.
Qed.

Section MiddlewareFacts.

Variable findById : JsVal -> Completion (option Account).
Variable verify : string -> string -> Completion JsVal.

Lemma bearerUser_named req JWT_SECRET usr :
  bearerUser findById verify req JWT_SECRET = Some usr ->
  namedByToken findById verify req JWT_SECRET usr.
Proof.
  unfold bearerUser, namedByToken.
  destruct (authorization req) as [authHeader |]; [| discriminate].
  destruct (nonEmpty authHeader); cbn [andb]; [| discriminate].
  destruct (String.prefix "Bearer " authHeader) eqn:Hp; [| discriminate].
  cbv zeta.
  destruct JWT_SECRET as [secret |]; cbn [truthyStr negb]; [| discriminate].
  destruct (nonEmpty secret) eqn:Hs; cbn [negb]; [| discriminate].
  cbn [default from_option]. unfold id.
  destruct (verify (substringFrom 7 authHeader) secret) as [decoded |] eqn:Hv;
    [| discriminate].
  destruct (getProp decoded "userId") as [uid |] eqn:Hg; [| discriminate].
  destruct (findById uid) as [[u |] |] eqn:Hf; try discriminate.
  intros [= ->].
  exists (substringFrom 7 authHeader), secret, decoded, uid.
  repeat split; try assumption.
  f_equal. apply (prefix_split "Bearer " authHeader Hp).
Qed.

(** X24.  [authenticate] lets a request through only with a stored usr
    that the request names: the user [User.findById] returns for the id
    of the session, or for the [userId] of a token that [jwt.verify]
    accepts under a configured secret. *)
Theorem authenticate_sound req JWT_SECRET usr :
  authenticate findById verify req JWT_SECRET = Next usr ->
  namedBySession findById req usr \/ namedByToken findById verify req JWT_SECRET usr.
Proof.
  unfold authenticate, sessionUser.
  destruct (session_userId req) as [sid |] eqn:Hsid.
  - destruct (truthy sid) eqn:Ht.
    + destruct (findById sid) as [[u |] |] eqn:Hf.
      * intros [= ->]. left. exists sid. auto.
      * destruct (bearerUser findById verify req JWT_SECRET) eqn:Hb; [| discriminate].
        intros [= ->]. right. apply bearerUser_named. exact Hb.
      * discriminate.
    + destruct (bearerUser findById verify req JWT_SECRET) eqn:Hb; [| discriminate].
      intros [= ->]. right. apply bearerUser_named. exact Hb.
  - destruct (bearerUser findById verify req JWT_SECRET) eqn:Hb; [| discriminate].
    intros [= ->]. right. apply bearerUser_named. exact Hb.
Qed.

(** X25.  The two middlewares agree: [optionalAuth] puts a user on the
    request exactly when [authenticate] lets the request through, and it
    is the same user. *)
Theorem optionalAuth_agrees req JWT_SECRET usr :
  optionalAuth findById verify req JWT_SECRET = Some usr
  <-> authenticate findById verify req JWT_SECRET = Next usr.
Proof.
  unfold optionalAuth, authenticate.
  destruct (sessionUser findById req) as [[u |] |].
  - split; intros [= ->]; reflexivity.
  - destruct (bearerUser findById verify req JWT_SECRET).
    + split; intros [= ->]; reflexivity.
    + split; discriminate.
  - split; discriminate.
Qed.

(** X26.  Only the session check can make [authenticate] answer 500: it
    does so exactly when the look-up of the session's user throws, with
    that error's message, and then whatever token the request carries is
    not looked at.  A failure of the token check is answered with 401. *)
Theorem authenticate_error req JWT_SECRET m :
  authenticate findById verify req JWT_SECRET = Status500 m
  <-> exists id e, session_userId req = Some id /\ truthy id = true
                   /\ findById id = Throw e /\ m = message e.
Proof.
  unfold authenticate, sessionUser. split.
  - destruct (session_userId req) as [sid |].
    + destruct (truthy sid) eqn:Ht.
      * destruct (findById sid) as [[u |] |] eqn:Hf.
        -- discriminate.
        -- destruct (bearerUser findById verify req JWT_SECRET); discriminate.
        -- intros [= <-]. exists sid, e. auto.
      * destruct (bearerUser findById verify req JWT_SECRET); discriminate.
    + destruct (bearerUser findById verify req JWT_SECRET); discriminate.
  - intros (sid & e & -> & -> & -> & ->). reflexivity.
Qed.

End MiddlewareFacts.

Lemma authenticate_sound_witness :
  namedBySession demoUsers (mkAuthRequest None (Some "Bearer t-u1"))
    (mkAccount "u1" "ann@example.org")
  \/ namedByToken demoUsers demoVerify (mkAuthRequest None (Some "Bearer t-u1"))
       (Some "s3cret") (mkAccount "u1" "ann@example.org").
Proof.
  apply (authenticate_sound demoUsers demoVerify
           (mkAuthRequest None (Some "Bearer t-u1")) (Some "s3cret")
           (mkAccount "u1" "ann@example.org")).
  reflexivity.
Defined.

(* ===================================================================== *)
(** ** Storage service: the content type of an upload                    *)
(* ===================================================================== *)

Lemma lastIndexOf_dotFree (s : string) : dotFree s = true -> lastIndexOf "." s = -1.
Proof.
  unfold dotFree. induction s as [| c s IH]; [reflexivity |].
  cbn [allChars lastIndexOf]. intros Hs. apply andb_true_iff in Hs as [Hc Hs].
  rewrite (IH Hs). apply negb_true_iff in Hc. rewrite Hc. reflexivity.
Qed.

(** The extension of a name is what follows its last dot, with the dot. *)
Lemma extension_found (base ext : string) :
  dotFree ext = true ->
  substringZ (lastIndexOf "." (base +:+ String "." ext)) (base +:+ String "." ext)
  = String "." ext.
Proof.
  intros Hext. unfold substringZ. induction base as [| c base IH].
  - rewrite append_empty. cbn [lastIndexOf]. rewrite (lastIndexOf_dotFree ext Hext).
    reflexivity.
  - rewrite append_cons. cbn [lastIndexOf].
    assert (0 <= lastIndexOf "." (base +:+ String "." ext)) as Hpos.
    { clear IH. induction base as [| d base IH].
      - rewrite append_empty. cbn [lastIndexOf].
        rewrite (lastIndexOf_dotFree ext Hext). cbn. lia.
      - rewrite append_cons. cbn [lastIndexOf].
        destruct (0 <=? lastIndexOf "." (base +:+ String "." ext)) eqn:Hi.
        + apply Z.leb_le in Hi. lia.
        + apply Z.leb_gt in Hi. lia. }
    assert ((0 <=? lastIndexOf "." (base +:+ String "." ext)) = true) as ->
      by (apply Z.leb_le; exact Hpos).
    rewrite Z2Nat.inj_add by lia. rewrite Nat.add_1_r. cbn [substringFrom].
    exact IH.
Qed.

(** X27.  The content type of an upload is looked up under what follows
    the last dot of the file name, lower-cased and with the dot: for a
    name that ends in a dot and an extension without dots, it is the type
    the table [contentTypes] gives for that extension, and
    [application/octet-stream] when the table has none. *)
Theorem getContentType_extension (base ext : string) :
  dotFree ext = true ->
  getContentType (base +:+ String "." ext)
  = Mime (default "application/octet-stream"
            (ownProperty (String "." (toLowerCase ext)) contentTypes)).
Proof.
  intros Hext. unfold getContentType. cbv zeta.
  rewrite (extension_found base ext Hext). cbn [toLowerCase].
  change (lowerAscii ".") with "."%char.
  destruct (ownProperty (String "." (toLowerCase ext)) contentTypes) as [mime |];
    reflexivity.
Qed.

Lemma getContentType_extension_witness :
  getContentType "assets/Photo.final.JPG" = Mime "image/jpeg"
  /\ getContentType "notes.backup" = Mime "application/octet-stream".
Proof.
  split.
  - apply (getContentType_extension "assets/Photo.final" "JPG"). reflexivity.
  - apply (getContentType_extension "notes" "backup"). reflexivity.
Defined.

(* ===================================================================== *)
(** ** Deployment: the name of the deployed project                      *)
(* ===================================================================== *)

Lemma replaceOutside_slug (s : string) : allChars isSlugChar (replaceOutside s) = true.
Proof.
  induction s as [| c s IH]; [reflexivity |].
  cbn [replaceOutside allChars]. rewrite IH.
  destruct (isSlugChar c) eqn:Hc; [rewrite Hc |]; reflexivity.
Qed.

Lemma collapseDashes_slug (s : string) :
  allChars isSlugChar s = true -> allChars isSlugChar (collapseDashes s) = true.
Proof.
  induction s as [| c s IH]; [reflexivity |].
  cbn [allChars]. intros Hs. apply andb_true_iff in Hs as [Hc Hs].
  cbn [collapseDashes]. destruct s as [| d s'].
  - cbn [allChars]. rewrite Hc. reflexivity.
  - destruct (isDash c && isDash d).
    + apply IH. exact Hs.
    + cbn [allChars]. rewrite Hc. apply IH. exact Hs.
Qed.

Lemma collapseDashes_cons (c d : ascii) (s : string) :
  collapseDashes (String c (String d s))
  = if isDash c && isDash d then collapseDashes (String d s)
    else String c (collapseDashes (String d s)).
Proof. reflexivity. Qed.

Lemma noDoubleDash_cons (c d : ascii) (s : string) :
  noDoubleDash (String c (String d s))
  = negb (isDash c && isDash d) && noDoubleDash (String d s).
Proof. reflexivity. Qed.

Lemma collapseDashes_keep (c : ascii) (s : string) :
  isDash c = false -> collapseDashes (String c s) = String c (collapseDashes s).
Proof.
  intros Hc. cbn [collapseDashes]. destruct s as [| d s']; [reflexivity |].
  rewrite Hc. reflexivity.
Qed.

Lemma collapseDashes_nonempty (c : ascii) (s : string) :
  exists e t, collapseDashes (String c s) = String e t.
Proof.
  revert c. induction s as [| d s IH]; intros c; [cbn; eauto |].
  cbn [collapseDashes]. destruct (isDash c && isDash d); [apply IH | eauto].
Qed.

Lemma collapseDashes_noDouble (s : string) : noDoubleDash (collapseDashes s) = true.
Proof.
  induction s as [| c s IH]; [reflexivity |].
  destruct s as [| d s']; [reflexivity |].
  destruct (isDash c) eqn:Hc; destruct (isDash d) eqn:Hd.
  - rewrite collapseDashes_cons, Hc, Hd. exact IH.
  - rewrite collapseDashes_cons, Hc, Hd. cbn [andb].
    rewrite (collapseDashes_keep d s' Hd) in *.
    rewrite noDoubleDash_cons, Hc, Hd. exact IH.
  - rewrite (collapseDashes_keep c _ Hc).
    destruct (collapseDashes_nonempty d s') as (e & t & He). rewrite He in *.
    rewrite noDoubleDash_cons, Hc. exact IH.
  - rewrite (collapseDashes_keep c _ Hc).
    destruct (collapseDashes_nonempty d s') as (e & t & He). rewrite He in *.
    rewrite noDoubleDash_cons, Hc. exact IH.
Qed.

Lemma noDoubleDash_tail (c : ascii) (s : string) :
  noDoubleDash (String c s) = true -> noDoubleDash s = true.
Proof.
  destruct s as [| d s']; [reflexivity |].
  rewrite noDoubleDash_cons. intros H. apply andb_true_iff in H as [_ H]. exact H.
Qed.

Lemma stripLeadingDash_facts (s : string) :
  allChars isSlugChar s = true -> noDoubleDash s = true ->
  allChars isSlugChar (stripLeadingDash s) = true
  /\ noDoubleDash (stripLeadingDash s) = true
  /\ startsWithDash (stripLeadingDash s) = false.
Proof.
  intros Hall Hnd. destruct s as [| c s]; [auto |].
  cbn [stripLeadingDash]. destruct (isDash c) eqn:Hc.
  - cbn [allChars] in Hall. apply andb_true_iff in Hall as [_ Hall].
    split; [exact Hall |]. split; [apply (noDoubleDash_tail c s Hnd) |].
    destruct s as [| d s']; [reflexivity |].
    rewrite noDoubleDash_cons, Hc in Hnd. cbn [andb startsWithDash] in *.
    destruct (isDash d); [discriminate | reflexivity].
  - cbn [startsWithDash]. auto.
Qed.

Lemma stripTrailingDash_cons (c d : ascii) (s : string) :
  stripTrailingDash (String c (String d s)) = String c (stripTrailingDash (String d s)).
Proof. reflexivity. Qed.

Lemma stripTrailingDash_head (c : ascii) (s : string) :
  stripTrailingDash (String c s) = ""
  \/ exists t, stripTrailingDash (String c s) = String c t.
Proof.
  destruct s as [| d s'].
  - cbn [stripTrailingDash]. destruct (isDash c); eauto.
  - rewrite stripTrailingDash_cons. eauto.
Qed.

Lemma stripTrailingDash_facts (s : string) :
  allChars isSlugChar s = true -> noDoubleDash s = true -> startsWithDash s = false ->
  allChars isSlugChar (stripTrailingDash s) = true
  /\ noDoubleDash (stripTrailingDash s) = true
  /\ startsWithDash (stripTrailingDash s) = false.
Proof.
  intros Hall Hnd Hhead.
  assert (allChars isSlugChar (stripTrailingDash s) = true
          /\ noDoubleDash (stripTrailingDash s) = true) as [Hall' Hnd'].
  { clear Hhead. induction s as [| c s IH]; [auto |].
    cbn [allChars] in Hall. apply andb_true_iff in Hall as [Hc Hall].
    destruct s as [| d s'].
    - cbn [stripTrailingDash]. destruct (isDash c); [auto |].
      cbn [allChars noDoubleDash]. rewrite Hc. auto.
    - rewrite stripTrailingDash_cons.
      destruct (IH Hall (noDoubleDash_tail _ _ Hnd)) as [Ha Hn].
      split; [cbn [allChars]; rewrite Hc; exact Ha |].
      destruct (stripTrailingDash_head d s') as [-> | [t Ht]]; [reflexivity |].
      rewrite Ht in *. rewrite noDoubleDash_cons, Hn, andb_true_r.
      rewrite noDoubleDash_cons in Hnd. apply andb_true_iff in Hnd as [Hcd _].
      exact Hcd. }
  split; [exact Hall' |]. split; [exact Hnd' |].
  destruct s as [| c s]; [reflexivity |].
  destruct (stripTrailingDash_head c s) as [-> | [t ->]]; [reflexivity | exact Hhead].
Qed.

Lemma takeChars_facts (n : nat) (s : string) :
  allChars isSlugChar s = true -> noDoubleDash s = true -> startsWithDash s = false ->
  (String.length (takeChars n s) <= n)%nat
  /\ allChars isSlugChar (takeChars n s) = true
  /\ noDoubleDash (takeChars n s) = true
  /\ startsWithDash (takeChars n s) = false.
Proof.
  intros Hall Hnd Hhead.
  assert ((String.length (takeChars n s) <= n)%nat) as Hlen.
  { clear. revert s. induction n as [| n IH]; intros s; [cbn; lia |].
    destruct s as [| c s]; cbn [takeChars String.length]; [lia |].
    specialize (IH s). lia. }
  assert (allChars isSlugChar (takeChars n s) = true) as Hall'.
  { clear Hnd Hhead Hlen. revert s Hall. induction n as [| n IH]; intros s Hall;
      [reflexivity |].
    destruct s as [| c s]; [reflexivity |]. cbn [takeChars allChars] in *.
    apply andb_true_iff in Hall as [Hc Hall]. rewrite Hc. apply IH. exact Hall. }
  assert (noDoubleDash (takeChars n s) = true) as Hnd'.
  { clear Hall Hhead Hlen Hall'. revert s Hnd. induction n as [| n IH]; intros s Hnd;
      [reflexivity |].
    destruct s as [| c s]; [reflexivity |]. cbn [takeChars].
    pose proof (IH s (noDoubleDash_tail c s Hnd)) as Ht.
    destruct n as [| n']; [reflexivity |].
    destruct s as [| d s']; [reflexivity |].
    cbn [takeChars] in *. rewrite noDoubleDash_cons in Hnd.
    apply andb_true_iff in Hnd as [Hcd _].
    rewrite noDoubleDash_cons, Hcd. exact Ht. }
  repeat split; try assumption.
  destruct n as [| n]; [reflexivity |]. destruct s as [| c s]; [reflexivity |].
  exact Hhead.
Qed.

(** X28.  The name a deployment is created under: whatever the project is
    called, the cleaned name has at most 50 characters, all of them lower
    case letters, digits or dashes, never two dashes in a row and no dash
    at its head. *)
Theorem cleanProjectName_shape (projectName : string) :
  (String.length (cleanProjectName projectName) <= 50)%nat
  /\ allChars isSlugChar (cleanProjectName projectName) = true
  /\ noDoubleDash (cleanProjectName projectName) = true
  /\ startsWithDash (cleanProjectName projectName) = false.
Proof.
  unfold cleanProjectName.
  pose proof (collapseDashes_slug _ (replaceOutside_slug (toLowerCase projectName)))
    as Hall.
  pose proof (collapseDashes_noDouble (replaceOutside (toLowerCase projectName))) as Hnd.
  destruct (stripLeadingDash_facts _ Hall Hnd) as (Hall1 & Hnd1 & Hh1).
  destruct (stripTrailingDash_facts _ Hall1 Hnd1 Hh1) as (Hall2 & Hnd2 & Hh2).
  apply takeChars_facts; assumption.
Qed.

(* ===================================================================== *)
(** ** Prompt enhancement                                                *)
(* ===================================================================== *)

Lemma dropWhile_all (p : ascii -> bool) (s : string) :
  allChars p s = true -> dropWhile p s = "".
Proof.
  induction s as [| c s IH]; [reflexivity |].
  cbn [allChars dropWhile]. intros H. apply andb_true_iff in H as [-> H]. auto.
Qed.

Lemma isVisible_not_space (c : ascii) : isVisible c = true -> isSpace c = false.
Proof.
  destruct c as [[] [] [] [] [] [] [] []]; vm_compute; intros H;
    first [reflexivity | discriminate H].
Qed.

Lemma trimEnd_head (c : ascii) (s : string) :
  isSpace c = false -> trimEnd (String c s) = String c (trimEnd s).
Proof. intros Hc. cbn [trimEnd]. rewrite Hc. reflexivity. Qed.

(** A text that holds a visible character is not trimmed to nothing. *)
Lemma trim_visible (s : string) : hasVisible s = true -> trim s <> "".
Proof.
  unfold hasVisible, trim. intros Hv. apply negb_true_iff in Hv.
  induction s as [| c s IH]; [discriminate |].
  cbn [allChars] in Hv. cbn [dropWhile].
  destruct (isSpace c) eqn:Hc.
  - apply IH. destruct (isVisible c) eqn:Hvc.
    + apply isVisible_not_space in Hvc. congruence.
    + exact Hv.
  - rewrite (trimEnd_head c s Hc). discriminate.
Qed.

(** X29.  What enhancing a prompt returns.  The prompt itself, unchanged,
    when the call to the model throws, when no text can be taken from the
    response, and when the text taken is missing, empty or white space
    only; the text of the model when it holds a visible character. *)
Theorem enhanceUserPrompt_outcome (prompt : string) (generated : Completion Response) :
  (noAnswer generated -> enhanceUserPrompt prompt generated = prompt)
  /\ (forall response responseText,
        generated = Normal response ->
        extractResponseText response = Normal responseText ->
        (truthyStr responseText = false
         \/ allChars isSpace (default "" responseText) = true ->
         enhanceUserPrompt prompt generated = prompt)
        /\ (forall t, responseText = Some t -> hasVisible t = true ->
                      enhanceUserPrompt prompt generated = t)).
Proof.
  split.
  - unfold noAnswer, enhanceUserPrompt.
    destruct generated as [response | e]; [| reflexivity].
    intros [e ->]. reflexivity.
  - intros response responseText -> Hx. unfold enhanceUserPrompt. rewrite Hx. split.
    + intros [Hf | Hblank].
      * rewrite Hf. reflexivity.
      * unfold trim. rewrite (dropWhile_all _ _ Hblank). cbn [trimEnd String.eqb].
        rewrite orb_true_r. reflexivity.
    + intros t -> Hv. cbn [truthyStr default from_option]. unfold id.
      pose proof (trim_visible t Hv) as Htrim.
      assert (nonEmpty t = true) as ->.
      { destruct t; [discriminate Hv | reflexivity]. }
      apply String.eqb_neq in Htrim. rewrite Htrim. reflexivity.
Qed.

(* ===================================================================== *)
(** ** ToolRegistry: updating the files of a project                     *)
(* ===================================================================== *)

Lemma setProp_fresh (k : string) (v : JsVal) (fs : list (string * JsVal)) :
  k ∉ map fst fs -> setProp k v fs = fs ++ [(k, v)].
Proof.
  induction fs as [| [k' v'] fs IH]; [reflexivity |].
  cbn [map fst setProp]. intros Hk. apply not_elem_of_cons in Hk as [Hne Hk].
  destruct (String.eqb k k') eqn:Heq.
  - apply String.eqb_eq in Heq. congruence.
  - cbn [app]. rewrite (IH Hk). reflexivity.
Qed.

Section UpdateHandlerFacts.

Context {B E : Type}.
Variable projectExists : JsVal -> option string -> E -> Completion JsVal * E.
Variable saveProjectFile :
  JsVal -> string -> JsVal -> option string -> E -> Completion unit * E.

(** The loop attempts every save and adds the report of each, in order. *)
Lemma updateEach_spec projectName userId entries :
  forall results (w : World B E),
    NoDup (map fst results ++ map fst entries) ->
    Forall (fun k => plainKey k = true) (map fst entries) ->
    updateEach saveProjectFile projectName userId entries results w
    = (Normal (results ++ reportsOver saveProjectFile projectName userId entries (env w)),
       mkWorld (backend w) (savesOver saveProjectFile projectName userId entries (env w))
         (trace w) (ProjectHistory w)).
Proof.
  induction entries as [| [fileType content] rest IH]; intros results w Hnd Hplain.
  - cbn [updateEach savesOver reportsOver]. rewrite app_nil_r.
    unfold ret. destruct w; reflexivity.
  - cbn [map fst] in Hnd, Hplain. apply Forall_cons in Hplain as [Hkey Hplain].
    assert (fileType ∉ map fst results) as Hfresh.
    { pose proof Hnd as Hnd0. apply NoDup_app in Hnd0 as (_ & Hdisj & _). intros Hin.
      apply (Hdisj fileType Hin). left. }
    assert (String.eqb fileType "__proto__" = false) as Hneb.
    { unfold plainKey in Hkey. apply andb_true_iff in Hkey as [Hkey _].
      apply negb_true_iff in Hkey. exact Hkey. }
    assert (forall outcome,
              assignProp fileType outcome results = results ++ [(fileType, outcome)]
              /\ NoDup (map fst (results ++ [(fileType, outcome)]) ++ map fst rest))
      as Hstep.
    { intros outcome. unfold assignProp. rewrite Hneb, (setProp_fresh _ _ _ Hfresh).
      split; [reflexivity |].
      rewrite map_app. cbn [map fst]. rewrite <- app_assoc. exact Hnd. }
    cbn [updateEach savesOver reportsOver]. unfold bind at 1, tryCatch, bind, onEnv, ret.
    destruct (saveProjectFile projectName fileType content userId (env w))
      as [[[] | err] e'] eqn:Hsave; cbn [fst snd].
    + destruct (Hstep (JStr "Updated successfully")) as [-> Hnd'].
      rewrite (IH _ (mkWorld (backend w) e' (trace w) (ProjectHistory w)) Hnd' Hplain).
      cbn [env backend trace ProjectHistory]. rewrite <- app_assoc. reflexivity.
    + destruct (Hstep (JStr ("Failed: " +:+ showUndef (message err)))) as [-> Hnd'].
      rewrite (IH _ (mkWorld (backend w) e' (trace w) (ProjectHistory w)) Hnd' Hplain).
      cbn [env backend trace ProjectHistory]. rewrite <- app_assoc. reflexivity.
Qed.

(** X30.  Updating the files of a project that the call names by a string.
    When the storage service does not know the project,
    [updateProjectFiles] answers ["Error: Project <name> not found"] and
    attempts no save.  When it does, and [updates] is an object whose keys
    are file-type names (distinct, none of them [__proto__] or made of
    digits), a save is attempted for every entry, in order, also after one
    of them failed; the answer is an object with one report per file type,
    in the same order: ["Updated successfully"] where the save returned,
    ["Failed: <message>"] where it threw.  Nothing but the storage service
    is touched. *)
Theorem updateProjectFiles_reports args userId p updates found e1 (w : World B E) :
  destructure args "projectName" = Normal (JStr p) ->
  destructure args "updates" = Normal (JObj updates) ->
  projectExists (JStr p) userId (env w) = (Normal found, e1) ->
  (truthy found = false ->
   updateProjectFiles projectExists saveProjectFile args userId w
   = (Normal (JStr ("Error: Project " +:+ p +:+ " not found")),
      mkWorld (backend w) e1 (trace w) (ProjectHistory w)))
  /\ (truthy found = true ->
      NoDup (map fst updates) ->
      Forall (fun k => plainKey k = true) (map fst updates) ->
      updateProjectFiles projectExists saveProjectFile args userId w
      = (Normal (JObj (reportsOver saveProjectFile (JStr p) userId updates e1)),
         mkWorld (backend w) (savesOver saveProjectFile (JStr p) userId updates e1)
           (trace w) (ProjectHistory w))).
Proof.
  intros Hpn Hup Hex.
  assert (updateProjectFiles projectExists saveProjectFile args userId w
          = (let (c, w') :=
               (if negb (truthy found) then
                  ret (JStr ("Error: Project " +:+ p +:+ " not found"))
                else
                  (entries <- liftC (entriesOf (JObj updates)) ;;
                   results <- updateEach saveProjectFile (JStr p) userId entries [] ;;
                   ret (JObj results))%js)
                 (mkWorld (backend w) e1 (trace w) (ProjectHistory w)) in
             match c with
             | Normal a => (Normal a, w')
             | Throw e => ret (JStr ("Error: " +:+ showUndef (message e))) w'
             end)) as Hunfold.
  { unfold updateProjectFiles.
    unfold bind at 1, liftC. rewrite Hpn. unfold bind at 1. rewrite Hup.
    unfold tryCatch, bind at 1, onEnv. rewrite Hex. reflexivity. }
  split.
  - intros Hf. rewrite Hunfold. destruct (truthy found); [discriminate |]. reflexivity.
  - intros Hf Hnd Hplain.
    pose proof (updateEach_spec (JStr p) userId updates []
                  (mkWorld (backend w) e1 (trace w) (ProjectHistory w))
                  Hnd Hplain) as Hrun.
    rewrite Hunfold. destruct (truthy found); [| discriminate].
    cbn [negb entriesOf]. unfold bind, liftC, ret. cbv beta iota.
    cbv beta iota in Hrun. rewrite Hrun. reflexivity.
Qed.

End UpdateHandlerFacts.

Lemma updateProjectFiles_reports_witness :
  updateProjectFiles (B := unit) demoExists demoSave demoUpdate None
    (mkWorld tt [] [] ∅)
  = (Normal (JObj [("script.js", JStr "Failed: Supabase upload error: quota");
                   ("style.css", JStr "Updated successfully")]),
     mkWorld tt [("style.css", JStr "a{}")] [] ∅).
Proof.
  apply (updateProjectFiles_reports (B := unit) demoExists demoSave demoUpdate None
           "shop" [("script.js", JStr "let x;"); ("style.css", JStr "a{}")]
           (JBool true) [] (mkWorld tt [] [] ∅)).
  - reflexivity.
  - reflexivity.
  - reflexivity.
  - reflexivity.
  - apply NoDup_cons. split; [| apply NoDup_singleton].
    apply not_elem_of_cons. split; [discriminate | apply not_elem_of_nil].
  - repeat constructor.
Defined.
